(** * RhinoAI: the enhanced natural-language pipeline

    A shallow embedding of the C# pipeline that the repository generates
    from [Resources/script_1.py] (class [EnhancedNLPProcessor]) and
    [Resources/script_2.py] (its supporting classes), with the properties
    the design document states about it.

    Conventions of the embedding.
    - [double] values are exact rationals ([Q]).  The radius is compared
      with 0 and 1000, which doubles represent exactly; on the registered
      catalog two confidences, or a confidence and the threshold 0.7, are
      either the result of the same operations or at least 0.02 apart, so
      rounding never changes a branch.  NaN and infinities are not
      modelled: a division by a zero keyword count is 0 here.
    - [string] is a byte string; the character classes of the regular
      expressions and of [IsNullOrWhiteSpace] are the ASCII ones.
    - Objects that the code shares by reference (parameter dictionaries and
      conversation contexts) live in stores of the [World] and are passed as
      locations.
    - Code that is awaited is run to completion in program order. *)

From Stdlib Require Import ZArith QArith Lia Lqa List String Ascii.
From stdpp Require Import base option list strings gmap pretty.

Open Scope string_scope.

(** ** Strings *)

Module Str.

Definition is_upper (c : ascii) : bool :=
  let n := nat_of_ascii c in (65 <=? n)%nat && (n <=? 90)%nat.

Definition is_lower (c : ascii) : bool :=
  let n := nat_of_ascii c in (97 <=? n)%nat && (n <=? 122)%nat.

Definition is_digit (c : ascii) : bool :=
  let n := nat_of_ascii c in (48 <=? n)%nat && (n <=? 57)%nat.

(** [\s]: space, tab, line feed, vertical tab, form feed, carriage return. *)
Definition is_white (c : ascii) : bool :=
  let n := nat_of_ascii c in (n =? 32)%nat || ((9 <=? n)%nat && (n <=? 13)%nat).

(** [\w]: letters, digits and the underscore. *)
Definition is_word (c : ascii) : bool :=
  is_upper c || is_lower c || is_digit c || (nat_of_ascii c =? 95)%nat.

Definition lower_char (c : ascii) : ascii :=
  if is_upper c then ascii_of_nat (nat_of_ascii c + 32) else c.

Fixpoint ToLowerInvariant (s : string) : string :=
  match s with
  | EmptyString => EmptyString
  | String c s' => String (lower_char c) (ToLowerInvariant s')
  end.

Fixpoint starts_with (p s : string) : bool :=
  match p, s with
  | EmptyString, _ => true
  | String a p', String b s' => Ascii.eqb a b && starts_with p' s'
  | String _ _, EmptyString => false
  end.

(** [s.Contains(k)], ordinal. *)
Fixpoint Contains (s k : string) : bool :=
  starts_with k s ||
  match s with
  | EmptyString => false
  | String _ s' => Contains s' k
  end.

(** [s.Contains(k, StringComparison.OrdinalIgnoreCase)]. *)
Definition ContainsIgnoreCase (s k : string) : bool :=
  Contains (ToLowerInvariant s) (ToLowerInvariant k).

Fixpoint all_white (s : string) : bool :=
  match s with
  | EmptyString => true
  | String c s' => is_white c && all_white s'
  end.

Definition IsNullOrWhiteSpace (s : option string) : bool :=
  match s with
  | None => true
  | Some s => all_white s
  end.

Definition IsNullOrEmpty (s : option string) : bool :=
  match s with
  | None => true
  | Some EmptyString => true
  | Some _ => false
  end.

Fixpoint Join (sep : string) (l : list string) : string :=
  match l with
  | [] => ""
  | [x] => x
  | x :: rest => x ++ sep ++ Join sep rest
  end.

Fixpoint take (n : nat) (s : string) : string :=
  match n, s with
  | S n', String c s' => String c (take n' s')
  | _, _ => EmptyString
  end.

(** The double quote character, written by code. *)
Definition dquote : ascii := ascii_of_nat 34.

End Str.

(** ** Regular expressions

    The fragment of .NET regular expressions the extractors use, with the
    backtracking semantics of [Regex.Match]: leftmost start position, greedy
    repetition, alternatives tried in order, numbered capture groups. *)

Module Regex.

Inductive regex : Type :=
| Eps
| Chr (p : ascii -> bool)
| Seq (r1 r2 : regex)
| Alt (r1 r2 : regex)
| Star (r : regex)
| Group (i : nat) (r : regex).

Definition Plus (r : regex) : regex := Seq r (Star r).
Definition Opt (r : regex) : regex := Alt r Eps.

Definition chr (c : ascii) : regex := Chr (Ascii.eqb c).
Definition chr_i (c : ascii) : regex :=
  Chr (fun x => Ascii.eqb (Str.lower_char x) (Str.lower_char c)).

(** A literal, case sensitive or under [RegexOptions.IgnoreCase]. *)
Fixpoint lit (ignoreCase : bool) (s : string) : regex :=
  match s with
  | EmptyString => Eps
  | String c s' => Seq (if ignoreCase then chr_i c else chr c) (lit ignoreCase s')
  end.

Definition ws : regex := Chr Str.is_white.
Definition digit : regex := Chr Str.is_digit.
Definition word : regex := Chr Str.is_word.

Fixpoint seqs (l : list regex) : regex :=
  match l with
  | [] => Eps
  | [r] => r
  | r :: l' => Seq r (seqs l')
  end.

Fixpoint alts (l : list regex) : regex :=
  match l with
  | [] => Eps
  | [r] => r
  | r :: l' => Alt r (alts l')
  end.

Definition captures : Type := list (nat * string).

Fixpoint group (caps : captures) (i : nat) : option string :=
  match caps with
  | [] => None
  | (j, v) :: caps' => if (i =? j)%nat then Some v else group caps' i
  end.

(** [run r s caps k]: match [r] at the start of [s], then continue with
    [k] on the rest; [None] makes the matcher backtrack. *)
Fixpoint run {R : Type} (r : regex) (s : string) (caps : captures)
    (k : string -> captures -> option R) {struct r} : option R :=
  match r with
  | Eps => k s caps
  | Chr p =>
      match s with
      | String c s' => if p c then k s' caps else None
      | EmptyString => None
      end
  | Seq r1 r2 => run r1 s caps (fun s' caps' => run r2 s' caps' k)
  | Alt r1 r2 =>
      match run r1 s caps k with
      | Some x => Some x
      | None => run r2 s caps k
      end
  | Star r1 =>
      (fix loop (n : nat) (s : string) (caps : captures) {struct n} : option R :=
         match n with
         | O => k s caps
         | S n' =>
             match run r1 s caps
                     (fun s' caps' =>
                        if (String.length s' <? String.length s)%nat
                        then loop n' s' caps' else None) with
             | Some x => Some x
             | None => k s caps
             end
         end) (String.length s) s caps
  | Group i r1 =>
      run r1 s caps
        (fun s' caps' =>
           k s' ((i, Str.take (String.length s - String.length s') s) :: caps'))
  end.

(** [Regex.Match(input, r)]: the captures of the leftmost match. *)
Fixpoint Match (r : regex) (input : string) : option captures :=
  match run r input [] (fun _ caps => Some caps) with
  | Some caps => Some caps
  | None =>
      match input with
      | EmptyString => None
      | String _ rest => Match r rest
      end
  end.

End Regex.

(** ** Numbers *)

Module Num.

Definition Qltb (a b : Q) : bool := negb (Qle_bool b a).

Fixpoint digits_from (acc : Z) (s : string) : option Z :=
  match s with
  | EmptyString => Some acc
  | String c s' =>
      if Str.is_digit c
      then digits_from (10 * acc + (Z.of_nat (nat_of_ascii c) - 48)) s'
      else None
  end.

Definition digits (s : string) : option Z :=
  match s with
  | EmptyString => None
  | _ => digits_from 0 s
  end.

Fixpoint split_dot (s : string) : string * option string :=
  match s with
  | EmptyString => (EmptyString, None)
  | String c s' =>
      if Ascii.eqb c "." then (EmptyString, Some s')
      else let '(a, b) := split_dot s' in (String c a, b)
  end.

Definition unsigned_decimal (s : string) : option Q :=
  let '(ip, fp) := split_dot s in
  match digits ip, fp with
  | Some i, None => Some (inject_Z i)
  | Some i, Some f =>
      match digits f with
      | Some fv => Some (Qplus (inject_Z i) (Qmake fv (Pos.pow 10 (Pos.of_nat (String.length f)))))
      | None => None
      end
  | None, _ => None
  end.

(** [double.TryParse] on the decimal literals the regular expressions
    capture: an optional sign, digits, an optional fraction. *)
Definition TryParse (s : string) : option Q :=
  match s with
  | String "-" s' => option_map Qopp (unsigned_decimal s')
  | _ => unsigned_decimal s
  end.

End Num.

(** ** Data classes (script_2.py, "Data classes for enhanced NLP processing") *)

Definition loc : Type := nat.
Definition Guid : Type := Z.
Definition Guid_Empty : Guid := 0%Z.

Record Point3d : Type := mkPoint3d { PX : Q; PY : Q; PZ : Q }.
Record Vector3d : Type := mkVector3d { VX : Q; VY : Q; VZ : Q }.

Definition Point3d_Origin : Point3d := mkPoint3d 0 0 0.
Definition Point3d_add (p : Point3d) (v : Vector3d) : Point3d :=
  mkPoint3d (PX p + VX v) (PY p + VY v) (PZ p + VZ v).

(** The values a [Dictionary<string, object>] of parameters holds. *)
Inductive obj : Type :=
| VNull
| VDouble (d : Q)
| VInt (i : Z)
| VString (s : string)
| VPoint3d (p : Point3d)
| VVector3d (v : Vector3d)
| VDoubleArray (coords : list Q).

Inductive IntentCategory : Type :=
| DirectCommand | ComplexOperation | Query | Modification | Unknown.

Module CommandTemplate.
Record t : Type := mk {
  CommandName : string;
  Parameters : list string;
  Description : option string;
  Keywords : option (list string) }.
End CommandTemplate.

Module IntentResult.
Record t : Type := mk {
  Category : IntentCategory;
  CommandTemplate : option CommandTemplate.t;
  Confidence : Q;
  Keywords : list string }.
End IntentResult.

Module IntentPattern.
Record t : Type := mk {
  Category : IntentCategory;
  Keywords : list string;
  Template : CommandTemplate.t }.
End IntentPattern.

Module CreatedObject.
Record t : Type := mk {
  Id : Guid;
  Type_ : string;
  Parameters : loc;
  Position : Point3d }.
End CreatedObject.

Module ConversationContext.
Record t : Type := mk {
  RecentOperations : list string;
  ActiveLayer : option string;
  SelectedObjects : list Guid;
  SceneDescription : option string;
  LastCreatedObject : option CreatedObject.t }.

(** [new ConversationContext()] *)
Definition new : t := mk [] None [] None None.

(** "Calculate relevance based on recent operations": the simplified
    implementation returns a constant. *)
Definition GetRelevanceScore (category : IntentCategory) : Q := 0.1.
End ConversationContext.

Module ConversationTurn.
Record t : Type := mk { Input : string; Timestamp : Z }.
End ConversationTurn.

Module ValidationResult.
Record t : Type := mk { IsValid : bool; ErrorMessage : option string }.
Definition Valid : t := mk true None.
Definition Invalid (message : string) : t := mk false (Some message).
End ValidationResult.

Module ProcessingResultType.
Inductive t : Type := Success | Error | Warning | Partial.
End ProcessingResultType.

Module ProcessingResult.
Record t : Type := mk {
  IsSuccess : bool;
  Message : option string;
  ErrorMessage : option string;
  Type_ : ProcessingResultType.t }.

Definition Success (message : option string) : t :=
  mk true message None ProcessingResultType.Success.
Definition Error (error : option string) : t :=
  mk false None error ProcessingResultType.Error.
Definition Warning (message : option string) : t :=
  mk true message None ProcessingResultType.Warning.
Definition Partial (message : option string) : t :=
  mk true message None ProcessingResultType.Partial.
End ProcessingResult.

Module CachedResponse.
Record t : Type := mk { Result : ProcessingResult.t; ExpiryTime : Z }.
(** [IsExpired => DateTime.UtcNow > ExpiryTime] *)
Definition IsExpired (utcNow : Z) (this : t) : bool := (ExpiryTime this <? utcNow)%Z.
End CachedResponse.

(** The structured reply the system prompt asks the providers for. *)
Module AIAction.
Record t : Type := mk {
  CommandName : string;
  Parameters : gmap string obj;
  Confidence : Q }.
End AIAction.

Module AIResponse.
Record t : Type := mk {
  Actions : option (list AIAction.t);
  ResponseText : option string }.
End AIResponse.

Module EnhancedAIRequest.
Record t : Type := mk {
  UserInput : string;
  Context : option ConversationContext.t;
  AvailableCommands : list CommandTemplate.t;
  SceneInfo : string }.
End EnhancedAIRequest.

(** ** Exceptions, outcomes, the call trace *)

#[warnings="-register-all"]
Inductive exn : Type :=
| NullReferenceException
| ArgumentNullException
| InvalidOperationException (message : string) (inner : option exn)
| Exception (message : string).

Definition exn_Message (ex : exn) : string :=
  match ex with
  | NullReferenceException => "Object reference not set to an instance of an object."
  | ArgumentNullException => "Value cannot be null."
  | InvalidOperationException m _ => m
  | Exception m => m
  end.

Inductive Outcome (A : Type) : Type :=
| Returns (a : A)
| Throws (ex : exn).
Arguments Returns {A} a.
Arguments Throws {A} ex.

Inductive LogLevel : Type := LogDebug | LogInformation | LogWarning | LogError.

(** One entry per call the processor makes to a component or a
    collaborator, in program order. *)
Inductive Event : Type :=
| EvLog (level : LogLevel) (message : string) (detail : option exn)
| EvClassifyIntent (input : string)
| EvEnhanceContext (input : string)
| EvExtractParameters (input commandName : string)
| EvValidateParameters (commandName : string)
| EvPreExecuteValidation (commandName : string)
| EvAdjustParameters (parameters : loc) (errorMessage : option string)
| EvExecuteRhinoCommand (commandName : string) (parameters : loc)
| EvDelay (milliseconds : Z)
| EvHandleLowConfidence (input : string)
| EvHandleException (ex : exn)
| EvHandleFailedExecution (commandName : string) (lastException : option exn)
| EvCacheLookup (key : string)
| EvCacheStore (key : string)
| EvProvider (name : string)
| EvParseWithRecovery (response : string)
| EvProcessAction (commandName : string)
| EvGetSceneInfo
| EvProcessOther (category : IntentCategory)
| EvCreateOther (commandName : string)
| EvRhino (call : string)
| EvAddCreatedObject (id : Guid).

(** ** Collaborators

    Everything the two generated classes call but do not define: the host
    application, the two provider clients, the clock, .NET formatting, and
    the members of the processor whose bodies are not part of the sources.
    [Env] is the collaborators' own state. *)

Class Host (Env : Type) : Type := {
  UtcNow : Env -> Z;                               (* milliseconds *)
  Task_Delay : Z -> Env -> Env;
  NewLine : string;
  Double_ToString : Q -> string;
  Format_F2 : Q -> string;
  Point3d_ToString : Point3d -> string;
  Vector3d_ToString : Vector3d -> string;
  JsonSerialize : EnhancedAIRequest.t -> string;
  (* provider clients *)
  OpenAI_ProcessTextAsync : string -> string -> Env -> Outcome (option string) * Env;
  Claude_ProcessTextAsync : string -> string -> Env -> Outcome (option string) * Env;
  (* RobustJsonParser *)
  ParseWithRecoveryAsync : string -> Env -> Outcome (option AIResponse.t) * Env;
  (* members of EnhancedNLPProcessor without a body in the sources *)
  GenerateCacheKey : string -> option ConversationContext.t -> string;
  InitializeEnhancedCommandTemplates : list CommandTemplate.t;
  PromptPreamble : string;
  PromptRules : string;
  GetCurrentSceneInfoAsync : Env -> Outcome string * Env;
  ProcessActionWithValidation : AIAction.t -> Env -> Outcome string * Env;
  ProcessOther : IntentCategory -> string -> IntentResult.t -> Env
                 -> Outcome ProcessingResult.t * Env;
  CreateOther : string -> gmap string obj -> Env -> Outcome ProcessingResult.t * Env;
  EnsureLayer : string -> Env -> Outcome Z * Env;
  (* Rhino *)
  Sphere_ToBrep_IsValid : Point3d -> Q -> Env -> Outcome bool * Env;
  Objects_AddBrep : Point3d -> Q -> bool -> option Z -> Env -> Outcome Guid * Env;
  Views_Redraw : Env -> Outcome unit * Env;
  (* texts of the FallbackHandler, whose class is not part of the sources *)
  LowConfidenceText : string -> IntentResult.t -> string;
  ExceptionText : exn -> string -> string;
  FailedExecutionText : CommandTemplate.t -> option exn -> string }.

(** ** The state the processor owns *)

Record World (Env : Type) : Type := mkWorld {
  env : Env;
  trace : list Event;
  _responseCache : gmap string CachedResponse.t;
  _history : list ConversationTurn.t;
  dicts : list (gmap string obj);
  contexts : list ConversationContext.t }.
Arguments mkWorld {Env}.
Arguments env {Env}.
Arguments trace {Env}.
Arguments _responseCache {Env}.
Arguments _history {Env}.
Arguments dicts {Env}.
Arguments contexts {Env}.

Definition M (Env A : Type) : Type := World Env -> Outcome A * World Env.

(** ** The monad of the processor: state and exceptions *)

Section Monad.
Context {Env : Type}.

Definition ret {A : Type} (a : A) : M Env A := fun w => (Returns a, w).

Definition throw {A : Type} (ex : exn) : M Env A := fun w => (Throws ex, w).

Definition bind {A B : Type} (m : M Env A) (k : A -> M Env B) : M Env B :=
  fun w =>
    match m w with
    | (Returns a, w') => k a w'
    | (Throws ex, w') => (Throws ex, w')
    end.

(** [try { m } catch (Exception ex) { h ex }] *)
Definition try_catch {A : Type} (m : M Env A) (h : exn -> M Env A) : M Env A :=
  fun w =>
    match m w with
    | (Returns a, w') => (Returns a, w')
    | (Throws ex, w') => h ex w'
    end.

Definition set_env (e : Env) (w : World Env) : World Env :=
  mkWorld e (trace w) (_responseCache w) (_history w) (dicts w) (contexts w).
Definition set_trace (t : list Event) (w : World Env) : World Env :=
  mkWorld (env w) t (_responseCache w) (_history w) (dicts w) (contexts w).
Definition set_responseCache (c : gmap string CachedResponse.t) (w : World Env)
  : World Env :=
  mkWorld (env w) (trace w) c (_history w) (dicts w) (contexts w).
Definition set_history (h : list ConversationTurn.t) (w : World Env) : World Env :=
  mkWorld (env w) (trace w) (_responseCache w) h (dicts w) (contexts w).
Definition set_dicts (d : list (gmap string obj)) (w : World Env) : World Env :=
  mkWorld (env w) (trace w) (_responseCache w) (_history w) d (contexts w).
Definition set_contexts (c : list ConversationContext.t) (w : World Env) : World Env :=
  mkWorld (env w) (trace w) (_responseCache w) (_history w) (dicts w) c.

Definition record (e : Event) (w : World Env) : World Env :=
  set_trace (trace w ++ [e]) w.

Definition emit (e : Event) : M Env unit := fun w => (Returns tt, record e w).

Definition gets {A : Type} (f : World Env -> A) : M Env A := fun w => (Returns (f w), w).

Definition modify (f : World Env -> World Env) : M Env unit :=
  fun w => (Returns tt, f w).

(** A call to a collaborator: it sees and changes only its own state. *)
Definition call {A : Type} (f : Env -> Outcome A * Env) : M Env A :=
  fun w => let '(r, e) := f (env w) in (r, set_env e w).

(** Dereferencing; a dangling location stands for [null]. *)
Definition read_dict (l : loc) : M Env (gmap string obj) :=
  fun w =>
    match dicts w !! l with
    | Some d => (Returns d, w)
    | None => (Throws NullReferenceException, w)
    end.

Definition write_dict (l : loc) (d : gmap string obj) : M Env unit :=
  modify (fun w => set_dicts (<[l := d]> (dicts w)) w).

(** [new Dictionary<string, object>(...)] *)
Definition new_dict (d : gmap string obj) : M Env loc :=
  fun w => (Returns (length (dicts w)), set_dicts (dicts w ++ [d]) w).

Definition read_context (l : loc) : M Env ConversationContext.t :=
  fun w =>
    match contexts w !! l with
    | Some c => (Returns c, w)
    | None => (Throws NullReferenceException, w)
    end.

Definition read_context_opt (l : option loc) : M Env (option ConversationContext.t) :=
  match l with
  | None => ret None
  | Some l => bind (read_context l) (fun c => ret (Some c))
  end.

Definition write_context (l : loc) (c : ConversationContext.t) : M Env unit :=
  modify (fun w => set_contexts (<[l := c]> (contexts w)) w).

Definition new_context (c : ConversationContext.t) : M Env loc :=
  fun w => (Returns (length (contexts w)), set_contexts (contexts w ++ [c]) w).

Fixpoint mapM {A B : Type} (f : A -> M Env B) (l : list A) : M Env (list B) :=
  match l with
  | [] => ret []
  | x :: l' => bind (f x) (fun y => bind (mapM f l') (fun ys => ret (y :: ys)))
  end.

End Monad.

Notation "'let*' x ':=' m 'in' k" := (bind m (fun x => k))
  (at level 10, x name, m at level 200, k at level 200).
Notation "m ;;; k" := (bind m (fun _ => k))
  (at level 100, k at level 200, right associativity).

(** ** IntentClassifier (script_2.py) *)

Module IntentClassifier.

Definition InitializeIntentPatterns : list (string * IntentPattern.t) :=
  [ ("create_sphere",
     IntentPattern.mk DirectCommand
       ["sphere"; "ball"; "round"; "create"; "make"]
       (CommandTemplate.mk "CreateSphere"
          ["center"; "radius"; "material"; "layer"] None None));
    ("create_box",
     IntentPattern.mk DirectCommand
       ["box"; "cube"; "rectangular"; "create"; "make"]
       (CommandTemplate.mk "CreateBox"
          ["center"; "dimensions"; "material"; "layer"] None None));
    ("modify_object",
     IntentPattern.mk Modification
       ["modify"; "change"; "edit"; "update"; "move"; "scale"; "rotate"]
       (CommandTemplate.mk "ModifyObject"
          ["objectId"; "operation"; "parameters"] None None)) ].

(** [_patterns.Values], in declaration order. *)
Definition _patterns : list IntentPattern.t := map snd InitializeIntentPatterns.

Definition matched (input : string) (keywords : list string) : list string :=
  List.filter (fun k => Str.Contains input k) keywords.

Definition keywordScore (input : string) (pattern : IntentPattern.t) : Q :=
  inject_Z (Z.of_nat (length (matched input (IntentPattern.Keywords pattern))))
  / inject_Z (Z.of_nat (length (IntentPattern.Keywords pattern))).

(** [context?.GetRelevanceScore(pattern.Category) ?? 0.0] *)
Definition contextScore (pattern : IntentPattern.t) (context : option loc) : Q :=
  match context with
  | Some _ => ConversationContext.GetRelevanceScore (IntentPattern.Category pattern)
  | None => 0
  end.

Definition CalculateConfidence (input : string) (pattern : IntentPattern.t)
    (context : option loc) : Q :=
  (keywordScore input pattern * 0.7) + (contextScore pattern context * 0.3).

Definition candidate (normalizedInput : string) (pattern : IntentPattern.t)
    (confidence : Q) : IntentResult.t :=
  IntentResult.mk (IntentPattern.Category pattern)
    (Some (IntentPattern.Template pattern))
    confidence
    (matched normalizedInput (IntentPattern.Keywords pattern)).

(** [new IntentResult { Confidence = 0.0 }]: the category is the enum's
    default, its first member. *)
Definition initial : IntentResult.t := IntentResult.mk DirectCommand None 0 [].

(** The [foreach] of [ClassifyIntentAsync]. *)
Fixpoint scan (patterns : list IntentPattern.t) (normalizedInput : string)
    (context : option loc) (bestMatch : IntentResult.t) : IntentResult.t :=
  match patterns with
  | [] => bestMatch
  | pattern :: rest =>
      let confidence := CalculateConfidence normalizedInput pattern context in
      scan rest normalizedInput context
        (if Num.Qltb (IntentResult.Confidence bestMatch) confidence
         then candidate normalizedInput pattern confidence
         else bestMatch)
  end.

Definition ClassifyIntentAsync (input : string) (context : option loc)
  : IntentResult.t :=
  let normalizedInput := Str.ToLowerInvariant input in
  scan _patterns normalizedInput context initial.

End IntentClassifier.

(** ** ContextManager (script_2.py) *)

Module ContextManager.
Import Regex.

Definition _maxHistorySize : nat := 10.

(** [create\s+(\w+)], IgnoreCase *)
Definition create_rx : regex :=
  seqs [lit true "create"; Plus ws; Group 1 (Plus word)].

(** [(move|scale|rotate|modify)], IgnoreCase *)
Definition modify_rx : regex :=
  Group 1 (alts [lit true "move"; lit true "scale"; lit true "rotate"; lit true "modify"]).

Definition ExtractOperation (input : string) : option string :=
  match Match create_rx input with
  | Some caps => Some ("create_" ++ default "" (group caps 1))
  | None =>
      match Match modify_rx input with
      | Some caps => Some (Str.ToLowerInvariant (default "" (group caps 1)))
      | None => None
      end
  end.

Definition TakeLast {A : Type} (n : nat) (l : list A) : list A :=
  drop (length l - n) l.

Definition ExtractRecentOperations (history : list ConversationTurn.t) : list string :=
  List.filter (fun op => negb (Str.IsNullOrEmpty (Some op)))
    (omap (fun turn => ExtractOperation (ConversationTurn.Input turn))
       (TakeLast 5 history)).

Definition GetActiveLayerAsync : string := "Default".
Definition GetSelectedObjectsAsync : list Guid := [].
Definition GenerateSceneDescriptionAsync : string := "Empty scene".

Section Run.
Context {Env : Type} `{host : Host Env}.

Definition EnhanceContextAsync (input : string) (existingContext : option loc)
  : M Env loc :=
  let* enhanced := match existingContext with
              | Some l => ret l
              | None => new_context ConversationContext.new
              end in
  let* now := gets (fun w => UtcNow (env w)) in
  modify (fun w => set_history (_history w ++ [ConversationTurn.mk input now]) w) ;;;
  modify (fun w => set_history
                     (drop (length (_history w) - _maxHistorySize) (_history w)) w) ;;;
  let* history := gets _history in
  let* c := read_context enhanced in
  write_context enhanced
    (ConversationContext.mk
       (ExtractRecentOperations history)
       (Some GetActiveLayerAsync)
       GetSelectedObjectsAsync
       (Some GenerateSceneDescriptionAsync)
       (ConversationContext.LastCreatedObject c)) ;;;
  ret enhanced.
End Run.

End ContextManager.

(** ** ParameterExtractor (script_2.py) *)

Module ParameterExtractor.
Import Regex.

(** [\d+(?:\.\d+)?] and [-?\d+(?:\.\d+)?] *)
Definition number : regex := Seq (Plus digit) (Opt (Seq (chr ".") (Plus digit))).
Definition signed_number : regex := Seq (Opt (chr "-")) number.

(** [at\s+(-?\d+(?:\.\d+)?)\s*,\s*(-?\d+(?:\.\d+)?)\s*,\s*(-?\d+(?:\.\d+)?)] *)
Definition coord_rx : regex :=
  seqs [lit false "at"; Plus ws; Group 1 signed_number; Star ws; chr ","; Star ws;
        Group 2 signed_number; Star ws; chr ","; Star ws; Group 3 signed_number].

(** [radius\s+(\d+(?:\.\d+)?)], IgnoreCase *)
Definition radius_rx : regex :=
  seqs [lit true "radius"; Plus ws; Group 1 number].

(** [(\d+(?:\.\d+)?)\s*(?:units?|mm|cm|m)?\s+radius], IgnoreCase *)
Definition unit_radius_rx : regex :=
  seqs [Group 1 number; Star ws;
        Opt (alts [Seq (lit true "unit") (Opt (chr_i "s"));
                   lit true "mm"; lit true "cm"; lit true "m"]);
        Plus ws; lit true "radius"].

(** [x] or the two bytes of the multiplication sign *)
Definition times : regex :=
  Alt (chr "x") (Seq (chr (ascii_of_nat 195)) (chr (ascii_of_nat 151))).

(** [(\d+(?:\.\d+)?)\s*[x×]\s*(\d+(?:\.\d+)?)\s*[x×]\s*(\d+(?:\.\d+)?)] *)
Definition dimension_rx : regex :=
  seqs [Group 1 number; Star ws; times; Star ws; Group 2 number; Star ws; times;
        Star ws; Group 3 number].

(** [(?:made\s+of|material|color)\s+(\w+)], IgnoreCase *)
Definition material_rx : regex :=
  seqs [alts [seqs [lit true "made"; Plus ws; lit true "of"];
              lit true "material"; lit true "color"];
        Plus ws; Group 1 (Plus word)].

Definition quote : regex := Alt (chr "'") (chr Str.dquote).

(** [(?:on\s+layer|layer)\s+['"]?(\w+)['"]?], IgnoreCase *)
Definition layer_rx : regex :=
  seqs [alts [seqs [lit true "on"; Plus ws; lit true "layer"]; lit true "layer"];
        Plus ws; Opt quote; Group 1 (Plus word); Opt quote].

Definition parsed (caps : captures) (i : nat) : option Q :=
  group caps i ≫= Num.TryParse.

Definition ExtractRelativePosition (input : string) : option Vector3d :=
  if Str.ContainsIgnoreCase input "next to" then Some (mkVector3d 5 0 0)
  else if Str.ContainsIgnoreCase input "above" then Some (mkVector3d 0 0 5)
  else if Str.ContainsIgnoreCase input "below" then Some (mkVector3d 0 0 (-5))
  else None.

Definition ExtractPoint3d (input : string) (context : option ConversationContext.t)
  : option Point3d :=
  let otherwise :=
    if Str.ContainsIgnoreCase input "origin" then Some Point3d_Origin
    else
      match context ≫= ConversationContext.LastCreatedObject with
      | Some last =>
          match ExtractRelativePosition input with
          | Some relative => Some (Point3d_add (CreatedObject.Position last) relative)
          | None => None
          end
      | None => None
      end in
  match Match coord_rx input with
  | Some caps =>
      match parsed caps 1, parsed caps 2, parsed caps 3 with
      | Some x, Some y, Some z => Some (mkPoint3d x y z)
      | _, _, _ => otherwise
      end
  | None => otherwise
  end.

Definition ExtractRadius (input : string) : option Q :=
  let unitMatch :=
    match Match unit_radius_rx input with
    | Some caps => parsed caps 1
    | None => None
    end in
  match Match radius_rx input with
  | Some caps =>
      match parsed caps 1 with
      | Some radius => Some radius
      | None => unitMatch
      end
  | None => unitMatch
  end.

Definition ExtractDimensions (input : string) : option Vector3d :=
  match Match dimension_rx input with
  | Some caps =>
      match parsed caps 1, parsed caps 2, parsed caps 3 with
      | Some w, Some l, Some h => Some (mkVector3d w l h)
      | _, _, _ => None
      end
  | None => None
  end.

Definition ExtractMaterial (input : string) : option string :=
  match Match material_rx input with
  | Some caps => group caps 1
  | None => None
  end.

Definition ExtractLayer (input : string) : option string :=
  match Match layer_rx input with
  | Some caps => group caps 1
  | None => None
  end.

(** [InitializeExtractors] returns an empty dictionary, so the [default]
    branch of the switch finds no extractor. *)
Definition ExtractParameterAsync (input parameterName : string)
    (context : option ConversationContext.t) : option obj :=
  let name := Str.ToLowerInvariant parameterName in
  if String.eqb name "center" || String.eqb name "position"
  then VPoint3d <$> ExtractPoint3d input context
  else if String.eqb name "radius" then VDouble <$> ExtractRadius input
  else if String.eqb name "dimensions" || String.eqb name "size"
  then VVector3d <$> ExtractDimensions input
  else if String.eqb name "material" then VString <$> ExtractMaterial input
  else if String.eqb name "layer" then VString <$> ExtractLayer input
  else None.

Definition GetPoint3d (parameters : gmap string obj) (key : string)
    (defaultValue : Point3d) : Point3d :=
  match parameters !! key with
  | Some (VPoint3d point) => point
  | Some (VDoubleArray (x :: y :: z :: _)) => mkPoint3d x y z
  | _ => defaultValue
  end.

Section Run.
Context {Env : Type} `{host : Host Env}.

(** [value?.ToString()] *)
Definition obj_ToString (value : obj) : option string :=
  match value with
  | VNull => None
  | VDouble d => Some (Double_ToString d)
  | VInt i => Some (pretty i)
  | VString s => Some s
  | VPoint3d p => Some (Point3d_ToString p)
  | VVector3d v => Some (Vector3d_ToString v)
  | VDoubleArray _ => Some "System.Double[]"
  end.

Definition GetDouble (parameters : gmap string obj) (key : string)
    (defaultValue : Q) : Q :=
  match parameters !! key with
  | Some (VDouble d) => d
  | Some (VInt i) => inject_Z i
  | Some value =>
      match obj_ToString value ≫= Num.TryParse with
      | Some parsed => parsed
      | None => defaultValue
      end
  | None => defaultValue
  end.

Definition GetString (parameters : gmap string obj) (key : string)
    (defaultValue : string) : string :=
  match parameters !! key with
  | Some value => default defaultValue (obj_ToString value)
  | None => defaultValue
  end.

Fixpoint extract_each (input : string) (names : list string)
    (context : option loc) (parameters : loc) : M Env unit :=
  match names with
  | [] => ret tt
  | paramName :: rest =>
      let* ctx := read_context_opt context in
      match ExtractParameterAsync input paramName ctx with
      | Some value =>
          let* d := read_dict parameters in
          write_dict parameters (<[paramName := value]> d)
      | None => ret tt
      end ;;;
      extract_each input rest context parameters
  end.

Definition ExtractParametersAsync (input : string) (template : CommandTemplate.t)
    (context : option loc) : M Env loc :=
  let* parameters := new_dict ∅ in
  extract_each input (CommandTemplate.Parameters template) context parameters ;;;
  ret parameters.

Definition set_radius (adjusted : loc) (value : Q) : M Env unit :=
  let* d := read_dict adjusted in
  write_dict adjusted (<["radius" := VDouble value]> d).

Definition AdjustParametersAsync (parameters : loc) (errorMessage : option string)
  : M Env loc :=
  let* source := try_catch (read_dict parameters) (fun _ => throw ArgumentNullException) in
  let* adjusted := new_dict source in
  match errorMessage with
  | None => throw NullReferenceException
  | Some message =>
      (if Str.ContainsIgnoreCase message "radius"
       then
         let* d := read_dict adjusted in
         match d !! "radius" with
         | Some (VDouble radius) =>
             (if Qle_bool radius 0 then set_radius adjusted 1.0 else ret tt) ;;;
             (if Num.Qltb 1000 radius then set_radius adjusted 10.0 else ret tt)
         | _ => ret tt
         end
       else ret tt) ;;;
      ret adjusted
  end.
End Run.

End ParameterExtractor.

(** ** SemanticValidator (script_2.py) *)

Module SemanticValidator.

Definition ValidateSphereParameters (parameters : gmap string obj)
  : ValidationResult.t :=
  match parameters !! "radius" with
  | Some (VDouble radius) =>
      if Qle_bool radius 0
      then ValidationResult.Invalid "Sphere radius must be positive"
      else ValidationResult.Valid
  | _ => ValidationResult.Valid
  end.

Definition ValidateBoxParameters (parameters : gmap string obj)
  : ValidationResult.t :=
  match parameters !! "dimensions" with
  | Some (VVector3d dimensions) =>
      if Qle_bool (VX dimensions) 0 || Qle_bool (VY dimensions) 0
         || Qle_bool (VZ dimensions) 0
      then ValidationResult.Invalid "Box dimensions must be positive"
      else ValidationResult.Valid
  | _ => ValidationResult.Valid
  end.

Definition nonpositive_double (value : option obj) : bool :=
  match value with
  | Some (VDouble d) => Qle_bool d 0
  | _ => false
  end.

Definition ValidateCylinderParameters (parameters : gmap string obj)
  : ValidationResult.t :=
  if nonpositive_double (parameters !! "radius")
  then ValidationResult.Invalid "Cylinder radius must be positive"
  else if nonpositive_double (parameters !! "height")
  then ValidationResult.Invalid "Cylinder height must be positive"
  else ValidationResult.Valid.

Section Run.
Context {Env : Type} `{host : Host Env}.

Definition ValidateParametersAsync (parameters : loc) (template : CommandTemplate.t)
  : M Env ValidationResult.t :=
  let name := CommandTemplate.CommandName template in
  if String.eqb name "CreateSphere"
  then let* d := read_dict parameters in ret (ValidateSphereParameters d)
  else if String.eqb name "CreateBox"
  then let* d := read_dict parameters in ret (ValidateBoxParameters d)
  else if String.eqb name "CreateCylinder"
  then let* d := read_dict parameters in ret (ValidateCylinderParameters d)
  else ret (ValidationResult.mk true None).

(** "Check layer existence, object conflicts, etc." *)
Definition ValidateContextConstraints (parameters : loc) (context : option loc)
  : M Env ValidationResult.t :=
  ret ValidationResult.Valid.

Definition PreExecuteValidationAsync (template : CommandTemplate.t)
    (parameters : loc) (context : option loc) : M Env ValidationResult.t :=
  let* result := ValidateParametersAsync parameters template in
  if ValidationResult.IsValid result
  then ValidateContextConstraints parameters context
  else ret result.
End Run.

End SemanticValidator.

(** ** FallbackHandler

    The processor constructs a [FallbackHandler] and calls three of its
    methods; the class itself is not among the generated sources. *)

Module FallbackHandler.
Section Run.
Context {Env : Type} `{host : Host Env}.

(** Modelled from the spec: [FallbackHandler.HandleLowConfidenceAsync] is
    missing from the sources; section 4.7 makes it a pure mapping,
    "low-confidence classification -> Partial result inviting
    clarification, carrying the best-guess category". *)
Definition HandleLowConfidenceAsync (input : string) (intentResult : IntentResult.t)
  : ProcessingResult.t :=
  ProcessingResult.Partial (Some (LowConfidenceText input intentResult)).

(** Modelled from the spec: [FallbackHandler.HandleExceptionAsync] is
    missing from the sources; section 4.7: "provider exhaustion -> Error
    result with a generic message", "unexpected internal faults anywhere
    upstream -> Error result with a stable generic message". *)
Definition HandleExceptionAsync (ex : exn) (input : string) : ProcessingResult.t :=
  ProcessingResult.Error (Some (ExceptionText ex input)).

(** Modelled from the spec: [FallbackHandler.HandleFailedExecutionAsync] is
    missing from the sources; section 4.7: "execution exhaustion -> Error
    result summarizing the last failure". *)
Definition HandleFailedExecutionAsync (template : CommandTemplate.t)
    (parameters : loc) (lastException : option exn) : ProcessingResult.t :=
  ProcessingResult.Error (Some (FailedExecutionText template lastException)).
End Run.
End FallbackHandler.

(** ** EnhancedNLPProcessor (script_1.py) *)

Module EnhancedNLPProcessor.
Import ParameterExtractor SemanticValidator.

(** What one turn of the [for] loop of [ExecuteWithRetry] leaves behind. *)
Inductive Iteration : Type :=
| Return_ (result : ProcessingResult.t)
| Next (parameters : loc) (lastException : option exn).

Definition nl : string := String (ascii_of_nat 10) EmptyString.

Section Run.
Context {Env : Type} `{host : Host Env}.

Definition log (level : LogLevel) (message : string) (detail : option exn)
  : M Env unit :=
  emit (EvLog level message detail).

Definition rhino {A : Type} (name : string) (f : Env -> Outcome A * Env) : M Env A :=
  emit (EvRhino name) ;;; call f.

(** [await Task.Delay(ms)] *)
Definition Delay (ms : Z) : M Env unit :=
  emit (EvDelay ms) ;;; modify (fun w => set_env (Task_Delay ms (env w)) w).

(** [ConversationContext.AddCreatedObject] *)
Definition AddCreatedObject (this : loc) (id : Guid) (type : string)
    (parameters : loc) : M Env unit :=
  let* c := read_context this in
  let* d := read_dict parameters in
  write_context this
    (ConversationContext.mk
       (ConversationContext.RecentOperations c)
       (ConversationContext.ActiveLayer c)
       (ConversationContext.SelectedObjects c)
       (ConversationContext.SceneDescription c)
       (Some (CreatedObject.mk id type parameters
                match d !! "center" with
                | Some (VPoint3d point) => point
                | _ => Point3d_Origin
                end))).

Definition CreateEnhancedSphere (parameters : loc) (context : option loc)
  : M Env ProcessingResult.t :=
  let* d := read_dict parameters in
  let center := GetPoint3d d "center" Point3d_Origin in
  let radius := GetDouble d "radius" 1.0 in
  let material := GetString d "material" "" in
  let layer := GetString d "layer" "" in
  if Qle_bool radius 0
  then ret (ProcessingResult.Error (Some "Sphere radius must be positive."))
  else if Num.Qltb 1000 radius
  then ret (ProcessingResult.Warning
              (Some ("Large sphere (radius: " ++ Format_F2 radius ++ "). Continuing...")))
  else
    let invalid :=
      ProcessingResult.Error (Some "Failed to create sphere - invalid geometry") in
    let* valid := rhino "Sphere.ToBrep" (Sphere_ToBrep_IsValid center radius) in
    if valid : bool
    then
      let* layerIndex :=
        if negb (Str.IsNullOrEmpty (Some layer))
        then let* i := rhino "EnsureLayer" (EnsureLayer layer) in ret (Some i)
        else ret None in
      let* id := rhino "Objects.AddBrep"
                   (Objects_AddBrep center radius
                      (negb (Str.IsNullOrEmpty (Some material))) layerIndex) in
      if negb (id =? Guid_Empty)%Z
      then
        match context with
        | Some c => emit (EvAddCreatedObject id) ;;;
                    AddCreatedObject c id "sphere" parameters
        | None => ret tt
        end ;;;
        rhino "Views.Redraw" Views_Redraw ;;;
        ret (ProcessingResult.Success
               (Some ("Created sphere at " ++ Point3d_ToString center
                      ++ " with radius " ++ Format_F2 radius
                      ++ (if negb (Str.IsNullOrEmpty (Some layer))
                          then " on layer '" ++ layer ++ "'" else "")
                      ++ (if negb (Str.IsNullOrEmpty (Some material))
                          then " with material '" ++ material ++ "'" else ""))))
      else ret invalid
    else ret invalid.

(** [CreateEnhancedBox] and [CreateEnhancedCylinder] have no body in the
    sources: collaborators. *)
Definition CreateEnhancedOther (name : string) (parameters : loc)
  : M Env ProcessingResult.t :=
  emit (EvCreateOther name) ;;;
  let* d := gets (fun w => default ∅ (dicts w !! parameters)) in
  call (CreateOther name d).

Definition ExecuteRhinoCommand (template : CommandTemplate.t) (parameters : loc)
    (context : option loc) : M Env ProcessingResult.t :=
  let name := CommandTemplate.CommandName template in
  try_catch
    (emit (EvPreExecuteValidation name) ;;;
     let* preValidation := PreExecuteValidationAsync template parameters context in
     if negb (ValidationResult.IsValid preValidation)
     then ret (ProcessingResult.Error (ValidationResult.ErrorMessage preValidation))
     else if String.eqb name "CreateSphere"
     then CreateEnhancedSphere parameters context
     else if String.eqb name "CreateBox"
     then CreateEnhancedOther "CreateBox" parameters
     else if String.eqb name "CreateCylinder"
     then CreateEnhancedOther "CreateCylinder" parameters
     else ret (ProcessingResult.Error
                 (Some ("Command '" ++ name ++ "' is not implemented."))))
    (fun ex =>
       log LogError ("Error executing command: " ++ name) (Some ex) ;;;
       ret (ProcessingResult.Error (Some ("Execution failed: " ++ exn_Message ex)))).

(** *** ExecuteWithRetry

    [dispatch] stands for the call [ExecuteRhinoCommand(template,
    parameters, context)] inside the loop, so that the retry policy can
    be stated for every behaviour of the callee.

    [attempt] and [maxRetries] are C# ints, taken here as integers without
    wrap-around, and [Task.Delay] is taken to accept its argument. That is
    exact while 1000 * (attempt + 1) is below 2^31, hence for every
    [maxRetries] up to 2147484 and in particular for the default of three,
    the only value the processor passes. *)
Section Retry.
Variable dispatch : CommandTemplate.t -> loc -> option loc -> M Env ProcessingResult.t.

Definition attempt_body (maxRetries : Z) (template : CommandTemplate.t)
    (context : option loc) (attempt : Z) (parameters : loc)
    (lastException : option exn) : M Env Iteration :=
  try_catch
    (emit (EvExecuteRhinoCommand (CommandTemplate.CommandName template) parameters) ;;;
     let* result := dispatch template parameters context in
     if ProcessingResult.IsSuccess result
     then ret (Return_ result)
     else if (attempt <? maxRetries - 1)%Z
     then
       emit (EvAdjustParameters parameters (ProcessingResult.ErrorMessage result)) ;;;
       let* adjusted := AdjustParametersAsync parameters
                          (ProcessingResult.ErrorMessage result) in
       ret (Next adjusted lastException)
     else ret (Next parameters lastException))
    (fun ex =>
       log LogWarning
         ("Attempt " ++ pretty (attempt + 1)%Z ++ " failed: " ++ exn_Message ex)
         None ;;;
       (if (attempt <? maxRetries - 1)%Z
        then Delay (1000 * (attempt + 1))
        else ret tt) ;;;
       ret (Next parameters (Some ex))).

(** The loop from [attempt] on, with [remaining] turns to go. *)
Fixpoint retry_from (maxRetries : Z) (template : CommandTemplate.t)
    (context : option loc) (remaining : nat) (attempt : Z) (parameters : loc)
    (lastException : option exn) : M Env ProcessingResult.t :=
  match remaining with
  | O =>
      emit (EvHandleFailedExecution (CommandTemplate.CommandName template)
              lastException) ;;;
      ret (FallbackHandler.HandleFailedExecutionAsync template parameters
             lastException)
  | S remaining' =>
      let* it := attempt_body maxRetries template context attempt parameters
                   lastException in
      match it with
      | Return_ result => ret result
      | Next parameters' lastException' =>
          retry_from maxRetries template context remaining' (attempt + 1)
            parameters' lastException'
      end
  end.

Definition ExecuteWithRetry_with (template : CommandTemplate.t) (parameters : loc)
    (context : option loc) (maxRetries : Z) : M Env ProcessingResult.t :=
  retry_from maxRetries template context (Z.to_nat maxRetries) 0 parameters None.
End Retry.

(** [int maxRetries = 3] *)
Definition defaultMaxRetries : Z := 3.

Definition ExecuteWithRetry (template : CommandTemplate.t) (parameters : loc)
    (context : option loc) : M Env ProcessingResult.t :=
  ExecuteWithRetry_with ExecuteRhinoCommand template parameters context
    defaultMaxRetries.

Definition ProcessDirectCommand (input : string) (intentResult : IntentResult.t)
    (context : option loc) : M Env ProcessingResult.t :=
  match IntentResult.CommandTemplate intentResult with
  | None =>
      emit (EvExtractParameters input "") ;;;
      new_dict ∅ ;;; throw NullReferenceException
  | Some template =>
      let name := CommandTemplate.CommandName template in
      emit (EvExtractParameters input name) ;;;
      let* parameters := ExtractParametersAsync input template context in
      emit (EvValidateParameters name) ;;;
      let* validationResult := ValidateParametersAsync parameters template in
      if negb (ValidationResult.IsValid validationResult)
      then ret (ProcessingResult.Error
                  (Some ("Invalid parameters: "
                         ++ default "" (ValidationResult.ErrorMessage validationResult))))
      else ExecuteWithRetry template parameters context
  end.

(** *** The provider loop *)

Definition providers (systemPrompt requestJson : string)
  : list ((Env -> Outcome (option string) * Env) * string) :=
  [ (OpenAI_ProcessTextAsync systemPrompt requestJson, "OpenAI");
    (Claude_ProcessTextAsync systemPrompt requestJson, "Claude") ].

Fixpoint try_providers (ps : list ((Env -> Outcome (option string) * Env) * string))
    (lastException : option exn) : M Env string :=
  match ps with
  | [] => throw (InvalidOperationException "All AI providers failed" lastException)
  | (provider, name) :: rest =>
      let* r :=
        try_catch
          (emit (EvProvider name) ;;;
           let* result := call provider in
           if negb (Str.IsNullOrEmpty result)
           then log LogDebug ("Successfully used " ++ name ++ " provider") None ;;;
                ret (inl (default "" result))
           else ret (inr lastException))
          (fun ex =>
             log LogWarning (name ++ " provider failed: " ++ exn_Message ex) None ;;;
             ret (inr (Some ex))) in
      match r with
      | inl result => ret result
      | inr lastException' => try_providers rest lastException'
      end
  end.

Definition TryMultipleProvidersAsync (systemPrompt requestJson : string)
  : M Env string :=
  try_providers (providers systemPrompt requestJson) None.

Definition CreateEnhancedSystemPrompt (context : option ConversationContext.t)
  : string :=
  PromptPreamble
  ++ match context with
     | Some c =>
         nl ++ "Current scene: " ++ default "" (ConversationContext.SceneDescription c)
         ++ nl ++ "Recent operations: "
         ++ Str.Join ", " (take 3 (ConversationContext.RecentOperations c))
         ++ nl ++ "Active layer: " ++ default "" (ConversationContext.ActiveLayer c)
         ++ nl ++ "Selected objects: "
         ++ pretty (length (ConversationContext.SelectedObjects c)) ++ nl
     | None => ""
     end
  ++ PromptRules.

(** *** ProcessWithAI *)

(** [_responseCache.TryGetValue(cacheKey, out var cachedResponse) &&
    !cachedResponse.IsExpired] *)
Definition live_entry (cacheKey : string) (w : World Env) : option ProcessingResult.t :=
  match _responseCache w !! cacheKey with
  | Some cachedResponse =>
      if negb (CachedResponse.IsExpired (UtcNow (env w)) cachedResponse)
      then Some (CachedResponse.Result cachedResponse)
      else None
  | None => None
  end.

Definition five_minutes : Z := 5 * 60 * 1000.

(** The body of [ProcessWithAI] below the cache check. *)
Definition ask_providers (input : string) (ctx : option ConversationContext.t)
    (cacheKey : string) : M Env ProcessingResult.t :=
  let systemPrompt := CreateEnhancedSystemPrompt ctx in
  let* sceneInfo := (emit EvGetSceneInfo ;;; call GetCurrentSceneInfoAsync) in
  let requestJson :=
    JsonSerialize (EnhancedAIRequest.mk input ctx
                     InitializeEnhancedCommandTemplates sceneInfo) in
  let* response := TryMultipleProvidersAsync systemPrompt requestJson in
  let* aiResponse := (emit (EvParseWithRecovery response) ;;;
                      call (ParseWithRecoveryAsync response)) in
  match aiResponse ≫= AIResponse.Actions with
  | Some (action :: actions) =>
      let* results :=
        mapM (fun a => emit (EvProcessAction (AIAction.CommandName a)) ;;;
                       call (ProcessActionWithValidation a))
          (action :: actions) in
      let finalResult := ProcessingResult.Success (Some (Str.Join NewLine results)) in
      emit (EvCacheStore cacheKey) ;;;
      modify (fun w => set_responseCache
                         (<[cacheKey := CachedResponse.mk finalResult
                                          (UtcNow (env w) + five_minutes)]>
                            (_responseCache w)) w) ;;;
      ret finalResult
  | _ =>
      ret (ProcessingResult.Partial
             (Some (default "Could not process the request completely."
                      (aiResponse ≫= AIResponse.ResponseText))))
  end.

Definition ProcessWithAI (input : string) (context : option loc)
  : M Env ProcessingResult.t :=
  let* ctx := read_context_opt context in
  let cacheKey := GenerateCacheKey input ctx in
  emit (EvCacheLookup cacheKey) ;;;
  let* hit := gets (live_entry cacheKey) in
  match hit with
  | Some result => ret result
  | None => ask_providers input ctx cacheKey
  end.

(** *** The entry point

    [_intentClassifier] is the classifier the constructor receives
    ([intentClassifier ?? new IntentClassifier()]). *)
Section Pipeline.
Variable _intentClassifier : string -> option loc -> IntentResult.t.

Definition route (input : string) (context : option loc) : M Env ProcessingResult.t :=
  log LogInformation ("Processing enhanced NLP input: " ++ input) None ;;;
  emit (EvClassifyIntent input) ;;;
  let intentResult := _intentClassifier input context in
  if Num.Qltb (IntentResult.Confidence intentResult) 0.7
  then
    emit (EvHandleLowConfidence input) ;;;
    ret (FallbackHandler.HandleLowConfidenceAsync input intentResult)
  else
    emit (EvEnhanceContext input) ;;;
    let* enhancedContext := ContextManager.EnhanceContextAsync input context in
    match IntentResult.Category intentResult with
    | DirectCommand => ProcessDirectCommand input intentResult (Some enhancedContext)
    | Unknown => ProcessWithAI input (Some enhancedContext)
    | other =>
        emit (EvProcessOther other) ;;;
        call (ProcessOther other input intentResult)
    end.

Definition ProcessNaturalLanguageAsync_with (input : option string)
    (context : option loc) : M Env ProcessingResult.t :=
  try_catch
    (if Str.IsNullOrWhiteSpace input
     then ret (ProcessingResult.Error (Some "Please provide a valid input."))
     else route (default "" input) context)
    (fun ex =>
       log LogError "Error in enhanced NLP processing" (Some ex) ;;;
       emit (EvHandleException ex) ;;;
       ret (FallbackHandler.HandleExceptionAsync ex (default "" input))).
End Pipeline.

(** The processor as constructed without a classifier of the caller's. *)
Definition ProcessNaturalLanguageAsync (input : option string) (context : option loc)
  : M Env ProcessingResult.t :=
  ProcessNaturalLanguageAsync_with IntentClassifier.ClassifyIntentAsync input context.

End Run.
End EnhancedNLPProcessor.

(** ** A concrete host, for running the model *)

Module Demo.

(** The host has no state of its own beyond a clock. *)
Definition Env : Type := Z.

Definition fixed {A : Type} (r : Outcome A) : Env -> Outcome A * Env :=
  fun e => (r, e).

Definition host (openai claude : Outcome (option string))
    (parsed : Outcome (option AIResponse.t)) (brep : Env -> Outcome Guid * Env)
  : Host Env :=
  {| UtcNow := fun e => e;
     Task_Delay := fun ms e => (e + ms)%Z;
     NewLine := EnhancedNLPProcessor.nl;
     Double_ToString := fun _ => "d";
     Format_F2 := fun _ => "f2";
     Point3d_ToString := fun _ => "p";
     Vector3d_ToString := fun _ => "v";
     JsonSerialize := EnhancedAIRequest.UserInput;
     OpenAI_ProcessTextAsync := fun _ _ => fixed openai;
     Claude_ProcessTextAsync := fun _ _ => fixed claude;
     ParseWithRecoveryAsync := fun _ => fixed parsed;
     GenerateCacheKey := fun input _ => Str.ToLowerInvariant input;
     InitializeEnhancedCommandTemplates := [];
     PromptPreamble := "";
     PromptRules := "";
     GetCurrentSceneInfoAsync := fixed (Returns "scene");
     ProcessActionWithValidation := fun a => fixed (Returns (AIAction.CommandName a));
     ProcessOther := fun _ _ _ => fixed (Returns (ProcessingResult.Success (Some "ok")));
     CreateOther := fun _ _ => fixed (Returns (ProcessingResult.Success (Some "ok")));
     EnsureLayer := fun _ => fixed (Returns 1%Z);
     Sphere_ToBrep_IsValid := fun _ _ => fixed (Returns true);
     Objects_AddBrep := fun _ _ _ _ => brep;
     Views_Redraw := fixed (Returns tt);
     LowConfidenceText := fun _ _ => "Could you clarify the request?";
     ExceptionText := fun _ _ => "The request could not be processed.";
     FailedExecutionText := fun _ _ => "The command could not be executed." |}.

(** Both providers answer; the document accepts the geometry. *)
Definition quiet : Host Env :=
  host (Returns (Some "reply")) (Returns (Some "reply"))
    (Returns (Some (AIResponse.mk None (Some "text")))) (fixed (Returns 7%Z)).

(** The document refuses the geometry (empty Guid) on its first two calls,
    which it counts on the clock, and accepts it from then on. *)
Definition stubborn : Host Env :=
  host (Returns (Some "reply")) (Returns (Some "reply"))
    (Returns (Some (AIResponse.mk None (Some "text"))))
    (fun e => (Returns (if (e <? 2)%Z then Guid_Empty else 7%Z), (e + 1)%Z)).

(** Both providers are down: the first raises, the second answers nothing. *)
Definition offline : Host Env :=
  host (Throws (Exception "timeout")) (Returns None)
    (Returns (Some (AIResponse.mk None (Some "text")))) (fixed (Returns 7%Z)).

(** A fresh processor at time [now]. *)
Definition start (now : Z) : World Env := mkWorld now [] ∅ [] [] [].

End Demo.

(** ** Vocabulary of the statements *)

(** An input that [string.IsNullOrWhiteSpace] rejects. *)
Definition blank (input : option string) : Prop :=
  match input with
  | None => True
  | Some s => forall c, In c (list_ascii_of_string s) -> Str.is_white c = true
  end.

(** The calls that only [ProcessWithAI] makes. *)
Definition calls_orchestrator (e : Event) : bool :=
  match e with
  | EvCacheLookup _ | EvCacheStore _ | EvProvider _ | EvParseWithRecovery _
  | EvProcessAction _ | EvGetSceneInfo => true
  | _ => false
  end.

(** The retry loop seen from outside: dispatches and parameter repairs. *)
Inductive RetryCall : Type := Dispatch | Adjust.

Definition retry_call (e : Event) : option RetryCall :=
  match e with
  | EvExecuteRhinoCommand _ _ => Some Dispatch
  | EvAdjustParameters _ _ => Some Adjust
  | _ => None
  end.

Definition retry_calls (t : list Event) : list RetryCall := omap retry_call t.

Definition dispatches (t : list Event) : nat :=
  length (List.filter (fun c => match c with Dispatch => true | Adjust => false end)
            (retry_calls t)).

(** The world after the warning of a failed attempt, and after a delay. *)
Definition warned {Env : Type} (attempt : Z) (ex : exn) (w : World Env) : World Env :=
  record (EvLog LogWarning
            ("Attempt " ++ pretty (attempt + 1)%Z ++ " failed: " ++ exn_Message ex) None) w.

Definition delayed {Env : Type} `{host : Host Env} (ms : Z) (w : World Env) : World Env :=
  set_env (Task_Delay ms (env w)) (record (EvDelay ms) w).

(** Dispatchers for running the retry loop: one that always raises, and one
    that reports failure until the third dispatch of the trace. *)
Definition raising_dispatch {Env : Type}
    (template : CommandTemplate.t) (parameters : loc) (context : option loc)
  : M Env ProcessingResult.t :=
  throw (Exception "host unavailable").

Definition flaky_dispatch {Env : Type}
    (template : CommandTemplate.t) (parameters : loc) (context : option loc)
  : M Env ProcessingResult.t :=
  fun w =>
    if (dispatches (trace w) <? 3)%nat
    then (Returns (ProcessingResult.Error (Some "Failed to create sphere - invalid geometry")), w)
    else (Returns (ProcessingResult.Success (Some "Created sphere")), w).

(** What the provider loop makes of one provider's outcome: a usable
    answer, the warning it logs, the exception it remembers. *)
Definition answer (o : Outcome (option string)) : option string :=
  match o with
  | Returns (Some (String c rest)) => Some (String c rest)
  | _ => None
  end.

Definition failure_events (name : string) (o : Outcome (option string)) : list Event :=
  match o with
  | Throws ex => [EvLog LogWarning (name ++ " provider failed: " ++ exn_Message ex) None]
  | Returns _ => []
  end.

Definition remember (o : Outcome (option string)) (lastException : option exn)
  : option exn :=
  match o with
  | Throws ex => Some ex
  | Returns _ => lastException
  end.

(** A context argument the caller can really pass: none, or a live object. *)
Definition context_ok {Env : Type} (context : option loc) (w : World Env) : Prop :=
  match context with
  | None => True
  | Some l => is_Some (contexts w !! l)
  end.

(** A classifier that is sure of nothing it knows: for reaching the default
    branch of the category switch. *)
Definition unknown_classifier (input : string) (context : option loc) : IntentResult.t :=
  IntentResult.mk Unknown None 1 [].

(** A computation that neither reads nor writes the response cache. *)
Definition cache_blind {Env A : Type} (m : M Env A) : Prop :=
  forall (w : World Env) (cache : gmap string CachedResponse.t),
    m (set_responseCache cache w)
    = (fst (m w), set_responseCache cache (snd (m w))).

(** The effect of a run on the cache: at most one entry, under [key]. *)
Definition patch (key : string) (stored : option CachedResponse.t)
    (cache : gmap string CachedResponse.t) : gmap string CachedResponse.t :=
  match stored with
  | Some entry => <[key := entry]> cache
  | None => cache
  end.

(** A computation that never reads the cache and writes it at most at
    [key], with the Success it returns and a life of five minutes; when it
    writes nothing, what it returns, if anything, is a Partial. *)
Definition stores {Env : Type} `{host : Host Env} (key : string)
    (m : M Env ProcessingResult.t) : Prop :=
  forall w : World Env,
    exists stored : option CachedResponse.t,
      (forall cache,
          m (set_responseCache cache w)
          = (fst (m w), set_responseCache (patch key stored cache) (snd (m w))))
      /\ match stored with
         | Some entry =>
             fst (m w) = Returns (CachedResponse.Result entry)
             /\ ProcessingResult.Type_ (CachedResponse.Result entry)
                = ProcessingResultType.Success
             /\ CachedResponse.ExpiryTime entry
                = (UtcNow (env (snd (m w))) + EnhancedNLPProcessor.five_minutes)%Z
         | None =>
             forall r, fst (m w) = Returns r ->
                       ProcessingResult.Type_ r = ProcessingResultType.Partial
         end.

(** The provider policy in the words of the design: OpenAI first; Claude
    only when OpenAI raised or answered nothing; the exhaustion error only
    when both did. *)
Definition in_priority_order {Env : Type} `{host : Host Env}
    (systemPrompt requestJson : string) (w : World Env) : Outcome string * World Env :=
  let '(o1, e1) := OpenAI_ProcessTextAsync systemPrompt requestJson (env w) in
  match answer o1 with
  | Some result =>
      (Returns result,
       set_env e1
         (set_trace (trace w ++ [EvProvider "OpenAI";
                                 EvLog LogDebug "Successfully used OpenAI provider" None])
            w))
  | None =>
      let '(o2, e2) := Claude_ProcessTextAsync systemPrompt requestJson e1 in
      let t := (trace w ++ [EvProvider "OpenAI"] ++ failure_events "OpenAI" o1
                ++ [EvProvider "Claude"])%list in
      match answer o2 with
      | Some result =>
          (Returns result,
           set_env e2
             (set_trace (t ++ [EvLog LogDebug "Successfully used Claude provider" None])
                w))
      | None =>
          (Throws (InvalidOperationException "All AI providers failed"
                     (remember o2 (remember o1 None))),
           set_env e2 (set_trace (t ++ failure_events "Claude" o2) w))
      end
  end.

Definition provider_calls (t : list Event) : list string :=
  omap (fun e => match e with EvProvider name => Some name | _ => None end) t.

(** A computation that makes no dispatch and no parameter repair. *)
Definition keeps_calls {Env A : Type} (m : M Env A) : Prop :=
  forall w : World Env, retry_calls (trace (snd (m w))) = retry_calls (trace w).

(** The dictionary [ExtractParametersAsync] builds, as a value: one entry
    per declared parameter name that an extractor recognises. *)
Definition extracted (input : string) (names : list string)
    (ctx : option ConversationContext.t) : gmap string obj :=
  fold_left
    (fun d name =>
       match ParameterExtractor.ExtractParameterAsync input name ctx with
       | Some value => <[name := value]> d
       | None => d
       end)
    names ∅.

(** The dictionary [AdjustParametersAsync] answers with, as a value. *)
Definition adjust_dict (message : string) (d : gmap string obj) : gmap string obj :=
  if Str.ContainsIgnoreCase message "radius"
  then match d !! "radius" with
       | Some (VDouble radius) =>
           if Qle_bool radius 0 then <["radius" := VDouble 1.0]> d
           else if Num.Qltb 1000 radius then <["radius" := VDouble 10.0]> d
           else d
       | _ => d
       end
  else d.

(** A cache that holds Success results only. *)
Definition only_successes (cache : gmap string CachedResponse.t) : Prop :=
  forall key entry,
    cache !! key = Some entry ->
    ProcessingResult.Type_ (CachedResponse.Result entry) = ProcessingResultType.Success.

(** A computation that leaves the cache as it found it. *)
Definition keeps_cache {Env A : Type} (m : M Env A) : Prop :=
  forall w : World Env, _responseCache (snd (m w)) = _responseCache w.

(** A computation that either leaves the cache alone, and then does not
    return a Success, or stores the Success it returns under [key] with a
    life of five minutes. *)
Definition answers {Env : Type} `{host : Host Env} (key : string)
    (m : M Env ProcessingResult.t) : Prop :=
  forall w : World Env,
    (_responseCache (snd (m w)) = _responseCache w
     /\ forall r, fst (m w) = Returns r ->
                  ProcessingResult.Type_ r = ProcessingResultType.Partial)
    \/
    (exists entry,
        _responseCache (snd (m w)) = <[key := entry]> (_responseCache w)
        /\ fst (m w) = Returns (CachedResponse.Result entry)
        /\ ProcessingResult.Type_ (CachedResponse.Result entry)
           = ProcessingResultType.Success
        /\ CachedResponse.ExpiryTime entry
           = (UtcNow (env (snd (m w))) + EnhancedNLPProcessor.five_minutes)%Z).

(** A host whose first provider answers with one action. *)
Definition chatty : Host Demo.Env :=
  Demo.host (Returns (Some "reply")) (Returns (Some "reply"))
    (Returns (Some (AIResponse.mk
                      (Some [AIAction.mk "CreateSphere" ∅ 1]) None)))
    (Demo.fixed (Returns 7%Z)).

(** [ValidateParametersAsync] on a dictionary given as a value. *)
Definition validate_dict (template : CommandTemplate.t) (d : gmap string obj)
  : ValidationResult.t :=
  let name := CommandTemplate.CommandName template in
  if String.eqb name "CreateSphere" then SemanticValidator.ValidateSphereParameters d
  else if String.eqb name "CreateBox" then SemanticValidator.ValidateBoxParameters d
  else if String.eqb name "CreateCylinder"
  then SemanticValidator.ValidateCylinderParameters d
  else ValidationResult.mk true None.

(** A regular expression without capturing groups. *)
Fixpoint plain (r : Regex.regex) : bool :=
  match r with
  | Regex.Eps | Regex.Chr _ => true
  | Regex.Seq r1 r2 | Regex.Alt r1 r2 => plain r1 && plain r2
  | Regex.Star r1 => plain r1
  | Regex.Group _ _ => false
  end.

(** A text that begins with a decimal digit. *)
Definition starts_with_digit (s : string) : Prop :=
  exists c rest, s = String c rest /\ Str.is_digit c = true.

(** The marks that the [catch] of the retry loop leaves in a trace: the
    "Attempt n failed" warning, the wait, and an exception handed to the
    failure handler. *)
Definition unrest (e : Event) : bool :=
  match e with
  | EvDelay _ | EvLog LogWarning _ _ | EvHandleFailedExecution _ (Some _) => true
  | _ => false
  end.

Definition alarms (t : list Event) : list Event := List.filter unrest t.

(** A result that, when it is not a success, says why. *)
Definition told (r : ProcessingResult.t) : Prop :=
  ProcessingResult.IsSuccess r = false -> is_Some (ProcessingResult.ErrorMessage r).

(** A computation that changes no dictionary, leaves no mark of a caught
    exception, and returns only values that satisfy [Q]. *)
Definition steady_with {Env A : Type} (Q : A -> Prop) (m : M Env A) : Prop :=
  forall w : World Env,
    dicts (snd (m w)) = dicts w
    /\ alarms (trace (snd (m w))) = alarms (trace w)
    /\ forall a, fst (m w) = Returns a -> Q a.

(** A host whose first provider raises and whose second answers. *)
Definition second_answers : Host Demo.Env :=
  Demo.host (Throws (Exception "timeout")) (Returns (Some "second"))
    (Returns (Some (AIResponse.mk None (Some "text")))) (Demo.fixed (Returns 7%Z)).

(** What the retry loop does between two attempts, after a dispatch at
    [attempt] (not the last) has reported the failure [r]: it asks
    [AdjustParametersAsync] for a repaired copy of the parameters, with the
    failure's message, and goes on with that copy; when the repair itself
    raises, the [catch] of the loop logs, waits and keeps the parameters. *)
Definition repaired {Env : Type} `{host : Host Env} (attempt : Z) (parameters : loc)
    (lastException : option exn) (r : ProcessingResult.t) (w : World Env)
  : loc * option exn * World Env :=
  match ParameterExtractor.AdjustParametersAsync parameters
          (ProcessingResult.ErrorMessage r)
          (record (EvAdjustParameters parameters (ProcessingResult.ErrorMessage r)) w) with
  | (Returns adjusted, w') => (adjusted, lastException, w')
  | (Throws ex, w') =>
      (parameters, Some ex, delayed (1000 * (attempt + 1)) (warned attempt ex w'))
  end.

(** A host whose document raises when a Brep is added. *)
Definition locked : Host Demo.Env :=
  Demo.host (Returns (Some "reply")) (Returns (Some "reply"))
    (Returns (Some (AIResponse.mk None (Some "text"))))
    (Demo.fixed (Throws (Exception "document locked"))).

(** What the [catch] of [ExecuteRhinoCommand] makes of an exception raised
    in the world [w]: it logs it and answers with an Error that carries its
    message. *)
Definition execution_failed {Env : Type} (template : CommandTemplate.t) (ex : exn)
    (w : World Env) : Outcome ProcessingResult.t * World Env :=
  (Returns (ProcessingResult.Error (Some ("Execution failed: " ++ exn_Message ex))),
   record (EvLog LogError
             ("Error executing command: " ++ CommandTemplate.CommandName template)
             (Some ex)) w).

(** * Properties *)

Import EnhancedNLPProcessor.

Lemma Qltb_lt (a b : Q) : Num.Qltb a b = true <-> (a < b)%Q.
Proof.
  unfold Num.Qltb. rewrite negb_true_iff.
  split; intros H.
  - apply Qnot_le_lt. intros Hle. apply Qle_bool_iff in Hle. congruence.
  - destruct (Qle_bool b a) eqn:E; [|reflexivity].
    apply Qle_bool_iff in E. exfalso. exact (Qlt_not_le _ _ H E).
Qed.

Lemma Qltb_ge (a b : Q) : Num.Qltb a b = false <-> (b <= a)%Q.
Proof.
  unfold Num.Qltb. rewrite negb_false_iff. apply Qle_bool_iff.
Qed.

Lemma all_white_blank (s : string) : Str.all_white s = true <-> blank (Some s).
Proof.
  simpl. induction s as [|c s IH]; simpl.
  - split; [intros _ c []|reflexivity].
  - rewrite andb_true_iff, IH. split.
    + intros [Hc Hs] x [<-|Hx]; auto.
    + intros H. split; [apply H; now left|intros x Hx; apply H; now right].
Qed.

Lemma IsNullOrWhiteSpace_blank (input : option string) :
  Str.IsNullOrWhiteSpace input = true <-> blank input.
Proof.
  destruct input as [s|]; [apply all_white_blank|simpl; tauto].
Qed.

Section EntryPoint.
Context {Env : Type} `{host : Host Env}.
Variable classifier : string -> option loc -> IntentResult.t.

(** C8. An empty, whitespace-only or null input returns the "Please
    provide a valid input." error at once: the world is left exactly as it
    was, so nothing was logged, classified, extracted, validated, looked
    up, asked of a provider or dispatched. *)
Theorem blank_input_is_rejected_untouched
    (input : option string) (context : option loc) (w : World Env) :
  blank input ->
  ProcessNaturalLanguageAsync_with classifier input context w
  = (Returns (ProcessingResult.Error (Some "Please provide a valid input.")), w).
Proof.
  intros Hb. apply IsNullOrWhiteSpace_blank in Hb.
  unfold ProcessNaturalLanguageAsync_with, try_catch.
  rewrite Hb. reflexivity.
Qed.

(** C1 (amended). Below the 0.7 threshold the entry point hands the
    utterance to the fallback handler and returns its answer; it logs,
    classifies and calls [HandleLowConfidenceAsync], and nothing else:
    [ProcessWithAI] is not entered and no provider is called. *)
Theorem low_confidence_goes_to_fallback
    (input : string) (context : option loc) (w : World Env) :
  ¬ blank (Some input) ->
  (IntentResult.Confidence (classifier input context) < 0.7)%Q ->
  ProcessNaturalLanguageAsync_with classifier (Some input) context w
  = (Returns (FallbackHandler.HandleLowConfidenceAsync input (classifier input context)),
     set_trace (trace w ++
                [EvLog LogInformation ("Processing enhanced NLP input: " ++ input) None;
                 EvClassifyIntent input;
                 EvHandleLowConfidence input]) w).
Proof.
  intros Hb Hc.
  assert (Hw : Str.IsNullOrWhiteSpace (Some input) = false).
  { destruct (Str.IsNullOrWhiteSpace (Some input)) eqn:E; [|reflexivity].
    apply IsNullOrWhiteSpace_blank in E. contradiction. }
  apply Qltb_lt in Hc.
  unfold ProcessNaturalLanguageAsync_with, try_catch, route. rewrite Hw.
  unfold bind, log, emit, ret, record. simpl. rewrite Hc. simpl.
  unfold set_trace. simpl. rewrite <- !app_assoc. reflexivity.
Qed.

End EntryPoint.

(** C8, at an input of three spaces. *)
Lemma blank_input_is_rejected_untouched_witness :
  blank (Some "   ") /\
  ProcessNaturalLanguageAsync (host := Demo.quiet) (Some "   ") None (Demo.start 0)
  = (Returns (ProcessingResult.Error (Some "Please provide a valid input.")),
     Demo.start 0).
Proof.
  assert (Hb : blank (Some "   ")).
  { apply IsNullOrWhiteSpace_blank. reflexivity. }
  split; [exact Hb|].
  exact (blank_input_is_rejected_untouched (host := Demo.quiet)
           IntentClassifier.ClassifyIntentAsync (Some "   ") None (Demo.start 0) Hb).
Defined.

(** C1 (amended), at the utterance "hello". *)
Lemma low_confidence_goes_to_fallback_witness :
  ProcessNaturalLanguageAsync (host := Demo.quiet) (Some "hello") None (Demo.start 0)
  = (Returns (ProcessingResult.Partial (Some "Could you clarify the request?")),
     set_trace [EvLog LogInformation "Processing enhanced NLP input: hello" None;
                EvClassifyIntent "hello"; EvHandleLowConfidence "hello"]
       (Demo.start 0)).
Proof.
  refine (low_confidence_goes_to_fallback (host := Demo.quiet)
            IntentClassifier.ClassifyIntentAsync "hello" None (Demo.start 0) _ _).
  - intros Hb. apply IsNullOrWhiteSpace_blank in Hb. discriminate Hb.
  - vm_compute. reflexivity.
Defined.

(** C1 as stated fails: "hello" scores 0, below 0.7, and the run ends in
    the fallback handler's Partial answer without one call of the
    orchestrator. *)
Lemma low_confidence_never_reaches_orchestrator :
  let run := ProcessNaturalLanguageAsync (host := Demo.quiet) (Some "hello") None
               (Demo.start 0) in
  (IntentResult.Confidence (IntentClassifier.ClassifyIntentAsync "hello" None) < 0.7)%Q
  /\ fst run = Returns (ProcessingResult.Partial (Some "Could you clarify the request?"))
  /\ trace (snd run)
     = [EvLog LogInformation "Processing enhanced NLP input: hello" None;
        EvClassifyIntent "hello"; EvHandleLowConfidence "hello"]
  /\ existsb calls_orchestrator (trace (snd run)) = false.
Proof.
  vm_compute. repeat split; reflexivity.
Qed.

(** ** The classifier *)

Section Classifier.
Import IntentClassifier.

Variables (normalizedInput : string) (context : option loc).

Let conf (p : IntentPattern.t) : Q := CalculateConfidence normalizedInput p context.

(** What the [foreach] computes from any list of patterns and any best
    match so far: it keeps the best match when no pattern beats it, and
    otherwise answers with the first pattern of maximal confidence. *)
Lemma scan_spec (patterns : list IntentPattern.t) (best : IntentResult.t) :
  let r := scan patterns normalizedInput context best in
  (r = best /\
   forall j q, patterns !! j = Some q -> (conf q <= IntentResult.Confidence best)%Q)
  \/
  (exists i p,
      patterns !! i = Some p /\
      r = candidate normalizedInput p (conf p) /\
      (IntentResult.Confidence best < conf p)%Q /\
      (forall j q, patterns !! j = Some q -> (conf q <= conf p)%Q) /\
      (forall j q, (j < i)%nat -> patterns !! j = Some q -> (conf q < conf p)%Q)).
Proof.
  revert best. induction patterns as [|p rest IH]; intros best; simpl.
  - left. split; [reflexivity|]. intros j q Hq. destruct j; discriminate Hq.
  - fold (conf p).
    destruct (Num.Qltb (IntentResult.Confidence best) (conf p)) eqn:E.
    + apply Qltb_lt in E.
      destruct (IH (candidate normalizedInput p (conf p)))
        as [[Hr Hall]|(i & q & Hi & Hr & Hlt & Hmax & Hfirst)]; simpl in *.
      * right. exists 0%nat, p. repeat split; auto.
        -- intros [|j] q Hq; simpl in Hq.
           ++ injection Hq as <-. apply Qle_refl.
           ++ eapply Hall; eauto.
        -- intros j q Hj. lia.
      * right. exists (S i), q. repeat split; auto.
        -- eapply Qlt_trans; eauto.
        -- intros [|j] q' Hq; simpl in Hq.
           ++ injection Hq as <-. apply Qlt_le_weak. exact Hlt.
           ++ eapply Hmax; eauto.
        -- intros [|j] q' Hj Hq; simpl in Hq.
           ++ injection Hq as <-. exact Hlt.
           ++ eapply Hfirst; [|eauto]. lia.
    + apply Qltb_ge in E.
      destruct (IH best)
        as [[Hr Hall]|(i & q & Hi & Hr & Hlt & Hmax & Hfirst)]; simpl in *.
      * left. split; [exact Hr|].
        intros [|j] q Hq; simpl in Hq.
        -- injection Hq as <-. exact E.
        -- eapply Hall; eauto.
      * right. exists (S i), q. repeat split; auto.
        -- intros [|j] q' Hq; simpl in Hq.
           ++ injection Hq as <-. apply Qlt_le_weak. eapply Qle_lt_trans; eauto.
           ++ eapply Hmax; eauto.
        -- intros [|j] q' Hj Hq; simpl in Hq.
           ++ injection Hq as <-. eapply Qle_lt_trans; eauto.
           ++ eapply Hfirst; [|eauto]. lia.
Qed.
End Classifier.

(** The classifier as the code has it. For every utterance, context and
    registered pattern the confidence is 0.7 times the share of the
    pattern's keywords found in the lower-cased utterance plus 0.3 times
    what [GetRelevanceScore] returns, or 0 without a context. The
    classifier answers with the first declared pattern among those of
    highest confidence, provided that confidence is positive; the loop
    starts from an empty result of confidence 0 and replaces it on a
    strictly greater confidence only, so when no pattern scores above 0 it
    answers with that empty result. *)
Lemma classifier_confidence_and_choice (input : string) (context : option loc) :
  let n := Str.ToLowerInvariant input in
  let conf := fun p => IntentClassifier.CalculateConfidence n p context in
  let r := IntentClassifier.ClassifyIntentAsync input context in
  (forall p,
      conf p = (inject_Z (Z.of_nat (length (IntentClassifier.matched n
                                              (IntentPattern.Keywords p))))
                / inject_Z (Z.of_nat (length (IntentPattern.Keywords p))) * 0.7
                + (match context with Some _ => 0.1 | None => 0 end) * 0.3)%Q)
  /\
  ((r = IntentClassifier.initial /\
    forall j q, IntentClassifier._patterns !! j = Some q -> (conf q <= 0)%Q)
   \/
   (exists i p,
       IntentClassifier._patterns !! i = Some p /\
       r = IntentClassifier.candidate n p (conf p) /\
       (0 < conf p)%Q /\
       (forall j q, IntentClassifier._patterns !! j = Some q -> (conf q <= conf p)%Q) /\
       (forall j q, (j < i)%nat -> IntentClassifier._patterns !! j = Some q ->
                    (conf q < conf p)%Q))).
Proof.
  intros n conf r. split.
  - intros p. unfold conf, IntentClassifier.CalculateConfidence,
      IntentClassifier.keywordScore, IntentClassifier.contextScore,
      ConversationContext.GetRelevanceScore.
    destruct context; reflexivity.
  - exact (scan_spec n context IntentClassifier._patterns IntentClassifier.initial).
Qed.

(** C3 fails on the code, by the stub in [GetRelevanceScore]. The method is
    commented "Calculate relevance based on recent operations" and returns
    0.1 whatever they are. A context that was just created has no recent
    operation, so no category occurs in its history and the context score
    of the claim is 0; on "hello", which has no keyword of any pattern,
    every confidence should then be 0. The code gives each pattern
    0.3 * 0.1 = 0.03, and the classifier answers with the sphere pattern at
    that confidence, where without a context it answers with no pattern at
    confidence 0. *)
Theorem relevance_score_ignores_recent_operations :
  let sphere := IntentPattern.mk DirectCommand
                  ["sphere"; "ball"; "round"; "create"; "make"]
                  (CommandTemplate.mk "CreateSphere"
                     ["center"; "radius"; "material"; "layer"] None None) in
  let fresh : option loc := Some 0%nat in
  IntentClassifier._patterns !! 0%nat = Some sphere
  /\ ConversationContext.RecentOperations ConversationContext.new = []
  /\ (forall p, In p IntentClassifier._patterns ->
                IntentClassifier.matched "hello" (IntentPattern.Keywords p) = []
                /\ (IntentClassifier.CalculateConfidence "hello" p fresh == 0.03)%Q
                /\ ¬ (IntentClassifier.CalculateConfidence "hello" p fresh
                      == 0 * 0.7 + 0 * 0.3)%Q
                /\ (IntentClassifier.CalculateConfidence "hello" p None
                    == 0 * 0.7 + 0 * 0.3)%Q)
  /\ IntentResult.CommandTemplate (IntentClassifier.ClassifyIntentAsync "hello" fresh)
     = Some (IntentPattern.Template sphere)
  /\ (IntentResult.Confidence (IntentClassifier.ClassifyIntentAsync "hello" fresh)
      == 0.03)%Q
  /\ IntentResult.CommandTemplate (IntentClassifier.ClassifyIntentAsync "hello" None)
     = None
  /\ (IntentResult.Confidence (IntentClassifier.ClassifyIntentAsync "hello" None) == 0)%Q.
Proof.
  intros sphere fresh.
  split; [reflexivity|]. split; [reflexivity|].
  split.
  { intros p [<-|[<-|[<-|[]]]];
      (split; [reflexivity|]); (split; [reflexivity|]);
      (split; [vm_compute; discriminate|reflexivity]). }
  repeat split; reflexivity.
Qed.


(** ** Parameter dictionaries *)

Lemma lookup_new {A : Type} (l : list A) (x : A) : (l ++ [x])%list !! length l = Some x.
Proof.
  induction l as [|y l IH]; simpl; [reflexivity|exact IH].
Qed.

Lemma insert_new {A : Type} (l : list A) (x y : A) :
  <[length l := y]> (l ++ [x])%list = (l ++ [y])%list.
Proof.
  induction l as [|z l IH]; simpl; [reflexivity|].
  f_equal. exact IH.
Qed.

Lemma lookup_old {A : Type} (l : list A) (x : A) (i : nat) :
  i <> length l -> (l ++ [x])%list !! i = l !! i.
Proof.
  revert i. induction l as [|y l IH]; intros [|i] Hi; simpl in *; try reflexivity.
  - congruence.
  - apply IH. congruence.
Qed.

Lemma lookup_length_None {A : Type} (l : list A) : l !! length l = None.
Proof.
  induction l as [|y l IH]; simpl; [reflexivity|exact IH].
Qed.

Ltac run_monad :=
  unfold bind, ret, throw, try_catch, emit, gets, modify, call, record,
    read_dict, write_dict, new_dict, read_context, write_context, new_context,
    log, rhino, Delay; simpl.

Section Adjust.
Context {Env : Type} `{host : Host Env}.
Import ParameterExtractor.

(** C9. [AdjustParametersAsync] answers with a dictionary that did not
    exist before and leaves every existing dictionary, the input among them,
    and the rest of the world as they were. The new dictionary agrees with
    the input on every key but "radius"; its radius is 1.0 when the message
    mentions radius and the input holds a double that is not positive, 10.0
    when the message mentions radius and the input holds a double above
    1000, and the input's entry in every other case. *)
Theorem adjust_parameters_copies_and_clamps
    (parameters : loc) (d : gmap string obj) (message : string) (w : World Env) :
  dicts w !! parameters = Some d ->
  exists (adjusted : loc) (d' : gmap string obj),
    AdjustParametersAsync parameters (Some message) w
    = (Returns adjusted, set_dicts (dicts w ++ [d']) w)
    /\ dicts w !! adjusted = None
    /\ (dicts w ++ [d'])%list !! adjusted = Some d'
    /\ (forall l, l <> adjusted -> (dicts w ++ [d'])%list !! l = dicts w !! l)
    /\ (dicts w ++ [d'])%list !! parameters = Some d
    /\ (forall k, k <> "radius" -> d' !! k = d !! k)
    /\ (forall radius,
           d !! "radius" = Some (VDouble radius) ->
           Str.ContainsIgnoreCase message "radius" = true ->
           (radius <= 0)%Q -> d' !! "radius" = Some (VDouble 1.0))
    /\ (forall radius,
           d !! "radius" = Some (VDouble radius) ->
           Str.ContainsIgnoreCase message "radius" = true ->
           (1000 < radius)%Q -> d' !! "radius" = Some (VDouble 10.0))
    /\ (¬ (Str.ContainsIgnoreCase message "radius" = true /\
           exists radius, d !! "radius" = Some (VDouble radius) /\
                          ((radius <= 0)%Q \/ (1000 < radius)%Q)) ->
        d' !! "radius" = d !! "radius").
Proof.
  intros Hd.
  assert (Hne : parameters <> length (dicts w)).
  { intros ->. rewrite lookup_length_None in Hd. discriminate. }
  assert (Frame : forall d' : gmap string obj,
             dicts w !! length (dicts w) = None
             /\ (dicts w ++ [d'])%list !! length (dicts w) = Some d'
             /\ (forall l, l <> length (dicts w) -> (dicts w ++ [d'])%list !! l = dicts w !! l)
             /\ (dicts w ++ [d'])%list !! parameters = Some d).
  { intros d'. repeat split.
    - apply lookup_length_None.
    - apply lookup_new.
    - intros l Hl. apply lookup_old. exact Hl.
    - rewrite lookup_old by exact Hne. exact Hd. }
  exists (length (dicts w)).
  unfold AdjustParametersAsync, set_radius. run_monad. rewrite Hd. simpl.
  assert (Done : forall d' : gmap string obj,
             (forall k, k <> "radius" -> d' !! k = d !! k) ->
             (forall B C : Prop, B -> C ->
               dicts w !! length (dicts w) = None
               /\ (dicts w ++ [d'])%list !! length (dicts w) = Some d'
               /\ (forall l, l <> length (dicts w) ->
                              (dicts w ++ [d'])%list !! l = dicts w !! l)
               /\ (dicts w ++ [d'])%list !! parameters = Some d
               /\ (forall k, k <> "radius" -> d' !! k = d !! k)
               /\ B /\ C)).
  { intros d' Hk B C HB HC. destruct (Frame d') as (F1 & F2 & F3 & F4).
    repeat split; assumption. }
  destruct (Str.ContainsIgnoreCase message "radius") eqn:Hm; simpl.
  2:{ exists d. split; [reflexivity|].
      apply Done; [reflexivity| |split]; intros; congruence. }
  rewrite lookup_new.
  destruct (d !! "radius") as [[| radius | | | | |]|] eqn:Hr; simpl;
    try (exists d; split; [reflexivity|];
         apply Done; [reflexivity| |split]; intros; congruence).
  destruct (Qle_bool radius 0) eqn:Hle; simpl.
  - assert (H0 : (radius <= 0)%Q) by (apply Qle_bool_iff; exact Hle).
    assert (Hgt : Num.Qltb 1000 radius = false).
    { apply Qltb_ge. eapply Qle_trans; [exact H0|]. discriminate. }
    rewrite lookup_new. simpl. rewrite insert_new. rewrite Hgt. simpl.
    exists (<["radius" := VDouble 1.0]> d).
    split; [reflexivity|].
    apply Done; [| |split].
    + intros k Hk. apply lookup_insert_ne. congruence.
    + intros r Hr' _ _. apply lookup_insert_eq.
    + intros r Hr' _ Hlt. injection Hr' as <-. apply Qltb_lt in Hlt. congruence.
    + intros Hn. exfalso. apply Hn. split; [reflexivity|]. exists radius. auto.
  - destruct (Num.Qltb 1000 radius) eqn:Hgt; simpl.
    + rewrite lookup_new. simpl. rewrite insert_new.
      exists (<["radius" := VDouble 10.0]> d).
      split; [reflexivity|].
      apply Done; [| |split].
      * intros k Hk. apply lookup_insert_ne. congruence.
      * intros r Hr' _ Hle'. injection Hr' as <-.
        apply Qle_bool_iff in Hle'. congruence.
      * intros r Hr' _ _. apply lookup_insert_eq.
      * intros Hn. exfalso. apply Hn. split; [reflexivity|]. exists radius.
        split; [reflexivity|]. right. apply Qltb_lt. exact Hgt.
    + exists d. split; [reflexivity|].
      apply Done; [reflexivity| |split].
      * intros r Hr' _ Hle'. injection Hr' as <-.
        apply Qle_bool_iff in Hle'. congruence.
      * intros r Hr' _ Hlt. injection Hr' as <-.
        apply Qltb_lt in Hlt. congruence.
      * intros _. exact Hr.
Qed.

End Adjust.
(** C9, at a dictionary holding radius -2 and the validator's message. *)
Lemma adjust_parameters_copies_and_clamps_witness :
  let d : gmap string obj := {["radius" := VDouble (-2)]} in
  let w := mkWorld 0%Z [] ∅ [] [d] [] in
  dicts w !! 0%nat = Some d /\
  exists (adjusted : loc) (d' : gmap string obj),
    ParameterExtractor.AdjustParametersAsync (Env := Demo.Env) 0%nat
      (Some "Sphere radius must be positive.") w
    = (Returns adjusted, set_dicts (dicts w ++ [d']) w)
    /\ (dicts w ++ [d'])%list !! 0%nat = Some d
    /\ d' !! "radius" = Some (VDouble 1.0).
Proof.
  intros d w. split; [reflexivity|].
  destruct (adjust_parameters_copies_and_clamps (Env := Demo.Env) 0%nat d
              "Sphere radius must be positive." w eq_refl)
    as (adjusted & d' & Hrun & _ & _ & _ & Hin & _ & Hneg & _ & _).
  exists adjusted, d'. split; [exact Hrun|]. split; [exact Hin|].
  apply (Hneg (-2)%Q); [reflexivity|reflexivity|discriminate].
Defined.

(** ** Sphere creation and the retry loop *)

Section Sphere.
Context {Env : Type} `{host : Host Env}.
Import ParameterExtractor SemanticValidator.

Lemma large_radius_is_valid (d : gmap string obj) :
  (1000 < GetDouble d "radius" 1.0)%Q ->
  ValidateSphereParameters d = ValidationResult.Valid.
Proof.
  unfold GetDouble, ValidateSphereParameters.
  destruct (d !! "radius") as [[| radius | | | | |]|]; try reflexivity.
  intros H. destruct (Qle_bool radius 0) eqn:E; [|reflexivity].
  apply Qle_bool_iff in E. exfalso.
  apply (Qlt_irrefl 1000). eapply Qlt_le_trans; [exact H|].
  eapply Qle_trans; [exact E|]. discriminate.
Qed.

Lemma large_radius_not_nonpositive (r : Q) :
  (1000 < r)%Q -> Qle_bool r 0 = false /\ Num.Qltb 1000 r = true.
Proof.
  intros H. split; [|apply Qltb_lt; exact H].
  destruct (Qle_bool r 0) eqn:E; [|reflexivity].
  apply Qle_bool_iff in E. exfalso.
  apply (Qlt_irrefl 1000). eapply Qlt_le_trans; [exact H|].
  eapply Qle_trans; [exact E|]. discriminate.
Qed.

(** C10. When the radius read from the parameters exceeds 1000,
    [CreateEnhancedSphere] answers with the "Large sphere ... Continuing..."
    warning and leaves the world as it was: no call reaches Rhino and no
    created object is written into a context. The warning counts as a
    success, so [ExecuteWithRetry] returns it after its first dispatch,
    with no parameter repair, delay or further attempt. *)
Theorem large_sphere_warns_without_creating
    (template : CommandTemplate.t) (parameters : loc) (d : gmap string obj)
    (context : option loc) (w : World Env) :
  CommandTemplate.CommandName template = "CreateSphere" ->
  dicts w !! parameters = Some d ->
  (1000 < GetDouble d "radius" 1.0)%Q ->
  let warning :=
    ProcessingResult.Warning
      (Some ("Large sphere (radius: " ++ Format_F2 (GetDouble d "radius" 1.0)
             ++ "). Continuing...")) in
  CreateEnhancedSphere parameters context w = (Returns warning, w)
  /\ ProcessingResult.Type_ warning = ProcessingResultType.Warning
  /\ ProcessingResult.IsSuccess warning = true
  /\ ExecuteWithRetry template parameters context w
     = (Returns warning,
        set_trace (trace w ++ [EvExecuteRhinoCommand "CreateSphere" parameters;
                               EvPreExecuteValidation "CreateSphere"]) w).
Proof.
  intros Hname Hd Hr warning.
  destruct (large_radius_not_nonpositive _ Hr) as [Hle Hgt].
  assert (Hsphere : forall w', dicts w' !! parameters = Some d ->
                               CreateEnhancedSphere parameters context w'
                               = (Returns warning, w')).
  { intros w' Hd'. unfold CreateEnhancedSphere. run_monad.
    rewrite Hd'. rewrite Hle, Hgt. reflexivity. }
  split; [apply Hsphere; exact Hd|].
  split; [reflexivity|]. split; [reflexivity|].
  unfold ExecuteWithRetry, ExecuteWithRetry_with, defaultMaxRetries. simpl.
  unfold attempt_body, ExecuteRhinoCommand, PreExecuteValidationAsync,
    ValidateParametersAsync, ValidateContextConstraints.
  rewrite Hname. simpl.
  unfold bind at 1. unfold try_catch at 1. unfold bind at 1. unfold emit at 1.
  unfold bind at 1. unfold try_catch at 1. unfold bind at 1. unfold emit at 1.
  unfold bind at 1. unfold bind at 1. unfold bind at 1. unfold read_dict at 1.
  simpl. rewrite Hd. unfold ret at 1. unfold ret at 1.
  rewrite (large_radius_is_valid d Hr). simpl.
  rewrite Hsphere by (simpl; exact Hd).
  unfold ret. simpl. unfold record, set_trace. simpl.
  rewrite <- app_assoc. reflexivity.
Qed.

End Sphere.

(** C10, at a dictionary holding radius 2000. *)
Lemma large_sphere_warns_without_creating_witness :
  let d : gmap string obj := {["radius" := VDouble 2000]} in
  let w := mkWorld 0%Z [] ∅ [] [d] [ConversationContext.new] in
  let warning := ProcessingResult.Warning (Some "Large sphere (radius: f2). Continuing...") in
  EnhancedNLPProcessor.CreateEnhancedSphere (host := Demo.quiet) 0%nat (Some 0%nat) w
  = (Returns warning, w)
  /\ EnhancedNLPProcessor.ExecuteWithRetry (host := Demo.quiet)
       (CommandTemplate.mk "CreateSphere" ["center"; "radius"; "material"; "layer"]
          None None) 0%nat (Some 0%nat) w
     = (Returns warning,
        set_trace [EvExecuteRhinoCommand "CreateSphere" 0%nat;
                   EvPreExecuteValidation "CreateSphere"] w).
Proof.
  intros d w warning.
  destruct (large_sphere_warns_without_creating (host := Demo.quiet)
              (CommandTemplate.mk "CreateSphere"
                 ["center"; "radius"; "material"; "layer"] None None)
              0%nat d (Some 0%nat) w eq_refl eq_refl)
    as (H1 & _ & _ & H2).
  - vm_compute. reflexivity.
  - split; [exact H1|exact H2].
Defined.

Section Retry.
Context {Env : Type} `{host : Host Env}.
Variable dispatch : CommandTemplate.t -> loc -> option loc -> M Env ProcessingResult.t.

(** One turn of the loop whose dispatch raises: the exception is logged and
    remembered, the parameters are kept, and a delay of 1000 * (attempt + 1)
    milliseconds follows unless this was the last attempt. *)
Lemma attempt_body_raise (maxRetries : Z) (template : CommandTemplate.t)
    (context : option loc) (attempt : Z) (parameters : loc)
    (lastException : option exn) (ex : exn) (w w1 : World Env) :
  dispatch template parameters context
    (record (EvExecuteRhinoCommand (CommandTemplate.CommandName template) parameters) w)
  = (Throws ex, w1) ->
  attempt_body dispatch maxRetries template context attempt parameters lastException w
  = (Returns (Next parameters (Some ex)),
     if (attempt <? maxRetries - 1)%Z
     then delayed (1000 * (attempt + 1)) (warned attempt ex w1)
     else warned attempt ex w1).
Proof.
  intros Hd. unfold attempt_body, try_catch, bind, emit, ret. cbv beta.
  rewrite Hd. run_monad. unfold warned, delayed.
  destruct (attempt <? maxRetries - 1)%Z; reflexivity.
Qed.

(** C4. [ExecuteWithRetry] is private and its one caller leaves
    [maxRetries] at the default of three, so a raising dispatch is followed
    by a delay at attempts 0 and 1 only. There the delay written
    1000 * (attempt + 1) is 1000 * 2^attempt, the base delay of one second
    doubled per attempt: the loop logs the failure, waits that long, and
    only then goes on to the next attempt, with the same parameters and
    the exception remembered. *)
Theorem default_backoff_agrees_with_doubling
    (template : CommandTemplate.t) (context : option loc) (remaining : nat)
    (attempt : Z) (parameters : loc) (lastException : option exn) (ex : exn)
    (w w1 : World Env) :
  (0 <= attempt < defaultMaxRetries - 1)%Z ->
  dispatch template parameters context
    (record (EvExecuteRhinoCommand (CommandTemplate.CommandName template) parameters) w)
  = (Throws ex, w1) ->
  attempt_body dispatch defaultMaxRetries template context attempt parameters
    lastException w
  = (Returns (Next parameters (Some ex)),
     delayed (1000 * 2 ^ attempt) (warned attempt ex w1))
  /\ retry_from dispatch defaultMaxRetries template context (S remaining) attempt
       parameters lastException w
     = retry_from dispatch defaultMaxRetries template context remaining (attempt + 1)
         parameters (Some ex) (delayed (1000 * 2 ^ attempt) (warned attempt ex w1)).
Proof.
  intros Ha Hd.
  assert (Hpow : (1000 * 2 ^ attempt = 1000 * (attempt + 1))%Z).
  { unfold defaultMaxRetries in Ha.
    assert (attempt = 0 \/ attempt = 1)%Z as [-> | ->] by lia; reflexivity. }
  assert (Hlt : (attempt <? defaultMaxRetries - 1)%Z = true) by (apply Z.ltb_lt; lia).
  pose proof (attempt_body_raise defaultMaxRetries template context attempt parameters
                lastException ex w w1 Hd) as Hbody.
  rewrite Hlt in Hbody. rewrite Hpow.
  split; [exact Hbody|].
  simpl. unfold bind at 1. rewrite Hbody. reflexivity.
Qed.

End Retry.

(** C4, at a dispatch that raises: with the default of three attempts the
    first failure waits one second and the second two; the run then ends
    without a third wait. *)
Lemma default_backoff_agrees_with_doubling_witness :
  let template := CommandTemplate.mk "CreateSphere" [] None None in
  let ex := Exception "host unavailable" in
  let w1 := mkWorld 1000%Z
              [EvExecuteRhinoCommand "CreateSphere" 0%nat;
               EvLog LogWarning "Attempt 1 failed: host unavailable" None;
               EvDelay 1000] ∅ [] [] [] in
  (attempt_body (host := Demo.quiet) raising_dispatch defaultMaxRetries template None 0
     0%nat None (Demo.start 0)
   = (Returns (Next 0%nat (Some ex)), w1)
   /\ retry_from (host := Demo.quiet) raising_dispatch defaultMaxRetries template None
        3 0 0%nat None (Demo.start 0)
      = retry_from (host := Demo.quiet) raising_dispatch defaultMaxRetries template None
          2 1 0%nat (Some ex) w1)
  /\ (attempt_body (host := Demo.quiet) raising_dispatch defaultMaxRetries template None 1
        0%nat (Some ex) w1
      = (Returns (Next 0%nat (Some ex)),
         mkWorld 3000%Z
           [EvExecuteRhinoCommand "CreateSphere" 0%nat;
            EvLog LogWarning "Attempt 1 failed: host unavailable" None;
            EvDelay 1000;
            EvExecuteRhinoCommand "CreateSphere" 0%nat;
            EvLog LogWarning "Attempt 2 failed: host unavailable" None;
            EvDelay 2000] ∅ [] [] []))
  /\ List.filter (fun e => match e with EvDelay _ => true | _ => false end)
       (trace (snd (ExecuteWithRetry_with (host := Demo.quiet) raising_dispatch template
                      0%nat None defaultMaxRetries (Demo.start 0))))
     = [EvDelay (1000 * 2 ^ 0); EvDelay (1000 * 2 ^ 1)].
Proof.
  intros template ex w1.
  split; [|split].
  - refine (default_backoff_agrees_with_doubling (host := Demo.quiet)
              raising_dispatch template None 2 0 0%nat None ex (Demo.start 0)
              (record (EvExecuteRhinoCommand "CreateSphere" 0%nat) (Demo.start 0))
              _ _).
    + vm_compute. split; [discriminate|reflexivity].
    + reflexivity.
  - refine (proj1 (default_backoff_agrees_with_doubling (host := Demo.quiet)
                     raising_dispatch template None 1 1 0%nat (Some ex) ex w1
                     (record (EvExecuteRhinoCommand "CreateSphere" 0%nat) w1)
                     _ _)).
    + vm_compute. split; [discriminate|reflexivity].
    + reflexivity.
  - vm_compute. reflexivity.
Defined.

Lemma retry_calls_app (a b : list Event) :
  retry_calls (a ++ b) = (retry_calls a ++ retry_calls b)%list.
Proof.
  unfold retry_calls. apply omap_app.
Qed.

Lemma dispatches_calls (t : list Event) (cs : list RetryCall) (t' : list Event) :
  retry_calls t' = (retry_calls t ++ cs)%list ->
  dispatches t'
  = (dispatches t
     + length (List.filter (fun c => match c with Dispatch => true | Adjust => false end)
                 cs))%nat.
Proof.
  intros H. unfold dispatches. rewrite H, List.filter_app, length_app. reflexivity.
Qed.

Lemma AdjustParametersAsync_keeps_trace {Env : Type}
    (parameters : loc) (errorMessage : option string) (w : World Env) :
  trace (snd (ParameterExtractor.AdjustParametersAsync parameters errorMessage w))
  = trace w.
Proof.
  unfold ParameterExtractor.AdjustParametersAsync, ParameterExtractor.set_radius.
  run_monad.
  destruct (dicts w !! parameters) as [d|]; simpl; [|reflexivity].
  destruct errorMessage as [message|]; simpl; [|reflexivity].
  destruct (Str.ContainsIgnoreCase message "radius"); simpl; [|reflexivity].
  rewrite lookup_new.
  destruct (d !! "radius") as [[| radius | | | | |]|]; simpl; try reflexivity.
  destruct (Qle_bool radius 0); simpl.
  - rewrite lookup_new. simpl. rewrite insert_new.
    destruct (Num.Qltb 1000 radius); simpl; [|reflexivity].
    rewrite lookup_new. reflexivity.
  - destruct (Num.Qltb 1000 radius); simpl; [|reflexivity].
    rewrite lookup_new. reflexivity.
Qed.

Section RetryPolicy.
Context {Env : Type} `{host : Host Env}.
Variable dispatch : CommandTemplate.t -> loc -> option loc -> M Env ProcessingResult.t.

(** The dispatch collaborator makes no call of the retry loop's own. *)
Hypothesis dispatch_keeps_calls :
  forall t p c w, retry_calls (trace (snd (dispatch t p c w))) = retry_calls (trace w).

Lemma dispatched (template : CommandTemplate.t) (parameters : loc)
    (context : option loc) (w : World Env) :
  let w0 := record (EvExecuteRhinoCommand (CommandTemplate.CommandName template)
                      parameters) w in
  retry_calls (trace (snd (dispatch template parameters context w0)))
  = (retry_calls (trace w) ++ [Dispatch])%list.
Proof.
  intros w0. rewrite dispatch_keeps_calls. unfold w0, record. simpl.
  rewrite retry_calls_app. reflexivity.
Qed.

(** A dispatch that reports failure before the last attempt is followed by
    one parameter repair, whether or not the repair itself completes. *)
Lemma attempt_body_failure (maxRetries : Z) (template : CommandTemplate.t)
    (context : option loc) (attempt : Z) (parameters : loc)
    (lastException : option exn) (r : ProcessingResult.t) (w w1 : World Env) :
  (attempt < maxRetries - 1)%Z ->
  dispatch template parameters context
    (record (EvExecuteRhinoCommand (CommandTemplate.CommandName template) parameters) w)
  = (Returns r, w1) ->
  ProcessingResult.IsSuccess r = false ->
  exists parameters' lastException' w2,
    attempt_body dispatch maxRetries template context attempt parameters lastException w
    = (Returns (Next parameters' lastException'), w2)
    /\ retry_calls (trace w2) = (retry_calls (trace w) ++ [Dispatch; Adjust])%list.
Proof.
  intros Hlt Hd Hs.
  pose proof (dispatched template parameters context w) as Hcalls.
  simpl in Hcalls. rewrite Hd in Hcalls. simpl in Hcalls.
  apply Z.ltb_lt in Hlt.
  unfold attempt_body, try_catch, bind, emit, ret. cbv beta.
  rewrite Hd, Hs, Hlt.
  pose proof (AdjustParametersAsync_keeps_trace parameters
                (ProcessingResult.ErrorMessage r)
                (record (EvAdjustParameters parameters (ProcessingResult.ErrorMessage r)) w1))
    as Hadj.
  destruct (ParameterExtractor.AdjustParametersAsync parameters
              (ProcessingResult.ErrorMessage r)
              (record (EvAdjustParameters parameters (ProcessingResult.ErrorMessage r)) w1))
    as [[adjusted|ex] w2] eqn:E; simpl in Hadj.
  - exists adjusted, lastException, w2. split; [reflexivity|].
    rewrite Hadj. unfold record. simpl. rewrite retry_calls_app, Hcalls.
    rewrite <- app_assoc. reflexivity.
  - run_monad. do 3 eexists. split; [reflexivity|]. simpl.
    rewrite Hadj. unfold record. simpl.
    rewrite !retry_calls_app, Hcalls. simpl.
    rewrite <- !app_assoc. reflexivity.
Qed.

Lemma attempt_body_success (maxRetries : Z) (template : CommandTemplate.t)
    (context : option loc) (attempt : Z) (parameters : loc)
    (lastException : option exn) (r : ProcessingResult.t) (w w1 : World Env) :
  dispatch template parameters context
    (record (EvExecuteRhinoCommand (CommandTemplate.CommandName template) parameters) w)
  = (Returns r, w1) ->
  ProcessingResult.IsSuccess r = true ->
  attempt_body dispatch maxRetries template context attempt parameters lastException w
  = (Returns (Return_ r), w1)
  /\ retry_calls (trace w1) = (retry_calls (trace w) ++ [Dispatch])%list.
Proof.
  intros Hd Hs.
  pose proof (dispatched template parameters context w) as Hcalls.
  simpl in Hcalls. rewrite Hd in Hcalls. simpl in Hcalls.
  unfold attempt_body, try_catch, bind, emit, ret. cbv beta.
  rewrite Hd, Hs. split; [reflexivity|exact Hcalls].
Qed.

(** Whatever the dispatch does, one turn of the loop dispatches once and
    repairs at most once. *)
Lemma attempt_body_calls (maxRetries : Z) (template : CommandTemplate.t)
    (context : option loc) (attempt : Z) (parameters : loc)
    (lastException : option exn) (w : World Env) :
  let w' := snd (attempt_body dispatch maxRetries template context attempt parameters
                   lastException w) in
  retry_calls (trace w') = (retry_calls (trace w) ++ [Dispatch])%list
  \/ retry_calls (trace w') = (retry_calls (trace w) ++ [Dispatch; Adjust])%list.
Proof.
  pose proof (dispatched template parameters context w) as Hcalls. simpl in Hcalls.
  destruct (dispatch template parameters context
              (record (EvExecuteRhinoCommand (CommandTemplate.CommandName template)
                         parameters) w)) as [[r|ex] w1] eqn:Hd; simpl in Hcalls.
  - destruct (ProcessingResult.IsSuccess r) eqn:Hs.
    + destruct (attempt_body_success maxRetries template context attempt parameters
                  lastException r w w1 Hd Hs) as [Hb Hc].
      rewrite Hb. left. exact Hc.
    + destruct (Z.ltb_spec attempt (maxRetries - 1)) as [Hlt|Hge].
      * destruct (attempt_body_failure maxRetries template context attempt parameters
                    lastException r w w1 Hlt Hd Hs) as (p' & e' & w2 & Hb & Hc).
        rewrite Hb. right. exact Hc.
      * assert (Hf : (attempt <? maxRetries - 1)%Z = false) by (apply Z.ltb_ge; lia).
        unfold attempt_body, try_catch, bind, emit, ret. cbv beta.
        rewrite Hd, Hs, Hf. left. exact Hcalls.
  - rewrite (attempt_body_raise dispatch maxRetries template context attempt parameters
               lastException ex w w1 Hd).
    left. destruct (attempt <? maxRetries - 1)%Z; unfold delayed, warned, record; simpl;
      rewrite !retry_calls_app, Hcalls; simpl; rewrite ?app_nil_r; reflexivity.
Qed.

(** The loop never dispatches more often than it has turns left: at most
    [maxRetries] times in a whole run. *)
Lemma retry_from_bound (maxRetries : Z) (template : CommandTemplate.t)
    (context : option loc) (remaining : nat) (attempt : Z) (parameters : loc)
    (lastException : option exn) (w : World Env) :
  (dispatches (trace (snd (retry_from dispatch maxRetries template context remaining
                             attempt parameters lastException w)))
   <= dispatches (trace w) + remaining)%nat.
Proof.
  revert attempt parameters lastException w.
  induction remaining as [|n IH]; intros attempt parameters lastException w; simpl.
  - unfold bind, emit, ret, record. simpl.
    rewrite (dispatches_calls (trace w) []); [simpl; lia|].
    rewrite retry_calls_app. reflexivity.
  - pose proof (attempt_body_calls maxRetries template context attempt parameters
                  lastException w) as Hc. simpl in Hc.
    unfold bind at 1.
    destruct (attempt_body dispatch maxRetries template context attempt parameters
                lastException w) as [[[r|p' e']|ex] w1]; simpl in Hc |- *.
    + destruct Hc as [Hc|Hc]; rewrite (dispatches_calls _ _ _ Hc); simpl; lia.
    + specialize (IH (attempt + 1)%Z p' e' w1).
      destruct Hc as [Hc|Hc]; rewrite (dispatches_calls _ _ _ Hc) in IH; simpl in IH; lia.
    + destruct Hc as [Hc|Hc]; rewrite (dispatches_calls _ _ _ Hc); simpl; lia.
Qed.

(** A dispatch that reports failure before the last attempt: the loop goes
    on with what the repair step leaves. *)
Lemma attempt_body_repairs (maxRetries : Z) (template : CommandTemplate.t)
    (context : option loc) (attempt : Z) (parameters : loc)
    (lastException : option exn) (r : ProcessingResult.t) (w w1 : World Env) :
  (attempt < maxRetries - 1)%Z ->
  dispatch template parameters context
    (record (EvExecuteRhinoCommand (CommandTemplate.CommandName template) parameters) w)
  = (Returns r, w1) ->
  ProcessingResult.IsSuccess r = false ->
  attempt_body dispatch maxRetries template context attempt parameters lastException w
  = (let '(parameters', lastException', w2) :=
       repaired attempt parameters lastException r w1 in
     (Returns (Next parameters' lastException'), w2)).
Proof.
  intros Hlt Hd Hs. apply Z.ltb_lt in Hlt.
  unfold attempt_body, try_catch, bind, emit, ret, repaired. cbv beta.
  rewrite Hd, Hs, Hlt.
  destruct (ParameterExtractor.AdjustParametersAsync parameters
              (ProcessingResult.ErrorMessage r)
              (record (EvAdjustParameters parameters (ProcessingResult.ErrorMessage r)) w1))
    as [[adjusted|ex] w2]; [reflexivity|].
  run_monad. unfold delayed, warned, record. reflexivity.
Qed.

(** C7. Let the dispatch collaborator report non-success at the first and
    second dispatch of a run and success at the third. Then
    [ExecuteWithRetry], with its three attempts, dispatches three times:
    on the given parameters, on what the repair step made of them after
    the first failure, and on what it made of those after the second. Each
    repair step calls [AdjustParametersAsync] with the message of the
    failure before it. The result of the run is the successful result of
    the third dispatch, in the world that dispatch left. The calls of the
    run are exactly: dispatch, parameter repair, dispatch, parameter
    repair, dispatch. Whatever the collaborator does, no run dispatches
    more than three times. *)
Theorem fails_twice_then_succeeds
    (template : CommandTemplate.t) (parameters : loc) (context : option loc)
    (w : World Env) :
  (forall p w', (dispatches (trace w') = dispatches (trace w) + 1 \/
                 dispatches (trace w') = dispatches (trace w) + 2)%nat ->
                exists r w1, dispatch template p context w' = (Returns r, w1)
                             /\ ProcessingResult.IsSuccess r = false) ->
  (forall p w', (dispatches (trace w') = dispatches (trace w) + 3)%nat ->
                exists r w1, dispatch template p context w' = (Returns r, w1)
                             /\ ProcessingResult.IsSuccess r = true) ->
  let ev := fun p => EvExecuteRhinoCommand (CommandTemplate.CommandName template) p in
  exists r1 w1 p1 e1 w1' r2 w2 p2 e2 w2' r3 w3,
    dispatch template parameters context (record (ev parameters) w) = (Returns r1, w1)
    /\ ProcessingResult.IsSuccess r1 = false
    /\ repaired 0 parameters None r1 w1 = (p1, e1, w1')
    /\ dispatch template p1 context (record (ev p1) w1') = (Returns r2, w2)
    /\ ProcessingResult.IsSuccess r2 = false
    /\ repaired 1 p1 e1 r2 w2 = (p2, e2, w2')
    /\ dispatch template p2 context (record (ev p2) w2') = (Returns r3, w3)
    /\ ProcessingResult.IsSuccess r3 = true
    /\ ExecuteWithRetry_with dispatch template parameters context defaultMaxRetries w
       = (Returns r3, w3)
    /\ retry_calls (trace w3)
       = (retry_calls (trace w) ++ [Dispatch; Adjust; Dispatch; Adjust; Dispatch])%list
    /\ dispatches (trace w3) = (dispatches (trace w) + 3)%nat
    /\ (forall p0 w0,
          dispatches (trace (snd (ExecuteWithRetry_with dispatch template p0 context
                                    defaultMaxRetries w0)))
          <= dispatches (trace w0) + 3)%nat.
Proof.
  intros Hfail Hok ev.
  assert (Hcount : forall p (w0 : World Env) k,
             dispatches (trace w0) = k -> dispatches (trace (record (ev p) w0)) = S k).
  { intros p w0 k Hk. unfold record. simpl.
    rewrite (dispatches_calls (trace w0) [Dispatch]).
    - simpl. lia.
    - rewrite retry_calls_app. reflexivity. }
  (* first attempt *)
  destruct (Hfail parameters (record (ev parameters) w)) as (r1 & w1 & Hd1 & Hs1).
  { left. rewrite (Hcount _ _ _ eq_refl). lia. }
  destruct (attempt_body_failure defaultMaxRetries template context 0 parameters None
              r1 w w1 ltac:(unfold defaultMaxRetries; lia) Hd1 Hs1)
    as (p1 & e1 & w1' & Hb1 & Hc1).
  pose proof (attempt_body_repairs defaultMaxRetries template context 0 parameters None
                r1 w w1 ltac:(unfold defaultMaxRetries; lia) Hd1 Hs1) as Hr1.
  rewrite Hb1 in Hr1.
  destruct (repaired 0 parameters None r1 w1) as [[q1 x1] v1] eqn:Hrep1.
  injection Hr1 as <- <- <-.
  (* second attempt *)
  destruct (Hfail p1 (record (ev p1) w1')) as (r2 & w2 & Hd2 & Hs2).
  { right. rewrite (Hcount p1 w1' (dispatches (trace w) + 1)%nat); [lia|].
    rewrite (dispatches_calls _ _ _ Hc1). reflexivity. }
  destruct (attempt_body_failure defaultMaxRetries template context 1 p1 e1
              r2 w1' w2 ltac:(unfold defaultMaxRetries; lia) Hd2 Hs2)
    as (p2 & e2 & w2' & Hb2 & Hc2).
  pose proof (attempt_body_repairs defaultMaxRetries template context 1 p1 e1
                r2 w1' w2 ltac:(unfold defaultMaxRetries; lia) Hd2 Hs2) as Hr2.
  rewrite Hb2 in Hr2.
  destruct (repaired 1 p1 e1 r2 w2) as [[q2 x2] v2] eqn:Hrep2.
  injection Hr2 as <- <- <-.
  (* third attempt *)
  destruct (Hok p2 (record (ev p2) w2')) as (r3 & w3 & Hd3 & Hs3).
  { rewrite (Hcount p2 w2' (dispatches (trace w) + 2)%nat); [lia|].
    rewrite (dispatches_calls _ _ _ Hc2), (dispatches_calls _ _ _ Hc1). simpl. lia. }
  destruct (attempt_body_success defaultMaxRetries template context 2 p2 e2
              r3 w2' w3 Hd3 Hs3) as (Hb3 & Hc3).
  exists r1, w1, p1, e1, w1', r2, w2, p2, e2, w2', r3, w3.
  assert (Hcalls : retry_calls (trace w3)
                   = (retry_calls (trace w)
                      ++ [Dispatch; Adjust; Dispatch; Adjust; Dispatch])%list).
  { rewrite Hc3, Hc2, Hc1. rewrite <- !app_assoc. reflexivity. }
  do 8 (split; [first [assumption | reflexivity]|]).
  split.
  - unfold ExecuteWithRetry_with. simpl.
    unfold bind at 1. rewrite Hb1.
    unfold bind at 1. change (0 + 1)%Z with 1%Z. rewrite Hb2.
    unfold bind at 1. change (1 + 1)%Z with 2%Z. rewrite Hb3.
    reflexivity.
  - split; [exact Hcalls|].
    split; [rewrite (dispatches_calls _ _ _ Hcalls); reflexivity|].
    intros p0 w0. apply (retry_from_bound defaultMaxRetries template context 3).
Qed.

End RetryPolicy.

(** C7, at a dispatcher that fails until the third dispatch of the trace:
    the run returns the result of that third dispatch, on the second
    repaired copy of the dictionary. *)
Lemma fails_twice_then_succeeds_witness :
  let template := CommandTemplate.mk "CreateSphere" ["radius"] None None in
  let d : gmap string obj := {["radius" := VDouble 5]} in
  let w := mkWorld 0%Z [] ∅ [] [d] [] in
  exists w',
    ExecuteWithRetry_with (host := Demo.quiet) flaky_dispatch template 0%nat None
      defaultMaxRetries w
    = (Returns (ProcessingResult.Success (Some "Created sphere")), w')
    /\ retry_calls (trace w') = [Dispatch; Adjust; Dispatch; Adjust; Dispatch]
    /\ dispatches (trace w') = 3%nat
    /\ last (trace w') = Some (EvExecuteRhinoCommand "CreateSphere" 2%nat)
    /\ dicts w' = [d; d; d].
Proof.
  intros template d w.
  destruct (fails_twice_then_succeeds (host := Demo.quiet) flaky_dispatch) with
    (template := template) (parameters := 0%nat) (context := @None loc) (w := w)
    as (r1 & w1 & p1 & e1 & w1' & r2 & w2 & p2 & e2 & w2' & r3 & w3
        & Hd1 & Hs1 & Hrep1 & Hd2 & Hs2 & Hrep2 & Hd3 & Hs3 & Hrun & Hcalls & Hcount & _).
  - intros t p c w0. unfold flaky_dispatch.
    destruct (dispatches (trace w0) <? 3)%nat; reflexivity.
  - intros p w0 H. unfold flaky_dispatch.
    assert (Hlt : (dispatches (trace w0) <? 3)%nat = true).
    { apply Nat.ltb_lt. simpl in H. lia. }
    rewrite Hlt. eauto.
  - intros p w0 H. unfold flaky_dispatch.
    assert (Hge : (dispatches (trace w0) <? 3)%nat = false).
    { apply Nat.ltb_ge. simpl in H. lia. }
    rewrite Hge. eauto.
  - vm_compute in Hd1. injection Hd1 as <- <-.
    vm_compute in Hrep1. injection Hrep1 as <- <- <-.
    vm_compute in Hd2. injection Hd2 as <- <-.
    vm_compute in Hrep2. injection Hrep2 as <- <- <-.
    vm_compute in Hd3. injection Hd3 as <- <-.
    eexists. split; [exact Hrun|].
    split; [exact Hcalls|]. split; [exact Hcount|].
    split; reflexivity.
Defined.

(** The same policy on the processor's own [ExecuteRhinoCommand], against a
    document that refuses the sphere twice: three dispatches, a repair after
    each refusal, and the sphere is created at the third. *)
Lemma retry_against_a_stubborn_document :
  let template := CommandTemplate.mk "CreateSphere" ["radius"] None None in
  let w := mkWorld 0%Z [] ∅ [] [{["radius" := VDouble 5]}] [] in
  let run := ExecuteWithRetry (host := Demo.stubborn) template 0%nat None w in
  fst run = Returns (ProcessingResult.Success (Some "Created sphere at p with radius f2"))
  /\ retry_calls (trace (snd run)) = [Dispatch; Adjust; Dispatch; Adjust; Dispatch]
  /\ length (dicts (snd run)) = 3%nat.
Proof.
  vm_compute. repeat split; reflexivity.
Qed.

(** ** The provider loop and the orchestrator *)

Section Providers.
Context {Env : Type} `{host : Host Env}.

(** The loop does what the policy says. *)
Lemma TryMultipleProvidersAsync_spec (systemPrompt requestJson : string) (w : World Env) :
  TryMultipleProvidersAsync systemPrompt requestJson w
  = in_priority_order systemPrompt requestJson w.
Proof.
  unfold in_priority_order, TryMultipleProvidersAsync, providers, try_providers.
  run_monad.
  destruct (OpenAI_ProcessTextAsync systemPrompt requestJson (env w)) as [o1 e1].
  destruct o1 as [[[|c r]|]|ex1]; simpl;
    try (unfold record, set_env, set_trace; simpl; rewrite <- ?app_assoc; reflexivity);
    destruct (Claude_ProcessTextAsync systemPrompt requestJson e1) as [o2 e2];
    destruct o2 as [[[|c2 r2]|]|ex2]; simpl;
    unfold record, set_env, set_trace; simpl; rewrite <- ?app_assoc; reflexivity.
Qed.

End Providers.

(** ** The response cache *)

Section Cache.
Context {Env : Type} `{host : Host Env}.

Lemma blind_ret {A : Type} (a : A) : cache_blind (Env := Env) (ret a).
Proof. intros w cache. reflexivity. Qed.

Lemma blind_throw {A : Type} (ex : exn) : cache_blind (Env := Env) (A := A) (throw ex).
Proof. intros w cache. reflexivity. Qed.

Lemma blind_emit (e : Event) : cache_blind (Env := Env) (emit e).
Proof. intros w cache. reflexivity. Qed.

Lemma blind_call {A : Type} (f : Env -> Outcome A * Env) : cache_blind (call f).
Proof.
  intros w cache. unfold call. simpl. destruct (f (env w)); reflexivity.
Qed.

Lemma blind_bind {A B : Type} (m : M Env A) (k : A -> M Env B) :
  cache_blind m -> (forall a, cache_blind (k a)) -> cache_blind (bind m k).
Proof.
  intros Hm Hk w cache. unfold bind. rewrite Hm.
  destruct (m w) as [[a|ex] w1]; simpl; [apply Hk|reflexivity].
Qed.

Lemma blind_try {A : Type} (m : M Env A) (h : exn -> M Env A) :
  cache_blind m -> (forall ex, cache_blind (h ex)) -> cache_blind (try_catch m h).
Proof.
  intros Hm Hh w cache. unfold try_catch. rewrite Hm.
  destruct (m w) as [[a|ex] w1]; simpl; [reflexivity|apply Hh].
Qed.

Lemma blind_mapM {A B : Type} (f : A -> M Env B) (l : list A) :
  (forall a, cache_blind (f a)) -> cache_blind (mapM f l).
Proof.
  intros Hf. induction l as [|x l IH]; simpl.
  - apply blind_ret.
  - apply blind_bind; [apply Hf|]. intros y.
    apply blind_bind; [exact IH|]. intros ys. apply blind_ret.
Qed.

Ltac blind :=
  repeat first
    [ apply blind_ret | apply blind_throw | apply blind_emit | apply blind_call
    | apply blind_bind; [|intros ?] | apply blind_try; [|intros ?]
    | progress unfold log ].

Lemma blind_try_providers
    (ps : list ((Env -> Outcome (option string) * Env) * string))
    (lastException : option exn) :
  cache_blind (try_providers ps lastException).
Proof.
  revert lastException. induction ps as [|[provider name] rest IH];
    intros lastException; simpl.
  - apply blind_throw.
  - apply blind_bind.
    + apply blind_try; [|intros ex; blind].
      apply blind_bind; [apply blind_emit|]. intros _.
      apply blind_bind; [apply blind_call|]. intros result.
      destruct (negb (Str.IsNullOrEmpty result)); blind.
    + intros [result|last]; [apply blind_ret|apply IH].
Qed.

Lemma partial_stores (key : string) (message : option string) :
  stores key (ret (ProcessingResult.Partial message)).
Proof.
  intros w. exists None. split; [intros cache; reflexivity|].
  intros r H. injection H as <-. reflexivity.
Qed.

Lemma stores_bind {A : Type} (key : string) (m : M Env A)
    (k : A -> M Env ProcessingResult.t) :
  cache_blind m -> (forall a, stores key (k a)) -> stores key (bind m k).
Proof.
  intros Hm Hk w. unfold bind.
  destruct (m w) as [[a|ex] w1] eqn:E.
  - destruct (Hk a w1) as (stored & Hrun & Hentry).
    exists stored. split.
    + intros cache. rewrite Hm, E. simpl. apply Hrun.
    + exact Hentry.
  - exists None. split; [|intros r H; discriminate H].
    intros cache. rewrite Hm, E. reflexivity.
Qed.

(** Everything [ProcessWithAI] does below the cache check is independent of
    what the cache holds; its only write is the entry of a Success. *)
Lemma ask_providers_stores (input : string) (ctx : option ConversationContext.t)
    (key : string) :
  stores key (ask_providers input ctx key).
Proof.
  unfold ask_providers.
  apply stores_bind; [blind|]. intros sceneInfo.
  apply stores_bind; [apply blind_try_providers|]. intros response.
  apply stores_bind; [blind|]. intros aiResponse.
  destruct (aiResponse ≫= AIResponse.Actions) as [[|action actions]|];
    try apply partial_stores.
  apply stores_bind.
  { apply blind_mapM. intros a. blind. }
  intros results w.
  exists (Some (CachedResponse.mk
                  (ProcessingResult.Success (Some (Str.Join NewLine results)))
                  (UtcNow (env w) + five_minutes))).
  split; [|repeat split].
  intros cache. reflexivity.
Qed.

Lemma live_entry_expired (key : string) (entry : CachedResponse.t) (w : World Env) :
  _responseCache w !! key = Some entry ->
  (CachedResponse.ExpiryTime entry < UtcNow (env w))%Z ->
  live_entry key w = None.
Proof.
  intros He Hx. unfold live_entry, CachedResponse.IsExpired. rewrite He.
  apply Z.ltb_lt in Hx. rewrite Hx. reflexivity.
Qed.

Lemma live_entry_absent (key : string) (w : World Env) :
  _responseCache w !! key = None -> live_entry key w = None.
Proof.
  intros He. unfold live_entry. rewrite He. reflexivity.
Qed.

End Cache.

Section ExpiredEntry.
Context {Env : Type} `{host : Host Env}.

Lemma blind_read_context_opt (context : option loc) :
  cache_blind (Env := Env) (read_context_opt context).
Proof.
  destruct context as [l|]; simpl; [|apply blind_ret].
  apply blind_bind; [|intros c; apply blind_ret].
  intros w cache. unfold read_context. simpl.
  destruct (contexts w !! l); reflexivity.
Qed.

(** [ProcessWithAI] on a world whose lookup finds nothing usable. *)
Lemma ProcessWithAI_miss (input : string) (context : option loc)
    (ctx : option ConversationContext.t) (w : World Env) :
  read_context_opt context w = (Returns ctx, w) ->
  live_entry (GenerateCacheKey input ctx) w = None ->
  ProcessWithAI input context w
  = ask_providers input ctx (GenerateCacheKey input ctx)
      (record (EvCacheLookup (GenerateCacheKey input ctx)) w).
Proof.
  intros Hctx Hlive. unfold ProcessWithAI. unfold bind at 1. rewrite Hctx.
  unfold bind at 1, emit at 1. unfold bind at 1, gets at 1.
  replace (live_entry (GenerateCacheKey input ctx)
             (record (EvCacheLookup (GenerateCacheKey input ctx)) w))
    with (@None ProcessingResult.t) by (symmetry; exact Hlive).
  reflexivity.
Qed.

(** C5 (amended). A lookup that finds an expired entry goes on exactly as a
    lookup that finds nothing: the run has the same outcome, trace and
    collaborator state as the run on the same world without the entry, so
    the expired result is not what is returned. The entry is overwritten
    exactly when the recomputation returns a Success: by that Success,
    with a new life of five minutes. In every other case the run does not
    return a Success (it returns a Partial or raises) and the entry stays
    in the cache as it was. *)
Theorem expired_entry_is_a_miss
    (input : string) (context : option loc) (ctx : option ConversationContext.t)
    (entry : CachedResponse.t) (w : World Env) :
  read_context_opt context w = (Returns ctx, w) ->
  _responseCache w !! GenerateCacheKey input ctx = Some entry ->
  (CachedResponse.ExpiryTime entry < UtcNow (env w))%Z ->
  let key := GenerateCacheKey input ctx in
  let run := ProcessWithAI input context w in
  let miss := ProcessWithAI input context
                (set_responseCache (delete key (_responseCache w)) w) in
  fst run = fst miss
  /\ snd miss = set_responseCache (_responseCache (snd miss)) (snd run)
  /\ ((exists fresh,
          _responseCache (snd run) = <[key := fresh]> (_responseCache w)
          /\ _responseCache (snd miss) = _responseCache (snd run)
          /\ fst run = Returns (CachedResponse.Result fresh)
          /\ ProcessingResult.Type_ (CachedResponse.Result fresh)
             = ProcessingResultType.Success
          /\ CachedResponse.ExpiryTime fresh
             = (UtcNow (env (snd run)) + five_minutes)%Z)
      \/ (_responseCache (snd run) = _responseCache w
          /\ _responseCache (snd run) !! key = Some entry
          /\ _responseCache (snd miss) = delete key (_responseCache w)
          /\ (forall r, fst run = Returns r ->
                        ProcessingResult.Type_ r = ProcessingResultType.Partial)))
  /\ (forall r, fst run = Returns r ->
                ProcessingResult.Type_ r = ProcessingResultType.Success ->
                _responseCache (snd run) !! key
                = Some (CachedResponse.mk r (UtcNow (env (snd run)) + five_minutes))).
Proof.
  intros Hctx Hentry Hexp key run miss.
  set (W := record (EvCacheLookup key) w).
  assert (Hrun : run = ask_providers input ctx key W).
  { apply ProcessWithAI_miss; [exact Hctx|].
    eapply live_entry_expired; eauto. }
  assert (Hmiss : miss = ask_providers input ctx key
                           (set_responseCache (delete key (_responseCache w)) W)).
  { unfold miss. rewrite ProcessWithAI_miss with (ctx := ctx).
    - reflexivity.
    - rewrite blind_read_context_opt, Hctx. reflexivity.
    - apply live_entry_absent. simpl. apply lookup_delete_eq. }
  destruct (ask_providers_stores input ctx key W) as (stored & Hframe & Hstored).
  pose proof (Hframe (_responseCache w)) as Hsame.
  change (set_responseCache (_responseCache w) W) with W in Hsame.
  pose proof (Hframe (delete key (_responseCache w))) as Hdel.
  rewrite <- Hrun in Hsame, Hdel, Hstored. rewrite <- Hmiss in Hdel.
  assert (Hcache : _responseCache (snd run) = patch key stored (_responseCache w)).
  { rewrite Hsame at 1. reflexivity. }
  rewrite Hdel. simpl.
  split; [reflexivity|]. split; [reflexivity|].
  destruct stored as [fresh|]; simpl in *.
  - destruct Hstored as (Hres & Htype & Hlife). split.
    + left. exists fresh.
      rewrite Hcache. rewrite insert_delete_eq. repeat split; assumption.
    + intros r Hr _. rewrite Hcache, lookup_insert_eq.
      rewrite Hres in Hr. injection Hr as <-. rewrite <- Hlife.
      destruct fresh; reflexivity.
  - split.
    + right. rewrite Hcache. repeat split; [exact Hentry|exact Hstored].
    + intros r Hr Ht. rewrite (Hstored r Hr) in Ht. discriminate Ht.
Qed.

End ExpiredEntry.

(** C5 at an entry that expired long ago, on two hosts. Where the
    providers answer without actions the run returns the Partial of a
    miss and the stale entry stays. Where they answer with an action the
    run returns the fresh Success and the entry is replaced by it, with a
    life of five minutes from now. *)
Lemma expired_entry_is_a_miss_witness :
  let stale := CachedResponse.mk (ProcessingResult.Success (Some "old")) 300000 in
  let w := mkWorld 1000000%Z [] {["hello" := stale]} [] [] [] in
  let fresh := ProcessingResult.Success (Some "CreateSphere") in
  (fst (ProcessWithAI (host := Demo.quiet) "hello" None w)
   = fst (ProcessWithAI (host := Demo.quiet) "hello" None
            (set_responseCache (delete "hello" (_responseCache w)) w)))
  /\ (fst (ProcessWithAI (host := chatty) "hello" None w) = Returns fresh
      /\ _responseCache (snd (ProcessWithAI (host := chatty) "hello" None w)) !! "hello"
         = Some (CachedResponse.mk fresh 1300000)).
Proof.
  intros stale w fresh.
  split.
  - refine (proj1 (expired_entry_is_a_miss (host := Demo.quiet) "hello" None None stale w
                     eq_refl _ _)).
    + reflexivity.
    + reflexivity.
  - assert (Hr : fst (ProcessWithAI (host := chatty) "hello" None w) = Returns fresh)
      by (vm_compute; reflexivity).
    split; [exact Hr|].
    refine (proj2 (proj2 (proj2 (expired_entry_is_a_miss (host := chatty) "hello" None
                                   None stale w eq_refl _ _))) fresh Hr eq_refl).
    + reflexivity.
    + reflexivity.
Defined.

(** C5 as stated fails in its second half: when the recomputation ends in a
    Partial answer the expired entry is neither evicted nor overwritten; it
    is still in the cache after the run, unchanged. *)
Lemma expired_entry_survives_a_partial_answer :
  let stale := CachedResponse.mk (ProcessingResult.Success (Some "old")) 300000 in
  let w := mkWorld 1000000%Z [] {["hello" := stale]} [] [] [] in
  let run := ProcessWithAI (host := Demo.quiet) "hello" None w in
  CachedResponse.IsExpired (UtcNow (Host := Demo.quiet) (env w)) stale = true
  /\ fst run = Returns (ProcessingResult.Partial (Some "text"))
  /\ _responseCache (snd run) !! "hello" = Some stale.
Proof.
  vm_compute. repeat split; reflexivity.
Qed.

(** ** Provider exhaustion, end to end *)

Lemma provider_calls_app (a b : list Event) :
  provider_calls (a ++ b) = (provider_calls a ++ provider_calls b)%list.
Proof.
  unfold provider_calls. apply omap_app.
Qed.

Section Exhaustion.
Context {Env : Type} `{host : Host Env}.
Variable classifier : string -> option loc -> IntentResult.t.

Hypothesis openai_down :
  forall s j e, answer (fst (OpenAI_ProcessTextAsync s j e)) = None.
Hypothesis claude_down :
  forall s j e, answer (fst (Claude_ProcessTextAsync s j e)) = None.

Lemma failure_events_no_call (name : string) (o : Outcome (option string)) :
  provider_calls (failure_events name o) = [].
Proof.
  destruct o; reflexivity.
Qed.

Lemma providers_exhausted (systemPrompt requestJson : string) (w : World Env) :
  exists last w',
    TryMultipleProvidersAsync systemPrompt requestJson w
    = (Throws (InvalidOperationException "All AI providers failed" last), w')
    /\ provider_calls (trace w')
       = (provider_calls (trace w) ++ ["OpenAI"; "Claude"])%list.
Proof.
  rewrite TryMultipleProvidersAsync_spec. unfold in_priority_order.
  pose proof (openai_down systemPrompt requestJson (env w)) as H1.
  destruct (OpenAI_ProcessTextAsync systemPrompt requestJson (env w)) as [o1 e1].
  simpl in H1. rewrite H1.
  pose proof (claude_down systemPrompt requestJson e1) as H2.
  destruct (Claude_ProcessTextAsync systemPrompt requestJson e1) as [o2 e2].
  simpl in H2. rewrite H2.
  do 2 eexists. split; [reflexivity|].
  unfold set_env, set_trace. cbn [trace].
  rewrite !provider_calls_app, !failure_events_no_call.
  rewrite app_nil_r. reflexivity.
Qed.

Lemma ask_providers_exhausted (input : string) (ctx : option ConversationContext.t)
    (key scene : string) (e1 : Env) (w : World Env) :
  GetCurrentSceneInfoAsync (env w) = (Returns scene, e1) ->
  exists last w',
    ask_providers input ctx key w
    = (Throws (InvalidOperationException "All AI providers failed" last), w')
    /\ provider_calls (trace w')
       = (provider_calls (trace w) ++ ["OpenAI"; "Claude"])%list.
Proof.
  intros Hscene. unfold ask_providers.
  unfold bind at 1. unfold bind at 1, emit at 1, call at 1. simpl.
  rewrite Hscene. unfold bind at 1.
  match goal with
  | |- context [TryMultipleProvidersAsync ?s ?j ?w0] =>
      destruct (providers_exhausted s j w0) as (last & w' & Hrun & Hcalls);
      rewrite Hrun
  end.
  exists last, w'. split; [reflexivity|].
  rewrite Hcalls. simpl. rewrite provider_calls_app. simpl.
  rewrite app_nil_r. reflexivity.
Qed.

Lemma EnhanceContextAsync_ok (input : string) (context : option loc) (w : World Env) :
  context_ok context w ->
  exists l c w1,
    ContextManager.EnhanceContextAsync input context w = (Returns l, w1)
    /\ env w1 = env w /\ trace w1 = trace w
    /\ _responseCache w1 = _responseCache w
    /\ contexts w1 !! l = Some c.
Proof.
  intros Hok. unfold ContextManager.EnhanceContextAsync. run_monad.
  destruct context as [l|]; simpl in *.
  - destruct Hok as [c Hc]. rewrite Hc. simpl.
    do 3 eexists. split; [reflexivity|]. simpl. repeat split.
    apply list_lookup_insert_eq. eapply lookup_lt_Some; eauto.
  - rewrite lookup_new. simpl.
    do 3 eexists. split; [reflexivity|]. simpl. repeat split.
    rewrite insert_new. apply lookup_new.
Qed.

End Exhaustion.

Section ProviderPolicy.
Context {Env : Type} `{host : Host Env}.
Variable classifier : string -> option loc -> IntentResult.t.

(** C6. The provider loop follows the priority policy, for every behaviour
    of the two providers. OpenAI is called first, and a non-empty reply of
    it is returned at once: Claude is not called and its state is not
    touched. When OpenAI raises or replies nothing (null or empty), the
    loop goes on to Claude, logging the exception if there was one, and a
    non-empty reply of Claude is returned. Only when Claude fails as well
    does the loop raise "All AI providers failed", carrying the last
    exception. When a confident utterance of unknown category reaches the
    orchestrator on a cache miss and both providers are down, both are
    called, in that order, the exception leaves [ProcessWithAI], and the
    entry point answers with the fallback handler's Error result, not a
    Partial. *)
Theorem providers_in_order_then_error :
  (forall systemPrompt requestJson (w : World Env),
      TryMultipleProvidersAsync systemPrompt requestJson w
      = in_priority_order systemPrompt requestJson w)
  /\
  (forall systemPrompt requestJson (w : World Env) o1 e1 result,
      OpenAI_ProcessTextAsync systemPrompt requestJson (env w) = (o1, e1) ->
      answer o1 = Some result ->
      TryMultipleProvidersAsync systemPrompt requestJson w
      = (Returns result,
         set_env e1
           (set_trace (trace w ++ [EvProvider "OpenAI";
                                   EvLog LogDebug "Successfully used OpenAI provider" None])
              w)))
  /\
  (forall systemPrompt requestJson (w : World Env) o1 e1 o2 e2 result,
      OpenAI_ProcessTextAsync systemPrompt requestJson (env w) = (o1, e1) ->
      answer o1 = None ->
      Claude_ProcessTextAsync systemPrompt requestJson e1 = (o2, e2) ->
      answer o2 = Some result ->
      TryMultipleProvidersAsync systemPrompt requestJson w
      = (Returns result,
         set_env e2
           (set_trace (trace w ++ [EvProvider "OpenAI"] ++ failure_events "OpenAI" o1
                       ++ [EvProvider "Claude";
                           EvLog LogDebug "Successfully used Claude provider" None])
              w)))
  /\
  (forall systemPrompt requestJson (w : World Env) o1 e1 o2 e2,
      OpenAI_ProcessTextAsync systemPrompt requestJson (env w) = (o1, e1) ->
      answer o1 = None ->
      Claude_ProcessTextAsync systemPrompt requestJson e1 = (o2, e2) ->
      answer o2 = None ->
      TryMultipleProvidersAsync systemPrompt requestJson w
      = (Throws (InvalidOperationException "All AI providers failed"
                   (remember o2 (remember o1 None))),
         set_env e2
           (set_trace (trace w ++ [EvProvider "OpenAI"] ++ failure_events "OpenAI" o1
                       ++ [EvProvider "Claude"] ++ failure_events "Claude" o2)
              w)))
  /\
  (forall (input : string) (context : option loc) (scene : string) (e1 : Env)
          (w : World Env),
      (forall s j e, answer (fst (OpenAI_ProcessTextAsync s j e)) = None) ->
      (forall s j e, answer (fst (Claude_ProcessTextAsync s j e)) = None) ->
      ¬ blank (Some input) ->
      (0.7 <= IntentResult.Confidence (classifier input context))%Q ->
      IntentResult.Category (classifier input context) = Unknown ->
      context_ok context w ->
      (forall key, live_entry key w = None) ->
      GetCurrentSceneInfoAsync (env w) = (Returns scene, e1) ->
      exists last w',
        ProcessNaturalLanguageAsync_with classifier (Some input) context w
        = (Returns (FallbackHandler.HandleExceptionAsync
                      (InvalidOperationException "All AI providers failed" last) input),
           w')
        /\ ProcessingResult.Type_
             (FallbackHandler.HandleExceptionAsync
                (InvalidOperationException "All AI providers failed" last) input)
           = ProcessingResultType.Error
        /\ provider_calls (trace w')
           = (provider_calls (trace w) ++ ["OpenAI"; "Claude"])%list).
Proof.
  split; [exact TryMultipleProvidersAsync_spec|].
  split.
  { intros s j w o1 e1 result H1 Ha.
    rewrite TryMultipleProvidersAsync_spec. unfold in_priority_order.
    rewrite H1, Ha. reflexivity. }
  split.
  { intros s j w o1 e1 o2 e2 result H1 Ha1 H2 Ha2.
    rewrite TryMultipleProvidersAsync_spec. unfold in_priority_order.
    rewrite H1, Ha1, H2, Ha2. rewrite <- !app_assoc. reflexivity. }
  split.
  { intros s j w o1 e1 o2 e2 H1 Ha1 H2 Ha2.
    rewrite TryMultipleProvidersAsync_spec. unfold in_priority_order.
    rewrite H1, Ha1, H2, Ha2. rewrite <- !app_assoc. reflexivity. }
  intros input context scene e1 w openai_down claude_down Hb Hconf Hcat Hok Hlive Hscene.
  assert (Hw : Str.IsNullOrWhiteSpace (Some input) = false).
  { destruct (Str.IsNullOrWhiteSpace (Some input)) eqn:E; [|reflexivity].
    apply IsNullOrWhiteSpace_blank in E. contradiction. }
  apply Qltb_ge in Hconf.
  set (w3 := record (EvEnhanceContext input)
               (record (EvClassifyIntent input)
                  (record (EvLog LogInformation
                             ("Processing enhanced NLP input: " ++ input) None) w))).
  destruct (EnhanceContextAsync_ok input context w3 Hok)
    as (l & c & w4 & Henh & Henv & Htrace & Hcache & Hctx).
  assert (Hread : read_context_opt (Some l) w4 = (Returns (Some c), w4)).
  { simpl. unfold bind, read_context, ret. rewrite Hctx. reflexivity. }
  assert (Hmiss : live_entry (GenerateCacheKey input (Some c)) w4 = None).
  { rewrite <- (Hlive (GenerateCacheKey input (Some c))).
    unfold live_entry. rewrite Hcache, Henv. reflexivity. }
  pose proof (ProcessWithAI_miss input (Some l) (Some c) w4 Hread Hmiss) as HAI.
  destruct (ask_providers_exhausted openai_down claude_down input (Some c)
              (GenerateCacheKey input (Some c)) scene e1
              (record (EvCacheLookup (GenerateCacheKey input (Some c))) w4))
    as (last & w5 & Hask & Hcalls).
  { simpl. rewrite Henv. exact Hscene. }
  rewrite Hask in HAI.
  exists last. eexists. split; [|split; [reflexivity|]].
  - unfold ProcessNaturalLanguageAsync_with. rewrite Hw.
    unfold try_catch, route. simpl default.
    unfold bind at 1, log at 1, emit at 1.
    unfold bind at 1, emit at 1.
    rewrite Hconf.
    unfold bind at 1, emit at 1.
    unfold bind at 1. fold w3. rewrite Henh. rewrite Hcat. rewrite HAI.
    run_monad. reflexivity.
  - simpl. rewrite !provider_calls_app. simpl. rewrite app_nil_r.
    rewrite Hcalls. simpl. rewrite provider_calls_app, Htrace. simpl.
    rewrite app_nil_r. unfold w3. simpl.
    rewrite !provider_calls_app. simpl. rewrite !app_nil_r. reflexivity.
Qed.

End ProviderPolicy.

(** C6 at three hosts. Where OpenAI answers, the loop returns its reply
    after that one call. Where OpenAI raises and Claude answers, Claude's
    reply is returned after a warning. Where the first provider raises and
    the second answers nothing, behind a classifier that is confident of an
    unknown category, the entry point ends in the Error of the fallback
    handler. *)
Lemma providers_in_order_then_error_witness :
  TryMultipleProvidersAsync (host := Demo.quiet) "prompt" "request" (Demo.start 0)
  = (Returns "reply",
     set_trace [EvProvider "OpenAI";
                EvLog LogDebug "Successfully used OpenAI provider" None] (Demo.start 0))
  /\ TryMultipleProvidersAsync (host := second_answers) "prompt" "request" (Demo.start 0)
     = (Returns "second",
        set_trace [EvProvider "OpenAI";
                   EvLog LogWarning "OpenAI provider failed: timeout" None;
                   EvProvider "Claude";
                   EvLog LogDebug "Successfully used Claude provider" None]
          (Demo.start 0))
  /\ exists last w',
      ProcessNaturalLanguageAsync_with (host := Demo.offline) unknown_classifier
        (Some "surprise me") None (Demo.start 0)
      = (Returns (FallbackHandler.HandleExceptionAsync (host := Demo.offline)
                    (InvalidOperationException "All AI providers failed" last)
                    "surprise me"),
         w')
      /\ ProcessingResult.Type_
           (FallbackHandler.HandleExceptionAsync (host := Demo.offline)
              (InvalidOperationException "All AI providers failed" last) "surprise me")
         = ProcessingResultType.Error
      /\ provider_calls (trace w') = ["OpenAI"; "Claude"].
Proof.
  split; [|split].
  - exact (proj1 (proj2 (providers_in_order_then_error (host := Demo.quiet)
                           unknown_classifier))
             "prompt" "request" (Demo.start 0) (Returns (Some "reply")) 0%Z "reply"
             eq_refl eq_refl).
  - exact (proj1 (proj2 (proj2 (providers_in_order_then_error (host := second_answers)
                                  unknown_classifier)))
             "prompt" "request" (Demo.start 0) (Throws (Exception "timeout")) 0%Z
             (Returns (Some "second")) 0%Z "second" eq_refl eq_refl eq_refl eq_refl).
  - refine (proj2 (proj2 (proj2 (proj2
                     (providers_in_order_then_error (host := Demo.offline)
                        unknown_classifier))))
              "surprise me" None "scene" 0%Z (Demo.start 0)
              (fun _ _ _ => eq_refl) (fun _ _ _ => eq_refl) _ _ eq_refl I _ eq_refl).
    + intros Hb. apply IsNullOrWhiteSpace_blank in Hb. discriminate Hb.
    + vm_compute. discriminate.
    + intros key. unfold live_entry. simpl. rewrite lookup_empty. reflexivity.
Defined.

(** ** The negative radius *)

Section NegativeRadius.
Context {Env : Type} `{host : Host Env}.
Import ParameterExtractor SemanticValidator.

Lemma extract_each_nothing (input : string) (names : list string) (parameters : loc)
    (w : World Env) :
  (forall name, In name names -> ExtractParameterAsync input name None = None) ->
  extract_each input names None parameters w = (Returns tt, w).
Proof.
  induction names as [|name rest IH]; intros Hnone; simpl; [reflexivity|].
  unfold bind, ret. cbv beta iota.
  rewrite (Hnone name) by (left; reflexivity).
  apply IH. intros n Hn. apply Hnone. right. exact Hn.
Qed.

(** C2 fails on the code. The radius patterns accept digits only, so "-2"
    is not extracted; the parameters stay empty, validation finds nothing
    wrong, and [ProcessDirectCommand] goes on to [ExecuteWithRetry], whose
    first step is the dispatch. *)
Theorem negative_radius_reaches_dispatch (w : World Env) :
  let input := "create a sphere with radius -2" in
  let template := CommandTemplate.mk "CreateSphere"
                    ["center"; "radius"; "material"; "layer"] None None in
  let intent := IntentResult.mk DirectCommand (Some template) 1 [] in
  ExtractRadius input = None
  /\ ValidateSphereParameters ∅ = ValidationResult.Valid
  /\ ProcessDirectCommand input intent None w
     = ExecuteWithRetry template (length (dicts w)) None
         (set_dicts (dicts w ++ [∅])
            (set_trace (trace w ++ [EvExtractParameters input "CreateSphere";
                                    EvValidateParameters "CreateSphere"]) w)).
Proof.
  intros input template intent.
  split; [vm_compute; reflexivity|]. split; [reflexivity|].
  assert (Hnone : forall name, In name ["center"; "radius"; "material"; "layer"] ->
                               ExtractParameterAsync input name None = None).
  { intros name [<-|[<-|[<-|[<-|[]]]]]; vm_compute; reflexivity. }
  unfold ProcessDirectCommand, ExtractParametersAsync, ValidateParametersAsync.
  cbn [IntentResult.CommandTemplate intent template CommandTemplate.CommandName
       CommandTemplate.Parameters].
  unfold bind at 1, emit at 1. unfold bind at 1. unfold bind at 1, new_dict at 1.
  unfold bind at 1. rewrite (extract_each_nothing _ _ _ _ Hnone).
  run_monad. rewrite lookup_new. simpl.
  unfold set_dicts, set_trace. simpl. rewrite <- app_assoc. reflexivity.
Qed.

End NegativeRadius.

(** The same utterance on a concrete host: the sphere is created, with the
    default radius; and at the entry point the utterance does not even reach
    the direct-command path, because two keywords out of five score 0.28. *)
Lemma negative_radius_creates_a_default_sphere :
  let input := "create a sphere with radius -2" in
  let template := CommandTemplate.mk "CreateSphere"
                    ["center"; "radius"; "material"; "layer"] None None in
  let intent := IntentResult.mk DirectCommand (Some template) 1 [] in
  let run := ProcessDirectCommand (host := Demo.quiet) input intent None (Demo.start 0) in
  fst run = Returns (ProcessingResult.Success (Some "Created sphere at p with radius f2"))
  /\ dicts (snd run) = [∅]
  /\ ParameterExtractor.GetDouble (host := Demo.quiet) ∅ "radius" 1.0 = 1.0%Q
  /\ trace (snd run)
     = [EvExtractParameters input "CreateSphere"; EvValidateParameters "CreateSphere";
        EvExecuteRhinoCommand "CreateSphere" 0%nat; EvPreExecuteValidation "CreateSphere";
        EvRhino "Sphere.ToBrep"; EvRhino "Objects.AddBrep"; EvRhino "Views.Redraw"]
  /\ fst (ProcessNaturalLanguageAsync (host := Demo.quiet) (Some input) None (Demo.start 0))
     = Returns (ProcessingResult.Partial (Some "Could you clarify the request?")).
Proof.
  vm_compute. repeat split; reflexivity.
Qed.

(** The defect as a caller meets it. An utterance with all five sphere
    keywords is classified with confidence 0.7 and runs as a direct
    command; its radius of -2 is dropped, nothing is rejected, and a
    sphere of the default radius is created. *)
Lemma negative_radius_at_the_entry_point :
  let input := "please create and make a round ball sphere with radius -2" in
  let run := ProcessNaturalLanguageAsync (host := Demo.quiet) (Some input) None
               (Demo.start 0) in
  fst run = Returns (ProcessingResult.Success (Some "Created sphere at p with radius f2"))
  /\ dicts (snd run) = [∅]
  /\ retry_calls (trace (snd run)) = [Dispatch]
  /\ existsb (fun e => match e with EvRhino "Objects.AddBrep" => true | _ => false end)
       (trace (snd run)) = true.
Proof.
  vm_compute. repeat split; reflexivity.
Qed.

(** The registered catalog never answers with the Unknown category, the
    only one the entry point sends to [ProcessWithAI]. *)
Lemma registered_categories (input : string) (context : option loc) :
  let category := IntentResult.Category
                    (IntentClassifier.ClassifyIntentAsync input context) in
  category = DirectCommand \/ category = Modification.
Proof.
  unfold IntentClassifier.ClassifyIntentAsync.
  destruct (scan_spec (Str.ToLowerInvariant input) context IntentClassifier._patterns
              IntentClassifier.initial)
    as [[-> _]|(i & p & Hi & -> & _)]; simpl.
  - left. reflexivity.
  - destruct i as [|[|[|i]]]; simpl in Hi; try discriminate;
      injection Hi as <-; simpl; auto.
Qed.

(** ** The processor's own dispatch under the retry policy *)

Section OwnDispatch.
Context {Env : Type} `{host : Host Env}.

Lemma keeps_ret {A : Type} (a : A) : keeps_calls (Env := Env) (ret a).
Proof. intros w. reflexivity. Qed.

Lemma keeps_throw {A : Type} (ex : exn) : keeps_calls (Env := Env) (A := A) (throw ex).
Proof. intros w. reflexivity. Qed.

Lemma keeps_emit (e : Event) : retry_call e = None -> keeps_calls (Env := Env) (emit e).
Proof.
  intros He w. unfold emit, record. simpl.
  rewrite retry_calls_app. simpl. unfold retry_calls at 2. simpl. rewrite He.
  apply app_nil_r.
Qed.

Lemma keeps_call {A : Type} (f : Env -> Outcome A * Env) : keeps_calls (call f).
Proof. intros w. unfold call. destruct (f (env w)); reflexivity. Qed.

Lemma keeps_gets {A : Type} (f : World Env -> A) : keeps_calls (gets f).
Proof. intros w. reflexivity. Qed.

Lemma keeps_read_dict (l : loc) : keeps_calls (Env := Env) (read_dict l).
Proof. intros w. unfold read_dict. destruct (dicts w !! l); reflexivity. Qed.

Lemma keeps_read_context (l : loc) : keeps_calls (Env := Env) (read_context l).
Proof. intros w. unfold read_context. destruct (contexts w !! l); reflexivity. Qed.

Lemma keeps_write_context (l : loc) (c : ConversationContext.t) :
  keeps_calls (Env := Env) (write_context l c).
Proof. intros w. reflexivity. Qed.

Lemma keeps_bind {A B : Type} (m : M Env A) (k : A -> M Env B) :
  keeps_calls m -> (forall a, keeps_calls (k a)) -> keeps_calls (bind m k).
Proof.
  intros Hm Hk w. unfold bind. specialize (Hm w).
  destruct (m w) as [[a|ex] w1]; simpl in *; [rewrite Hk|]; exact Hm.
Qed.

Lemma keeps_try {A : Type} (m : M Env A) (h : exn -> M Env A) :
  keeps_calls m -> (forall ex, keeps_calls (h ex)) -> keeps_calls (try_catch m h).
Proof.
  intros Hm Hh w. unfold try_catch. specialize (Hm w).
  destruct (m w) as [[a|ex] w1]; simpl in *; [|rewrite Hh]; exact Hm.
Qed.

Ltac keeps :=
  repeat first
    [ apply keeps_ret | apply keeps_throw | apply keeps_call | apply keeps_gets
    | apply keeps_read_dict | apply keeps_read_context | apply keeps_write_context
    | apply keeps_emit; reflexivity
    | apply keeps_bind; [|intros ?] | apply keeps_try; [|intros ?]
    | match goal with
      | |- keeps_calls (if ?b then _ else _) => destruct b
      | |- keeps_calls (match ?x with _ => _ end) => destruct x
      end
    | progress unfold log, rhino ].

(** [ExecuteRhinoCommand] validates, creates and logs; it does not call the
    retry loop's steps. *)
Lemma ExecuteRhinoCommand_keeps_calls (template : CommandTemplate.t) (parameters : loc)
    (context : option loc) :
  keeps_calls (ExecuteRhinoCommand template parameters context).
Proof.
  unfold ExecuteRhinoCommand, SemanticValidator.PreExecuteValidationAsync,
    SemanticValidator.ValidateParametersAsync,
    SemanticValidator.ValidateContextConstraints,
    CreateEnhancedSphere, CreateEnhancedOther, AddCreatedObject.
  cbv zeta. keeps.
Qed.

(** The processor never dispatches a command more than three times. *)
Lemma ExecuteWithRetry_at_most_three_dispatches (template : CommandTemplate.t)
    (parameters : loc) (context : option loc) (w : World Env) :
  (dispatches (trace (snd (ExecuteWithRetry template parameters context w)))
   <= dispatches (trace w) + 3)%nat.
Proof.
  apply (retry_from_bound ExecuteRhinoCommand
           (fun t p c w0 => ExecuteRhinoCommand_keeps_calls t p c w0)
           defaultMaxRetries template context 3).
Qed.

End OwnDispatch.

(** * Further properties of the processor *)

(** ** Exceptions stop at the boundaries *)

Section Boundaries.
Context {Env : Type} `{host : Host Env}.

(** [ExecuteRhinoCommand] never raises: it answers every call with a
    result, and every exception raised inside its [try] ends as an Error
    result that carries the exception's message, after one LogError. The
    [try] makes two calls that can raise. When the pre-validation raises
    (a null parameter dictionary, for one) the answer is "Execution
    failed: ..." with the validator's exception. When the pre-validation
    passes and the creation method of the command raises (the sphere
    method, or the box and cylinder methods), the answer is "Execution
    failed: ..." with that exception; an exception of Rhino reaches the
    [catch] this way, as the case of a raising [Sphere.ToBrep] shows. *)
Theorem ExecuteRhinoCommand_never_raises :
  (forall (template : CommandTemplate.t) (parameters : loc) (context : option loc)
          (w : World Env),
      exists r w', ExecuteRhinoCommand template parameters context w = (Returns r, w'))
  /\
  (forall (template : CommandTemplate.t) (parameters : loc) (context : option loc)
          (w w1 : World Env) (ex : exn),
      SemanticValidator.PreExecuteValidationAsync template parameters context
        (record (EvPreExecuteValidation (CommandTemplate.CommandName template)) w)
      = (Throws ex, w1) ->
      ExecuteRhinoCommand template parameters context w
      = execution_failed template ex w1)
  /\
  (forall (template : CommandTemplate.t) (parameters : loc) (context : option loc)
          (w w1 w2 : World Env) (v : ValidationResult.t) (ex : exn),
      SemanticValidator.PreExecuteValidationAsync template parameters context
        (record (EvPreExecuteValidation (CommandTemplate.CommandName template)) w)
      = (Returns v, w1) ->
      ValidationResult.IsValid v = true ->
      (CommandTemplate.CommandName template = "CreateSphere"
       /\ CreateEnhancedSphere parameters context w1 = (Throws ex, w2))
      \/ ((CommandTemplate.CommandName template = "CreateBox"
           \/ CommandTemplate.CommandName template = "CreateCylinder")
          /\ CreateEnhancedOther (CommandTemplate.CommandName template) parameters w1
             = (Throws ex, w2)) ->
      ExecuteRhinoCommand template parameters context w
      = execution_failed template ex w2)
  /\
  (forall (template : CommandTemplate.t) (parameters : loc) (context : option loc)
          (w : World Env) (d : gmap string obj) (ex : exn) (e1 : Env),
      CommandTemplate.CommandName template = "CreateSphere" ->
      dicts w !! parameters = Some d ->
      (0 < ParameterExtractor.GetDouble d "radius" 1.0)%Q ->
      (ParameterExtractor.GetDouble d "radius" 1.0 <= 1000)%Q ->
      Sphere_ToBrep_IsValid (ParameterExtractor.GetPoint3d d "center" Point3d_Origin)
        (ParameterExtractor.GetDouble d "radius" 1.0) (env w) = (Throws ex, e1) ->
      ExecuteRhinoCommand template parameters context w
      = execution_failed template ex
          (set_env e1
             (set_trace (trace w ++ [EvPreExecuteValidation "CreateSphere";
                                     EvRhino "Sphere.ToBrep"]) w)))
  /\
  (forall (template : CommandTemplate.t) (parameters : loc) (context : option loc)
          (w : World Env),
      CommandTemplate.CommandName template = "CreateSphere" ->
      dicts w !! parameters = None ->
      ExecuteRhinoCommand template parameters context w
      = (Returns (ProcessingResult.Error
                    (Some "Execution failed: Object reference not set to an instance of an object.")),
         set_trace (trace w ++ [EvPreExecuteValidation "CreateSphere";
                                EvLog LogError "Error executing command: CreateSphere"
                                  (Some NullReferenceException)]) w)).
Proof.
  split.
  { intros template parameters context w.
    unfold ExecuteRhinoCommand, try_catch.
    match goal with
    | |- context [match ?m w with _ => _ end] => destruct (m w) as [[r|ex] w1]
    end; [eauto|].
    run_monad. eauto. }
  split.
  { intros template parameters context w w1 ex Hpre.
    unfold ExecuteRhinoCommand, try_catch, execution_failed.
    unfold bind at 1, emit at 1. unfold bind at 1. rewrite Hpre.
    run_monad. reflexivity. }
  split.
  { intros template parameters context w w1 w2 v ex Hpre Hvalid Hcreate.
    unfold ExecuteRhinoCommand, try_catch, execution_failed.
    unfold bind at 1, emit at 1. unfold bind at 1. rewrite Hpre, Hvalid.
    destruct Hcreate as [[Hname Hc]|[[Hname|Hname] Hc]].
    - rewrite Hname. simpl. rewrite Hc. run_monad. reflexivity.
    - rewrite Hname in Hc |- *. simpl. rewrite Hc. run_monad. reflexivity.
    - rewrite Hname in Hc |- *. simpl. rewrite Hc. run_monad. reflexivity. }
  split.
  { intros template parameters context w d ex e1 Hname Hd Hpos Hle Hbrep.
    assert (H0 : Qle_bool (ParameterExtractor.GetDouble d "radius" 1.0) 0 = false).
    { apply Qltb_lt in Hpos. unfold Num.Qltb in Hpos.
      destruct (Qle_bool (ParameterExtractor.GetDouble d "radius" 1.0) 0);
        [discriminate Hpos|reflexivity]. }
    assert (H1 : Num.Qltb 1000 (ParameterExtractor.GetDouble d "radius" 1.0) = false)
      by (apply Qltb_ge; exact Hle).
    assert (Hv : ValidationResult.IsValid (SemanticValidator.ValidateSphereParameters d)
                 = true).
    { unfold SemanticValidator.ValidateSphereParameters, ParameterExtractor.GetDouble in *.
      destruct (d !! "radius") as [[| radius | | | | |]|]; try reflexivity.
      rewrite H0. reflexivity. }
    unfold ExecuteRhinoCommand, SemanticValidator.PreExecuteValidationAsync,
      SemanticValidator.ValidateParametersAsync,
      SemanticValidator.ValidateContextConstraints, CreateEnhancedSphere,
      execution_failed.
    rewrite Hname. simpl. unfold rhino. run_monad. rewrite Hd. simpl.
    rewrite Hv. simpl. rewrite Hd. simpl. rewrite H0, H1. simpl.
    rewrite Hbrep. simpl.
    unfold record, set_trace, set_env. simpl. rewrite <- ?app_assoc. reflexivity. }
  intros template parameters context w Hname Hd.
  unfold ExecuteRhinoCommand, SemanticValidator.PreExecuteValidationAsync,
    SemanticValidator.ValidateParametersAsync.
  rewrite Hname. simpl. run_monad. rewrite Hd. simpl.
  unfold record, set_trace. simpl. rewrite <- ?app_assoc. reflexivity.
Qed.

Section AnyDispatch.
Variable dispatch : CommandTemplate.t -> loc -> option loc -> M Env ProcessingResult.t.

Lemma attempt_body_returns (maxRetries : Z) (template : CommandTemplate.t)
    (context : option loc) (attempt : Z) (parameters : loc)
    (lastException : option exn) (w : World Env) :
  exists it w',
    attempt_body dispatch maxRetries template context attempt parameters lastException w
    = (Returns it, w').
Proof.
  unfold attempt_body, try_catch.
  match goal with
  | |- context [match ?m w with _ => _ end] => destruct (m w) as [[it|ex] w1]
  end; [eauto|].
  run_monad. destruct (attempt <? maxRetries - 1)%Z; simpl; eauto.
Qed.

(** Whatever the dispatch does, raise included, [ExecuteWithRetry] ends
    with a result: exceptions of the dispatch and of the parameter repair
    never leave the loop. This holds for the three attempts the processor
    uses and for every number of attempts up to 2147484, the range in
    which the delay 1000 * (attempt + 1) of the [catch] stays within a C#
    int, so that [Task.Delay] is given a valid argument. *)
Theorem ExecuteWithRetry_never_raises
    (template : CommandTemplate.t) (parameters : loc) (context : option loc)
    (maxRetries : Z) (w : World Env) :
  (-2147483648 <= maxRetries <= 2147484)%Z ->
  exists r w',
    ExecuteWithRetry_with dispatch template parameters context maxRetries w
    = (Returns r, w').
Proof.
  intros _. unfold ExecuteWithRetry_with.
  generalize (Z.to_nat maxRetries) as remaining, 0%Z as attempt,
    (@None exn) as lastException.
  intros remaining. revert parameters w.
  induction remaining as [|n IH]; intros parameters w attempt lastException; simpl.
  - run_monad. eauto.
  - destruct (attempt_body_returns maxRetries template context attempt parameters
                lastException w) as (it & w1 & Hb).
    unfold bind at 1. rewrite Hb.
    destruct it as [r|p' e']; [unfold ret; eauto|apply IH].
Qed.
End AnyDispatch.

(** The entry point answers every call with a result, for every classifier:
    whatever is raised below it is logged and handed to the fallback
    handler, whose Error result becomes the answer. *)
Theorem entry_point_never_raises
    (classifier : string -> option loc -> IntentResult.t)
    (input : option string) (context : option loc) (w : World Env) :
  exists r w',
    ProcessNaturalLanguageAsync_with classifier input context w = (Returns r, w')
    /\ (forall ex w1,
           route classifier (default "" input) context w = (Throws ex, w1) ->
           ¬ blank input ->
           r = FallbackHandler.HandleExceptionAsync ex (default "" input)
           /\ ProcessingResult.Type_ r = ProcessingResultType.Error
           /\ trace w' = (trace w1 ++ [EvLog LogError "Error in enhanced NLP processing"
                                         (Some ex);
                                       EvHandleException ex])%list).
Proof.
  unfold ProcessNaturalLanguageAsync_with, try_catch.
  destruct (Str.IsNullOrWhiteSpace input) eqn:Hb.
  - do 2 eexists. split; [reflexivity|].
    intros ex w1 _ Hnb. exfalso. apply Hnb. apply IsNullOrWhiteSpace_blank. exact Hb.
  - destruct (route classifier (default "" input) context w) as [[r|ex] w1] eqn:Hr.
    + do 2 eexists. split; [reflexivity|]. intros ex w2 H. discriminate H.
    + run_monad. do 2 eexists. split; [reflexivity|].
      intros ex' w2 H _. injection H as <- <-.
      repeat split. simpl. rewrite <- app_assoc. reflexivity.
Qed.

End Boundaries.

(** The three attempts of the processor, against a dispatch that raises
    each time. *)
Lemma ExecuteWithRetry_never_raises_witness :
  let template := CommandTemplate.mk "CreateSphere" [] None None in
  exists r w',
    ExecuteWithRetry_with (host := Demo.quiet) raising_dispatch template 0%nat None
      defaultMaxRetries (Demo.start 0)
    = (Returns r, w').
Proof.
  intros template.
  refine (ExecuteWithRetry_never_raises (host := Demo.quiet) raising_dispatch template
            0%nat None defaultMaxRetries (Demo.start 0) _).
  vm_compute. split; discriminate.
Defined.

(** On a document that raises when the Brep is added, the sphere command
    ends as an Error with the document's message. *)
Lemma ExecuteRhinoCommand_never_raises_witness :
  let template := CommandTemplate.mk "CreateSphere"
                    ["center"; "radius"; "material"; "layer"] None None in
  let d : gmap string obj := {["radius" := VDouble 2]} in
  let w := mkWorld 0%Z [] ∅ [] [d] [] in
  ExecuteRhinoCommand (host := locked) template 0%nat None w
  = (Returns (ProcessingResult.Error (Some "Execution failed: document locked")),
     set_trace [EvPreExecuteValidation "CreateSphere";
                EvRhino "Sphere.ToBrep";
                EvRhino "Objects.AddBrep";
                EvLog LogError "Error executing command: CreateSphere"
                  (Some (Exception "document locked"))] w).
Proof.
  intros template d w.
  exact (proj1 (proj2 (proj2 (ExecuteRhinoCommand_never_raises (host := locked))))
           template 0%nat None w
           (set_trace [EvPreExecuteValidation "CreateSphere"] w)
           (set_trace [EvPreExecuteValidation "CreateSphere";
                       EvRhino "Sphere.ToBrep"; EvRhino "Objects.AddBrep"] w)
           ValidationResult.Valid (Exception "document locked")
           eq_refl eq_refl (or_introl (conj eq_refl eq_refl))).
Defined.

(** ** The response cache, beyond expiry *)

Section CacheUse.
Context {Env : Type} `{host : Host Env}.

(** A live entry is served as it is: [ProcessWithAI] returns the cached
    result after the lookup alone, with no scene query, provider call,
    parse or store; an entry is still live at the very instant it expires. *)
Theorem live_entry_is_served
    (input : string) (context : option loc) (ctx : option ConversationContext.t)
    (entry : CachedResponse.t) (w : World Env) :
  read_context_opt context w = (Returns ctx, w) ->
  _responseCache w !! GenerateCacheKey input ctx = Some entry ->
  (UtcNow (env w) <= CachedResponse.ExpiryTime entry)%Z ->
  ProcessWithAI input context w
  = (Returns (CachedResponse.Result entry),
     record (EvCacheLookup (GenerateCacheKey input ctx)) w).
Proof.
  intros Hctx Hentry Hlive.
  unfold ProcessWithAI. unfold bind at 1. rewrite Hctx.
  unfold bind at 1, emit at 1. unfold bind at 1, gets at 1.
  unfold live_entry, CachedResponse.IsExpired. simpl. rewrite Hentry.
  assert (Hx : (CachedResponse.ExpiryTime entry <? UtcNow (env w))%Z = false)
    by (apply Z.ltb_ge; exact Hlive).
  rewrite Hx. reflexivity.
Qed.

Lemma ProcessWithAI_hit (input : string) (context : option loc)
    (ctx : option ConversationContext.t) (hit : ProcessingResult.t) (w : World Env) :
  read_context_opt context w = (Returns ctx, w) ->
  live_entry (GenerateCacheKey input ctx) w = Some hit ->
  ProcessWithAI input context w
  = (Returns hit, record (EvCacheLookup (GenerateCacheKey input ctx)) w).
Proof.
  intros Hctx Hlive. unfold ProcessWithAI. unfold bind at 1. rewrite Hctx.
  unfold bind at 1, emit at 1. unfold bind at 1, gets at 1.
  replace (live_entry (GenerateCacheKey input ctx)
             (record (EvCacheLookup (GenerateCacheKey input ctx)) w))
    with (Some hit) by (symmetry; exact Hlive).
  reflexivity.
Qed.

Lemma live_entry_fresh (key : string) (entry : CachedResponse.t) (w : World Env) :
  _responseCache w !! key = Some entry ->
  (UtcNow (env w) <= CachedResponse.ExpiryTime entry)%Z ->
  live_entry key w = Some (CachedResponse.Result entry).
Proof.
  intros Hentry Hlive. unfold live_entry, CachedResponse.IsExpired. rewrite Hentry.
  assert (Hx : (CachedResponse.ExpiryTime entry <? UtcNow (env w))%Z = false)
    by (apply Z.ltb_ge; exact Hlive).
  rewrite Hx. reflexivity.
Qed.

Lemma set_responseCache_same (w : World Env) :
  set_responseCache (_responseCache w) w = w.
Proof. destruct w; reflexivity. Qed.

Lemma blind_keeps_cache {A : Type} (m : M Env A) : cache_blind m -> keeps_cache m.
Proof.
  intros Hm w. pose proof (Hm w (_responseCache w)) as H.
  rewrite set_responseCache_same in H.
  rewrite H at 1. reflexivity.
Qed.

Lemma answers_bind {A : Type} (key : string) (m : M Env A)
    (k : A -> M Env ProcessingResult.t) :
  keeps_cache m -> (forall a, answers key (k a)) -> answers key (bind m k).
Proof.
  intros Hm Hk w. unfold bind. specialize (Hm w).
  destruct (m w) as [[a|ex] w1]; simpl in *.
  - rewrite <- Hm. apply Hk.
  - left. split; [exact Hm|]. intros r H. discriminate H.
Qed.

Lemma ask_providers_answers (input : string) (ctx : option ConversationContext.t)
    (key : string) :
  answers key (ask_providers input ctx key).
Proof.
  unfold ask_providers.
  apply answers_bind.
  { apply blind_keeps_cache. apply blind_bind; [apply blind_emit|].
    intros _. apply blind_call. }
  intros sceneInfo.
  apply answers_bind; [apply blind_keeps_cache, blind_try_providers|].
  intros response.
  apply answers_bind.
  { apply blind_keeps_cache. apply blind_bind; [apply blind_emit|].
    intros _. apply blind_call. }
  intros aiResponse.
  destruct (aiResponse ≫= AIResponse.Actions) as [[|action actions]|];
    try (intros w; left; split; [reflexivity|];
         intros r H; injection H as <-; reflexivity).
  apply answers_bind.
  { apply blind_keeps_cache, blind_mapM. intros a.
    apply blind_bind; [apply blind_emit|]. intros _. apply blind_call. }
  intros results w. right.
  exists (CachedResponse.mk
            (ProcessingResult.Success (Some (Str.Join NewLine results)))
            (UtcNow (env w) + five_minutes)).
  repeat split.
Qed.

Lemma read_context_opt_world (context : option loc) (w : World Env) :
  snd (read_context_opt context w) = w.
Proof.
  destruct context as [l|]; simpl; [|reflexivity].
  unfold bind, read_context, ret. destruct (contexts w !! l); reflexivity.
Qed.

(** One call of [ProcessWithAI] changes the cache in one way only: it may
    store, under the key of its own request, the Success result it is
    returning, with an expiry five minutes after the store. A cache hit, a
    Partial answer or an exception leave the cache exactly as it was; so a
    cache of Success results stays one. *)
Theorem ProcessWithAI_cache_discipline
    (input : string) (context : option loc) (w : World Env) :
  let run := ProcessWithAI input context w in
  (_responseCache (snd run) = _responseCache w
   \/ exists key entry,
        _responseCache (snd run) = <[key := entry]> (_responseCache w)
        /\ fst run = Returns (CachedResponse.Result entry)
        /\ ProcessingResult.Type_ (CachedResponse.Result entry)
           = ProcessingResultType.Success
        /\ CachedResponse.ExpiryTime entry
           = (UtcNow (env (snd run)) + five_minutes)%Z)
  /\ (only_successes (_responseCache w) -> only_successes (_responseCache (snd run))).
Proof.
  intros run.
  assert (H : _responseCache (snd run) = _responseCache w
              \/ exists key entry,
                  _responseCache (snd run) = <[key := entry]> (_responseCache w)
                  /\ fst run = Returns (CachedResponse.Result entry)
                  /\ ProcessingResult.Type_ (CachedResponse.Result entry)
                     = ProcessingResultType.Success
                  /\ CachedResponse.ExpiryTime entry
                     = (UtcNow (env (snd run)) + five_minutes)%Z).
  { pose proof (read_context_opt_world context w) as Hw.
    destruct (read_context_opt context w) as [[ctx|ex] w0] eqn:Hctx;
      simpl in Hw; subst w0.
    - destruct (live_entry (GenerateCacheKey input ctx) w) as [hit|] eqn:Hlive.
      + left. unfold run. rewrite (ProcessWithAI_hit input context ctx hit w Hctx Hlive).
        reflexivity.
      + unfold run. rewrite (ProcessWithAI_miss input context ctx w Hctx Hlive).
        destruct (ask_providers_answers input ctx (GenerateCacheKey input ctx)
                    (record (EvCacheLookup (GenerateCacheKey input ctx)) w))
          as [[Hc _]|(entry & Hc & Hr & Ht & He)].
        * left. exact Hc.
        * right. exists (GenerateCacheKey input ctx), entry.
          repeat split; assumption.
    - left. unfold run, ProcessWithAI. unfold bind at 1. rewrite Hctx. reflexivity. }
  split; [exact H|].
  intros Hall. destruct H as [->|(key & entry & -> & _ & Ht & _)]; [exact Hall|].
  intros k e Hk. destruct (decide (k = key)) as [->|Hne].
  - rewrite lookup_insert_eq in Hk. injection Hk as <-. exact Ht.
  - rewrite lookup_insert_ne in Hk by congruence. eapply Hall; eauto.
Qed.

(** Store and lookup round trip. A Success that [ProcessWithAI] obtained
    from the providers is served again, without any provider, to the same
    request made on the same cache up to five minutes later. *)
Theorem fresh_success_is_served_again
    (input : string) (context : option loc) (ctx : option ConversationContext.t)
    (r : ProcessingResult.t) (w w2 : World Env) :
  read_context_opt context w = (Returns ctx, w) ->
  live_entry (GenerateCacheKey input ctx) w = None ->
  fst (ProcessWithAI input context w) = Returns r ->
  ProcessingResult.Type_ r = ProcessingResultType.Success ->
  read_context_opt context w2 = (Returns ctx, w2) ->
  _responseCache w2 = _responseCache (snd (ProcessWithAI input context w)) ->
  (UtcNow (env w2) <= UtcNow (env (snd (ProcessWithAI input context w))) + five_minutes)%Z ->
  ProcessWithAI input context w2
  = (Returns r, record (EvCacheLookup (GenerateCacheKey input ctx)) w2).
Proof.
  intros Hctx Hmiss Hr Ht Hctx2 Hcache Hnow.
  rewrite (ProcessWithAI_miss input context ctx w Hctx Hmiss) in Hr, Hcache, Hnow.
  destruct (ask_providers_answers input ctx (GenerateCacheKey input ctx)
              (record (EvCacheLookup (GenerateCacheKey input ctx)) w))
    as [[_ Hp]|(entry & Hc & Hres & _ & He)].
  - specialize (Hp r Hr). rewrite Hp in Ht. discriminate Ht.
  - rewrite Hres in Hr. injection Hr as <-.
    apply (ProcessWithAI_hit input context ctx _ w2 Hctx2).
    apply live_entry_fresh.
    + rewrite Hcache, Hc. apply lookup_insert_eq.
    + rewrite He. exact Hnow.
Qed.

End CacheUse.

(** A hit at the instant of expiry. *)
Lemma live_entry_is_served_witness :
  let entry := CachedResponse.mk (ProcessingResult.Success (Some "old")) 300000 in
  let w := mkWorld 300000%Z [] {["hello" := entry]} [] [] [] in
  ProcessWithAI (host := Demo.quiet) "hello" None w
  = (Returns (ProcessingResult.Success (Some "old")),
     record (EvCacheLookup "hello") w).
Proof.
  intros entry w.
  refine (live_entry_is_served (host := Demo.quiet) "hello" None None entry w
            eq_refl _ _).
  - reflexivity.
  - vm_compute. discriminate.
Defined.

(** A Success obtained at time 0 is served again at time 300000. *)
Lemma fresh_success_is_served_again_witness :
  let w := Demo.start 0 in
  let run := ProcessWithAI (host := chatty) "make something" None w in
  let w2 := mkWorld 300000%Z [] (_responseCache (snd run)) [] [] [] in
  ProcessWithAI (host := chatty) "make something" None w2
  = (Returns (ProcessingResult.Success (Some "CreateSphere")),
     record (EvCacheLookup "make something") w2).
Proof.
  intros w run w2.
  refine (fresh_success_is_served_again (host := chatty) "make something" None None
            (ProcessingResult.Success (Some "CreateSphere")) w w2
            eq_refl _ _ eq_refl eq_refl eq_refl _).
  - reflexivity.
  - reflexivity.
  - vm_compute. discriminate.
Defined.

(** ** What it takes to pass the threshold *)

Lemma filter_full {A : Type} (f : A -> bool) (l : list A) :
  length (List.filter f l) = length l -> forall x, In x l -> f x = true.
Proof.
  induction l as [|a l IH]; simpl; intros H x Hx; [destruct Hx|].
  pose proof (List.filter_length_le f l) as Hle.
  destruct (f a) eqn:Ha; simpl in H.
  - destruct Hx as [<-|Hx]; [exact Ha|]. apply IH; [lia|exact Hx].
  - lia.
Qed.

(** The confidence of each registered pattern, by the number of its
    keywords found. *)
Lemma registered_confidence (n : string) (context : option loc) (p : IntentPattern.t)
    (i : nat) :
  IntentClassifier._patterns !! i = Some p ->
  let c := IntentClassifier.CalculateConfidence n p context in
  (0 <= c)%Q /\ (c <= 0.73)%Q
  /\ ((0.7 <= c)%Q ->
      forall k, In k (IntentPattern.Keywords p) -> Str.Contains n k = true).
Proof.
  intros Hi.
  destruct i as [|[|[|i]]]; simpl in Hi; try discriminate; injection Hi as <-;
    unfold IntentClassifier.CalculateConfidence, IntentClassifier.keywordScore,
      IntentClassifier.contextScore, ConversationContext.GetRelevanceScore;
    cbn [IntentPattern.Keywords IntentPattern.Category];
    match goal with
    | |- context [length (IntentClassifier.matched n ?kws)] =>
        pose proof (List.filter_length_le (fun k => Str.Contains n k) kws) as Hle;
        pose proof (filter_full (fun k => Str.Contains n k) kws) as Hfull;
        change (List.filter (fun k => Str.Contains n k) kws)
          with (IntentClassifier.matched n kws) in Hle, Hfull;
        destruct (length (IntentClassifier.matched n kws))
          as [|[|[|[|[|[|[|[|m]]]]]]]]
    end;
    simpl in Hle; try lia;
    destruct context;
    (split; [vm_compute; discriminate|]);
    (split; [vm_compute; discriminate|]);
    intros Hc;
    first [ exfalso; vm_compute in Hc; apply Hc; reflexivity
          | apply Hfull; reflexivity ].
Qed.

(** The classifier's confidence is never negative and never above 0.73;
    and it reaches the 0.7 that the entry point demands only for an
    utterance that contains every keyword of the pattern it answers with
    (all of "sphere", "ball", "round", "create", "make" for a sphere), with
    or without a context. Anything less goes to the fallback handler. *)
Theorem threshold_needs_every_keyword (input : string) (context : option loc) :
  let r := IntentClassifier.ClassifyIntentAsync input context in
  (0 <= IntentResult.Confidence r)%Q
  /\ (IntentResult.Confidence r <= 0.73)%Q
  /\ ((0.7 <= IntentResult.Confidence r)%Q ->
      exists p,
        In p IntentClassifier._patterns
        /\ IntentResult.CommandTemplate r = Some (IntentPattern.Template p)
        /\ forall k, In k (IntentPattern.Keywords p) ->
                     Str.Contains (Str.ToLowerInvariant input) k = true).
Proof.
  intros r. unfold r, IntentClassifier.ClassifyIntentAsync.
  destruct (scan_spec (Str.ToLowerInvariant input) context IntentClassifier._patterns
              IntentClassifier.initial)
    as [[-> _]|(i & p & Hi & -> & _)].
  - split; [discriminate|]. split; [discriminate|].
    intros H. exfalso. vm_compute in H. apply H. reflexivity.
  - assert (Hin : In p IntentClassifier._patterns).
    { apply list_elem_of_In. eapply list_elem_of_lookup_2. exact Hi. }
    destruct (registered_confidence (Str.ToLowerInvariant input) context p i Hi)
      as (H0 & H1 & Hall).
    split; [exact H0|]. split; [exact H1|].
    intros Hc. exists p. split; [exact Hin|]. split; [reflexivity|exact (Hall Hc)].
Qed.

(** The threshold, passed by an utterance with all five sphere keywords. *)
Lemma threshold_needs_every_keyword_witness :
  exists p,
    In p IntentClassifier._patterns
    /\ IntentResult.CommandTemplate
         (IntentClassifier.ClassifyIntentAsync "Make a round ball: create a sphere" None)
       = Some (IntentPattern.Template p)
    /\ forall k, In k (IntentPattern.Keywords p) ->
                 Str.Contains (Str.ToLowerInvariant "Make a round ball: create a sphere") k
                 = true.
Proof.
  refine (proj2 (proj2 (threshold_needs_every_keyword
                          "Make a round ball: create a sphere" None)) _).
  vm_compute. discriminate.
Defined.

(** ** The context manager *)

Lemma length_omap_le {A B : Type} (f : A -> option B) (l : list A) :
  (length (omap f l) <= length l)%nat.
Proof.
  induction l as [|x l IH]; csimpl; [lia|].
  destruct (f x); csimpl; simpl in *; lia.
Qed.

Lemma ExtractRecentOperations_short (history : list ConversationTurn.t) :
  (length (ContextManager.ExtractRecentOperations history) <= 5)%nat
  /\ forall op, In op (ContextManager.ExtractRecentOperations history) -> op <> "".
Proof.
  unfold ContextManager.ExtractRecentOperations, ContextManager.TakeLast. split.
  - match goal with
    | |- (length (List.filter ?f (omap ?g ?l)) <= 5)%nat =>
        pose proof (List.filter_length_le f (omap g l)) as H1;
        pose proof (length_omap_le g l) as H2;
        assert (H3 : (length l <= 5)%nat) by (rewrite length_drop; lia)
    end.
    lia.
  - intros op Hop. apply List.filter_In in Hop as [_ Hne].
    intros ->. discriminate Hne.
Qed.

Section Context.
Context {Env : Type} `{host : Host Env}.

(** [EnhanceContextAsync] appends the turn, stamped with the current time,
    and keeps the last ten: the history never exceeds ten turns, whatever
    its length was; its newest turn is the current utterance; while it has
    fewer than ten turns nothing is evicted, and from then on each call
    evicts exactly the oldest turn. *)
Theorem history_keeps_the_last_ten
    (input : string) (context : option loc) (w : World Env) :
  let turn := ConversationTurn.mk input (UtcNow (env w)) in
  let after := _history (snd (ContextManager.EnhanceContextAsync input context w)) in
  after = drop (length (_history w) + 1 - 10) (_history w ++ [turn])
  /\ (length after <= 10)%nat
  /\ last after = Some turn
  /\ ((length (_history w) < 10)%nat -> after = (_history w ++ [turn])%list)
  /\ (length (_history w) = 10%nat -> after = (tail (_history w) ++ [turn])%list).
Proof.
  intros turn after.
  assert (H : after = drop (length (_history w) + 1 - 10) (_history w ++ [turn])).
  { unfold after, ContextManager.EnhanceContextAsync, ContextManager._maxHistorySize.
    run_monad.
    destruct context as [l|]; simpl.
    - destruct (contexts w !! l); simpl; rewrite length_app; reflexivity.
    - rewrite lookup_new. simpl. rewrite length_app. reflexivity. }
  split; [exact H|]. rewrite H.
  split; [rewrite length_drop, length_app; simpl; lia|].
  split.
  - rewrite drop_app.
    replace (length (_history w) + 1 - 10 - length (_history w))%nat with 0%nat by lia.
    simpl. apply last_snoc.
  - split; intros Hlen.
    + replace (length (_history w) + 1 - 10)%nat with 0%nat by lia. reflexivity.
    + rewrite Hlen. simpl. destruct (_history w); [discriminate|reflexivity].
Qed.

(** [EnhanceContextAsync] works on the caller's context object when there
    is one and on a single new object otherwise. In that object it
    replaces the recent operations (at most five tags, none empty, taken
    from the updated history), the layer, the selection and the scene text,
    and keeps the last created object. Every other context, every
    dictionary, the cache, the trace and the collaborators are untouched. *)
Theorem enhance_context_touches_one_object
    (input : string) (context : option loc) (w : World Env) :
  context_ok context w ->
  let run := ContextManager.EnhanceContextAsync input context w in
  let l := default (length (contexts w)) context in
  exists c',
    fst run = Returns l
    /\ contexts (snd run) !! l = Some c'
    /\ ConversationContext.RecentOperations c'
       = ContextManager.ExtractRecentOperations (_history (snd run))
    /\ (length (ConversationContext.RecentOperations c') <= 5)%nat
    /\ (forall op, In op (ConversationContext.RecentOperations c') -> op <> "")
    /\ ConversationContext.ActiveLayer c' = Some "Default"
    /\ ConversationContext.SelectedObjects c' = []
    /\ ConversationContext.SceneDescription c' = Some "Empty scene"
    /\ ConversationContext.LastCreatedObject c'
       = (contexts w !! l) ≫= ConversationContext.LastCreatedObject
    /\ (forall l', l' <> l -> contexts (snd run) !! l' = contexts w !! l')
    /\ env (snd run) = env w /\ trace (snd run) = trace w
    /\ _responseCache (snd run) = _responseCache w /\ dicts (snd run) = dicts w.
Proof.
  intros Hok run l. subst run l.
  unfold ContextManager.EnhanceContextAsync. run_monad.
  destruct context as [l0|]; simpl in *.
  - destruct Hok as [c Hc]. rewrite !Hc. simpl.
    eexists. split; [reflexivity|].
    split; [apply list_lookup_insert_eq; eapply lookup_lt_Some; eauto|].
    split; [reflexivity|].
    split; [apply ExtractRecentOperations_short|].
    split; [apply ExtractRecentOperations_short|].
    do 3 (split; [reflexivity|]).
    split; [exact (eq_sym (f_equal (fun o => o ≫= ConversationContext.LastCreatedObject)
                             Hc))|].
    split; [|repeat split].
    intros l' Hl'. apply list_lookup_insert_ne. congruence.
  - rewrite lookup_new. simpl. rewrite insert_new.
    eexists. split; [reflexivity|].
    split; [apply lookup_new|].
    split; [reflexivity|].
    split; [apply ExtractRecentOperations_short|].
    split; [apply ExtractRecentOperations_short|].
    do 3 (split; [reflexivity|]).
    split; [exact (eq_sym (f_equal (fun o => o ≫= ConversationContext.LastCreatedObject)
                             (lookup_length_None (contexts w))))|].
    split; [|repeat split].
    intros l' Hl'. apply lookup_old. exact Hl'.
Qed.

End Context.

(** The caller's context, enhanced in place. *)
Lemma enhance_context_touches_one_object_witness :
  let w := mkWorld 5%Z [] ∅ [] [] [ConversationContext.new] in
  let run := ContextManager.EnhanceContextAsync (Env := Demo.Env) (host := Demo.quiet)
               "create sphere" (Some 0%nat) w in
  exists c',
    fst run = Returns 0%nat
    /\ contexts (snd run) !! 0%nat = Some c'
    /\ ConversationContext.RecentOperations c'
       = ContextManager.ExtractRecentOperations (_history (snd run)).
Proof.
  intros w run.
  destruct (enhance_context_touches_one_object (host := Demo.quiet)
              "create sphere" (Some 0%nat) w) as (c' & H1 & H2 & H3 & _).
  - exists ConversationContext.new. reflexivity.
  - exists c'. repeat split; assumption.
Defined.

(** ** Extraction and validation *)

Lemma extracted_step_lookup (input : string) (ctx : option ConversationContext.t)
    (names : list string) (d : gmap string obj) (k : string) :
  let step := fun (d : gmap string obj) name =>
                match ParameterExtractor.ExtractParameterAsync input name ctx with
                | Some value => <[name := value]> d
                | None => d
                end in
  (In k names ->
   fold_left step names d !! k
   = match ParameterExtractor.ExtractParameterAsync input k ctx with
     | Some value => Some value
     | None => d !! k
     end)
  /\ (¬ In k names -> fold_left step names d !! k = d !! k).
Proof.
  intros step. revert d. induction names as [|name rest IH]; intros d; simpl.
  - split; [intros []|reflexivity].
  - destruct (IH (step d name)) as [IHin IHout].
    assert (Hstep : step d name !! k
                    = if decide (k = name)
                      then match ParameterExtractor.ExtractParameterAsync input k ctx with
                           | Some value => Some value
                           | None => d !! k
                           end
                      else d !! k).
    { unfold step. destruct (decide (k = name)) as [->|Hne].
      - destruct (ParameterExtractor.ExtractParameterAsync input name ctx);
          [apply lookup_insert_eq|reflexivity].
      - destruct (ParameterExtractor.ExtractParameterAsync input name ctx);
          [apply lookup_insert_ne; congruence|reflexivity]. }
    split.
    + intros Hin. destruct (in_dec string_dec k rest) as [Hr|Hr].
      * rewrite (IHin Hr).
        destruct (ParameterExtractor.ExtractParameterAsync input k ctx) eqn:E;
          [reflexivity|].
        rewrite Hstep. destruct (decide (k = name)); rewrite ?E; reflexivity.
      * rewrite (IHout Hr), Hstep.
        destruct Hin as [->|Hin]; [|contradiction].
        destruct (decide (k = k)); [reflexivity|congruence].
    + intros Hout. rewrite IHout by tauto. rewrite Hstep.
      destruct (decide (k = name)) as [->|]; [|reflexivity].
      exfalso. apply Hout. left. reflexivity.
Qed.

Section Extraction.
Context {Env : Type} `{host : Host Env}.
Import ParameterExtractor SemanticValidator.

Lemma read_context_opt_elsewhere (context : option loc)
    (ctx : option ConversationContext.t) (w w' : World Env) :
  read_context_opt context w = (Returns ctx, w) ->
  contexts w' = contexts w ->
  read_context_opt context w' = (Returns ctx, w').
Proof.
  destruct context as [l|]; simpl.
  - unfold bind, read_context, ret. intros H Hc. rewrite Hc.
    destruct (contexts w !! l); [|discriminate].
    injection H as <-. reflexivity.
  - unfold ret. intros H _. injection H as <-. reflexivity.
Qed.

Lemma extract_each_result (input : string) (context : option loc)
    (ctx : option ConversationContext.t) (names : list string)
    (d : gmap string obj) (w : World Env) (others : list (gmap string obj)) :
  read_context_opt context w = (Returns ctx, w) ->
  dicts w = (others ++ [d])%list ->
  extract_each input names context (length others) w
  = (Returns tt,
     set_dicts (others ++ [fold_left
                             (fun d name =>
                                match ExtractParameterAsync input name ctx with
                                | Some value => <[name := value]> d
                                | None => d
                                end) names d]) w).
Proof.
  revert d w. induction names as [|name rest IH]; intros d w Hctx Hd; simpl.
  - unfold ret. rewrite <- Hd. destruct w; reflexivity.
  - unfold bind at 1. rewrite Hctx.
    destruct (ExtractParameterAsync input name ctx) as [value|].
    + run_monad. rewrite Hd, lookup_new. simpl. rewrite Hd, insert_new.
      rewrite IH with (d := <[name := value]> d).
      * reflexivity.
      * eapply read_context_opt_elsewhere; [exact Hctx|reflexivity].
      * reflexivity.
    + unfold bind at 1, ret at 1. apply IH; assumption.
Qed.

Lemma ExtractParametersAsync_result (input : string) (template : CommandTemplate.t)
    (context : option loc) (ctx : option ConversationContext.t) (w : World Env) :
  read_context_opt context w = (Returns ctx, w) ->
  ExtractParametersAsync input template context w
  = (Returns (length (dicts w)),
     set_dicts (dicts w ++ [extracted input (CommandTemplate.Parameters template) ctx]) w).
Proof.
  intros Hctx. unfold ExtractParametersAsync.
  unfold bind at 1, new_dict at 1. unfold bind at 1.
  rewrite (extract_each_result input context ctx (CommandTemplate.Parameters template)
             ∅ _ (dicts w)).
  - reflexivity.
  - eapply read_context_opt_elsewhere; [exact Hctx|reflexivity].
  - reflexivity.
Qed.

(** [ExtractParametersAsync] answers with a dictionary that did not exist
    before and changes nothing else. The dictionary holds, for each
    parameter name the template declares, what the extractor of that name
    finds in the utterance, and no other key: a name without a match is
    absent, and a key that the template does not declare never appears. *)
Theorem extraction_fills_declared_names_only
    (input : string) (template : CommandTemplate.t) (context : option loc)
    (ctx : option ConversationContext.t) (w : World Env) :
  read_context_opt context w = (Returns ctx, w) ->
  exists d,
    ExtractParametersAsync input template context w
    = (Returns (length (dicts w)), set_dicts (dicts w ++ [d]) w)
    /\ dicts w !! length (dicts w) = None
    /\ (forall k, In k (CommandTemplate.Parameters template) ->
                  d !! k = ExtractParameterAsync input k ctx)
    /\ (forall k, ¬ In k (CommandTemplate.Parameters template) -> d !! k = None).
Proof.
  intros Hctx.
  exists (extracted input (CommandTemplate.Parameters template) ctx).
  split; [apply ExtractParametersAsync_result; exact Hctx|].
  split; [apply lookup_length_None|].
  split; intros k Hk;
    destruct (extracted_step_lookup input ctx (CommandTemplate.Parameters template) ∅ k)
      as [Hin Hout]; unfold extracted.
  - rewrite (Hin Hk). rewrite lookup_empty.
    destruct (ExtractParameterAsync input k ctx); reflexivity.
  - rewrite (Hout Hk). apply lookup_empty.
Qed.

Lemma ValidateParametersAsync_result (template : CommandTemplate.t) (parameters : loc)
    (d : gmap string obj) (w : World Env) :
  dicts w !! parameters = Some d ->
  ValidateParametersAsync parameters template w = (Returns (validate_dict template d), w).
Proof.
  intros Hd. unfold ValidateParametersAsync, validate_dict.
  destruct (String.eqb (CommandTemplate.CommandName template) "CreateSphere");
    [run_monad; rewrite Hd; reflexivity|].
  destruct (String.eqb (CommandTemplate.CommandName template) "CreateBox");
    [run_monad; rewrite Hd; reflexivity|].
  destruct (String.eqb (CommandTemplate.CommandName template) "CreateCylinder");
    [run_monad; rewrite Hd; reflexivity|].
  reflexivity.
Qed.

(** [ProcessDirectCommand], flattened: it extracts into a new dictionary,
    validates it, and either reports the validator's message or hands the
    dictionary to [ExecuteWithRetry]. *)
Lemma ProcessDirectCommand_result (input : string) (intent : IntentResult.t)
    (template : CommandTemplate.t) (context : option loc)
    (ctx : option ConversationContext.t) (w : World Env) :
  IntentResult.CommandTemplate intent = Some template ->
  read_context_opt context w = (Returns ctx, w) ->
  let name := CommandTemplate.CommandName template in
  let d := extracted input (CommandTemplate.Parameters template) ctx in
  let w1 := set_dicts (dicts w ++ [d])
              (set_trace (trace w ++ [EvExtractParameters input name;
                                      EvValidateParameters name]) w) in
  ProcessDirectCommand input intent context w
  = if ValidationResult.IsValid (validate_dict template d)
    then ExecuteWithRetry template (length (dicts w)) context w1
    else (Returns (ProcessingResult.Error
                     (Some ("Invalid parameters: "
                            ++ default "" (ValidationResult.ErrorMessage
                                             (validate_dict template d))))),
          w1).
Proof.
  intros Ht Hctx name d w1.
  unfold ProcessDirectCommand. rewrite Ht.
  unfold bind at 1, emit at 1. unfold bind at 1.
  rewrite (ExtractParametersAsync_result input template context ctx).
  2:{ eapply read_context_opt_elsewhere; [exact Hctx|reflexivity]. }
  unfold bind at 1, emit at 1. unfold bind at 1.
  rewrite (ValidateParametersAsync_result template _ d).
  2:{ simpl. apply lookup_new. }
  assert (Hw : record (EvValidateParameters name)
                 (set_dicts (dicts (record (EvExtractParameters input name) w) ++ [d])
                    (record (EvExtractParameters input name) w)) = w1).
  { unfold w1, record, set_dicts, set_trace. simpl. rewrite <- app_assoc. reflexivity. }
  fold name d. rewrite Hw. simpl length.
  destruct (ValidationResult.IsValid (validate_dict template d)); reflexivity.
Qed.

(** A sphere whose stated radius is not positive is refused before any
    dispatch: for every template named "CreateSphere" that declares a
    "radius" parameter, [ProcessDirectCommand] answers "Invalid parameters:
    Sphere radius must be positive", having only extracted and validated. *)
Theorem nonpositive_radius_is_refused_before_dispatch
    (input : string) (template : CommandTemplate.t) (context : option loc)
    (ctx : option ConversationContext.t)
    (confidence radius : Q) (keywords : list string) (w : World Env) :
  read_context_opt context w = (Returns ctx, w) ->
  CommandTemplate.CommandName template = "CreateSphere" ->
  In "radius" (CommandTemplate.Parameters template) ->
  ExtractRadius input = Some radius ->
  (radius <= 0)%Q ->
  let intent := IntentResult.mk DirectCommand (Some template) confidence keywords in
  exists d,
    ProcessDirectCommand input intent context w
    = (Returns (ProcessingResult.Error
                  (Some "Invalid parameters: Sphere radius must be positive")),
       set_dicts (dicts w ++ [d])
         (set_trace (trace w ++ [EvExtractParameters input "CreateSphere";
                                 EvValidateParameters "CreateSphere"]) w))
    /\ d !! "radius" = Some (VDouble radius).
Proof.
  intros Hctx Hname Hin Hr Hle intent.
  pose proof (ProcessDirectCommand_result input intent template context ctx w
                eq_refl Hctx) as Hrun.
  simpl in Hrun. rewrite Hname in Hrun.
  set (d := extracted input (CommandTemplate.Parameters template) ctx) in *.
  assert (Hd : d !! "radius" = Some (VDouble radius)).
  { destruct (extracted_step_lookup input ctx
                (CommandTemplate.Parameters template) ∅ "radius") as [Hlook _].
    unfold d, extracted. rewrite (Hlook Hin).
    change (ExtractParameterAsync input "radius" ctx) with (VDouble <$> ExtractRadius input).
    rewrite Hr. reflexivity. }
  assert (Hv : validate_dict template d
               = ValidationResult.Invalid "Sphere radius must be positive").
  { unfold validate_dict, ValidateSphereParameters. rewrite Hname. simpl. rewrite Hd.
    apply Qle_bool_iff in Hle. rewrite Hle. reflexivity. }
  exists d. split; [|exact Hd].
  rewrite Hrun, Hv. reflexivity.
Qed.

End Extraction.

(** Extraction, on a sphere with a radius and a layer. *)
Lemma extraction_fills_declared_names_only_witness :
  let template := CommandTemplate.mk "CreateSphere"
                    ["center"; "radius"; "material"; "layer"] None None in
  exists d,
    ParameterExtractor.ExtractParametersAsync (Env := Demo.Env)
      "sphere with radius 5 on layer walls" template None (Demo.start 0)
    = (Returns 0%nat, set_dicts [d] (Demo.start 0))
    /\ d !! "radius" = Some (VDouble 5)
    /\ d !! "layer" = Some (VString "walls")
    /\ d !! "center" = None
    /\ d !! "height" = None.
Proof.
  intros template.
  destruct (extraction_fills_declared_names_only (Env := Demo.Env)
              "sphere with radius 5 on layer walls" template None None (Demo.start 0)
              eq_refl) as (d & Hrun & _ & Hin & Hout).
  exists d. split; [exact Hrun|].
  split; [rewrite Hin by (simpl; tauto); vm_compute; reflexivity|].
  split; [rewrite Hin by (simpl; tauto); vm_compute; reflexivity|].
  split; [rewrite Hin by (simpl; tauto); vm_compute; reflexivity|].
  apply Hout. simpl. intros [H|[H|[H|[H|[]]]]]; discriminate H.
Defined.

(** A radius of zero, refused. *)
Lemma nonpositive_radius_is_refused_before_dispatch_witness :
  let template := CommandTemplate.mk "CreateSphere"
                    ["center"; "radius"; "material"; "layer"] None None in
  let intent := IntentResult.mk DirectCommand (Some template) 1 [] in
  exists d,
    ProcessDirectCommand (host := Demo.quiet) "create a sphere with radius 0" intent None
      (Demo.start 0)
    = (Returns (ProcessingResult.Error
                  (Some "Invalid parameters: Sphere radius must be positive")),
       set_dicts [d]
         (set_trace [EvExtractParameters "create a sphere with radius 0" "CreateSphere";
                     EvValidateParameters "CreateSphere"] (Demo.start 0)))
    /\ d !! "radius" = Some (VDouble 0).
Proof.
  intros template intent.
  refine (nonpositive_radius_is_refused_before_dispatch (host := Demo.quiet)
            "create a sphere with radius 0" template None None 1 0 [] (Demo.start 0)
            eq_refl eq_refl _ _ _).
  - simpl. tauto.
  - vm_compute. reflexivity.
  - discriminate.
Defined.

(** ** What the extractors can read *)

Section Matcher.
Import Regex.

Lemma run_plain (r : regex) :
  plain r = true ->
  forall (R : Type) (s : string) (caps : captures)
         (k : string -> captures -> option R) (x : R),
    run r s caps k = Some x ->
    exists s', (String.length s' <= String.length s)%nat /\ k s' caps = Some x.
Proof.
  induction r as [|p|r1 IH1 r2 IH2|r1 IH1 r2 IH2|r1 IH1|i r1 IH1];
    intros Hp R s caps k x H; simpl in Hp.
  - exists s. split; [lia|exact H].
  - simpl in H. destruct s as [|c s0]; [discriminate|].
    destruct (p c); [|discriminate].
    exists s0. split; [simpl; lia|exact H].
  - apply andb_prop in Hp as [Hp1 Hp2].
    destruct (IH1 Hp1 R s caps (fun s' caps' => run r2 s' caps' k) x H)
      as (s1 & Hlen1 & H1).
    destruct (IH2 Hp2 R s1 caps k x H1) as (s2 & Hlen2 & H2).
    exists s2. split; [lia|exact H2].
  - apply andb_prop in Hp as [Hp1 Hp2]. simpl in H.
    destruct (run r1 s caps k) as [y|] eqn:E.
    + injection H as <-. apply (IH1 Hp1 R s caps k y E).
    + apply (IH2 Hp2 R s caps k x H).
  - simpl in H. revert H. generalize (String.length s) at 1. intros n. revert s.
    induction n as [|n IHn]; intros s H.
    + exists s. split; [lia|exact H].
    + match type of H with
      | match ?m with _ => _ end = _ => destruct m as [y|] eqn:E
      end.
      * injection H as <-.
        destruct (IH1 Hp R s caps _ y E) as (s1 & Hlen1 & H1).
        destruct (String.length s1 <? String.length s)%nat; [|discriminate].
        destruct (IHn s1 H1) as (s2 & Hlen2 & H2).
        exists s2. split; [lia|exact H2].
      * exists s. split; [lia|exact H].
  - discriminate.
Qed.

Lemma run_chr (p : ascii -> bool) (R : Type) (s : string) (caps : captures)
    (k : string -> captures -> option R) (x : R) :
  run (Chr p) s caps k = Some x ->
  exists c s0, s = String c s0 /\ p c = true /\ k s0 caps = Some x.
Proof.
  simpl. destruct s as [|c s0]; [discriminate|].
  destruct (p c) eqn:Hc; [|discriminate].
  intros H. exists c, s0. auto.
Qed.

Lemma run_after_plain (r1 r2 : regex) :
  plain r1 = true ->
  forall (R : Type) (s : string) (caps : captures)
         (k : string -> captures -> option R) (x : R),
    run (Seq r1 r2) s caps k = Some x ->
    exists s', (String.length s' <= String.length s)%nat /\ run r2 s' caps k = Some x.
Proof.
  intros Hp R s caps k x H.
  exact (run_plain r1 Hp R s caps (fun s' caps' => run r2 s' caps' k) x H).
Qed.

Lemma Match_run (r : regex) (input : string) (caps : captures) :
  Match r input = Some caps ->
  exists s, run r s [] (fun _ caps' => Some caps') = Some caps.
Proof.
  induction input as [|c rest IH]; simpl; intros H.
  - destruct (run r "" [] (fun _ caps' => Some caps')) as [y|] eqn:E; [|discriminate].
    injection H as <-. exists "". exact E.
  - destruct (run r (String c rest) [] (fun _ caps' => Some caps')) as [y|] eqn:E.
    + injection H as <-. exists (String c rest). exact E.
    + apply IH. exact H.
Qed.

(** A group around [\d+(?:\.\d+)?] captures a text that begins with a
    digit. *)
Lemma run_number_group (i : nat) (R : Type) (s : string) (caps : captures)
    (k : string -> captures -> option R) (x : R) :
  run (Group i ParameterExtractor.number) s caps k = Some x ->
  exists s' text,
    starts_with_digit text /\ k s' ((i, text) :: caps) = Some x.
Proof.
  intros H.
  change (run (Chr Str.is_digit) s caps
            (fun s1 caps1 =>
               run (Seq (Star digit)
                      (Opt (Seq (chr ".") (Plus digit)))) s1 caps1
                 (fun s' caps' =>
                    k s' ((i, Str.take (String.length s - String.length s') s) :: caps')))
          = Some x) in H.
  apply run_chr in H as (c & s0 & -> & Hc & H). cbv beta in H.
  apply run_plain in H; [|reflexivity].
  destruct H as (s' & Hlen & H).
  exists s', (Str.take (String.length (String c s0) - String.length s') (String c s0)).
  split; [|exact H].
  exists c, (Str.take (String.length s0 - String.length s') s0).
  split; [|exact Hc].
  simpl String.length. replace (S (String.length s0) - String.length s')%nat
    with (S (String.length s0 - String.length s')) by lia.
  reflexivity.
Qed.

End Matcher.

Lemma digits_from_nonneg (s : string) (acc z : Z) :
  (0 <= acc)%Z -> Num.digits_from acc s = Some z -> (0 <= z)%Z.
Proof.
  revert acc. induction s as [|c s IH]; simpl; intros acc Hacc H.
  - injection H as <-. exact Hacc.
  - destruct (Str.is_digit c) eqn:Hc; [|discriminate].
    apply (IH _ ltac:(idtac) H) || (eapply IH; [|exact H]).
    unfold Str.is_digit in Hc. apply andb_prop in Hc as [Hlo _].
    apply Nat.leb_le in Hlo. lia.
Qed.

Lemma unsigned_decimal_nonneg (s : string) (q : Q) :
  Num.unsigned_decimal s = Some q -> (0 <= q)%Q.
Proof.
  unfold Num.unsigned_decimal. destruct (Num.split_dot s) as [ip fp].
  destruct (Num.digits ip) as [i|] eqn:Hi; [|destruct fp; discriminate].
  assert (Hpos : (0 <= i)%Z).
  { unfold Num.digits in Hi. destruct ip; [discriminate|].
    eapply digits_from_nonneg; [|exact Hi]. lia. }
  destruct fp as [f|].
  - destruct (Num.digits f) as [fv|] eqn:Hf; [|discriminate].
    assert (Hfpos : (0 <= fv)%Z).
    { unfold Num.digits in Hf. destruct f; [discriminate|].
      eapply digits_from_nonneg; [|exact Hf]. lia. }
    intros H. injection H as <-.
    apply Qle_trans with (0 + 0)%Q; [discriminate|].
    apply Qplus_le_compat; unfold Qle; simpl; lia.
  - intros H. injection H as <-. unfold Qle. simpl. lia.
Qed.

Lemma TryParse_nonneg (text : string) (q : Q) :
  starts_with_digit text -> Num.TryParse text = Some q -> (0 <= q)%Q.
Proof.
  intros (c & rest & -> & Hc) H.
  apply (unsigned_decimal_nonneg (String c rest)).
  rewrite <- H. clear H.
  destruct c as [[] [] [] [] [] [] [] []]; try reflexivity; discriminate Hc.
Qed.

Section Sizes.
Import Regex ParameterExtractor.

Lemma radius_rx_group (input : string) (caps : captures) :
  Match radius_rx input = Some caps ->
  exists text, starts_with_digit text /\ group caps 1 = Some text.
Proof.
  intros H. apply Match_run in H as (s & H).
  change radius_rx with (Seq (lit true "radius") (Seq (Plus ws) (Group 1 number))) in H.
  apply run_after_plain in H as (s1 & _ & H); [|reflexivity].
  apply run_after_plain in H as (s2 & _ & H); [|reflexivity].
  apply run_number_group in H as (s3 & text & Htext & H).
  injection H as <-. exists text. split; [exact Htext|reflexivity].
Qed.

Lemma unit_radius_rx_group (input : string) (caps : captures) :
  Match unit_radius_rx input = Some caps ->
  exists text, starts_with_digit text /\ group caps 1 = Some text.
Proof.
  intros H. apply Match_run in H as (s & H).
  match type of H with
  | run ?r _ _ _ = _ =>
      let r' := eval cbv [unit_radius_rx seqs] in r in change r with r' in H
  end.
  change (run (Group 1 number) s []
            (fun s' caps' =>
               run (Seq (Star ws)
                      (Seq (Opt (alts [Seq (lit true "unit") (Opt (chr_i "s"));
                                       lit true "mm"; lit true "cm"; lit true "m"]))
                         (Seq (Plus ws) (lit true "radius")))) s' caps'
                 (fun _ caps'' => Some caps'')) = Some caps) in H.
  apply run_number_group in H as (s1 & text & Htext & H).
  apply run_plain in H as (s2 & _ & H); [|reflexivity].
  injection H as <-. exists text. split; [exact Htext|reflexivity].
Qed.

Lemma dimension_rx_groups (input : string) (caps : captures) :
  Match dimension_rx input = Some caps ->
  exists t1 t2 t3,
    starts_with_digit t1 /\ starts_with_digit t2 /\ starts_with_digit t3
    /\ group caps 1 = Some t1 /\ group caps 2 = Some t2 /\ group caps 3 = Some t3.
Proof.
  intros H. apply Match_run in H as (s & H).
  change (run (Group 1 number) s []
            (fun s' caps' =>
               run (Seq (Seq (Star ws) (Seq times (Star ws)))
                      (Seq (Group 2 number)
                         (Seq (Seq (Star ws) (Seq times (Star ws)))
                            (Group 3 number)))) s' caps'
                 (fun _ caps'' => Some caps'')) = Some caps) in H.
  apply run_number_group in H as (s1 & t1 & Ht1 & H).
  apply run_after_plain in H as (s2 & _ & H); [|reflexivity].
  change (run (Group 2 number) s2 [(1%nat, t1)]
            (fun s' caps' =>
               run (Seq (Seq (Star ws) (Seq times (Star ws))) (Group 3 number)) s' caps'
                 (fun _ caps'' => Some caps'')) = Some caps) in H.
  apply run_number_group in H as (s3 & t2 & Ht2 & H).
  apply run_after_plain in H as (s4 & _ & H); [|reflexivity].
  apply run_number_group in H as (s5 & t3 & Ht3 & H).
  injection H as <-. exists t1, t2, t3. repeat split; assumption || reflexivity.
Qed.

(** [ExtractRadius] never reads a negative radius: both of its patterns
    capture digits without a sign, so whatever it answers is zero or
    more. *)
Theorem extracted_radius_is_never_negative (input : string) (radius : Q) :
  ExtractRadius input = Some radius -> (0 <= radius)%Q.
Proof.
  unfold ExtractRadius, parsed.
  assert (Hunit : forall r,
             match Match unit_radius_rx input with
             | Some caps => group caps 1 ≫= Num.TryParse
             | None => None
             end = Some r -> (0 <= r)%Q).
  { intros r. destruct (Match unit_radius_rx input) as [caps|] eqn:E; [|discriminate].
    destruct (unit_radius_rx_group input caps E) as (text & Htext & ->).
    simpl. apply TryParse_nonneg. exact Htext. }
  destruct (Match radius_rx input) as [caps|] eqn:E; [|apply Hunit].
  destruct (radius_rx_group input caps E) as (text & Htext & ->). simpl.
  destruct (Num.TryParse text) as [r|] eqn:Hr; [|apply Hunit].
  intros H. injection H as <-. exact (TryParse_nonneg text r Htext Hr).
Qed.

(** [ExtractDimensions] never reads a negative width, length or height. *)
Theorem extracted_dimensions_are_never_negative (input : string) (v : Vector3d) :
  ExtractDimensions input = Some v -> (0 <= VX v)%Q /\ (0 <= VY v)%Q /\ (0 <= VZ v)%Q.
Proof.
  unfold ExtractDimensions, parsed.
  destruct (Match dimension_rx input) as [caps|] eqn:E; [|discriminate].
  destruct (dimension_rx_groups input caps E)
    as (t1 & t2 & t3 & H1 & H2 & H3 & -> & -> & ->). simpl.
  destruct (Num.TryParse t1) as [w|] eqn:Hw; [|discriminate].
  destruct (Num.TryParse t2) as [l|] eqn:Hl; [|discriminate].
  destruct (Num.TryParse t3) as [h|] eqn:Hh; [|discriminate].
  intros H. injection H as <-. simpl.
  split; [exact (TryParse_nonneg t1 w H1 Hw)|].
  split; [exact (TryParse_nonneg t2 l H2 Hl)|exact (TryParse_nonneg t3 h H3 Hh)].
Qed.

End Sizes.

(** A radius with a fraction, after a minus sign that the pattern skips. *)
Lemma extracted_radius_is_never_negative_witness :
  ParameterExtractor.ExtractRadius "sphere of radius 2.5, not -3 units radius" = Some 2.5%Q
  /\ (0 <= 2.5)%Q.
Proof.
  assert (H : ParameterExtractor.ExtractRadius "sphere of radius 2.5, not -3 units radius"
              = Some 2.5%Q) by (vm_compute; reflexivity).
  split; [exact H|].
  exact (extracted_radius_is_never_negative _ _ H).
Defined.

(** A box of 5 by 3 by 2. *)
Lemma extracted_dimensions_are_never_negative_witness :
  let v := mkVector3d 5 3 2 in
  ParameterExtractor.ExtractDimensions "a box 5x3x2" = Some v
  /\ (0 <= VX v)%Q /\ (0 <= VY v)%Q /\ (0 <= VZ v)%Q.
Proof.
  intros v.
  assert (H : ParameterExtractor.ExtractDimensions "a box 5x3x2" = Some v)
    by (vm_compute; reflexivity).
  split; [exact H|].
  exact (extracted_dimensions_are_never_negative _ _ H).
Defined.

(** ** Repair and retry of a sphere *)

Section Repair.
Context {Env : Type} `{host : Host Env}.
Import ParameterExtractor SemanticValidator.

Lemma AdjustParametersAsync_result (parameters : loc) (d : gmap string obj)
    (message : string) (w : World Env) :
  dicts w !! parameters = Some d ->
  AdjustParametersAsync parameters (Some message) w
  = (Returns (length (dicts w)), set_dicts (dicts w ++ [adjust_dict message d]) w).
Proof.
  intros Hd. unfold AdjustParametersAsync, set_radius, adjust_dict. run_monad.
  rewrite Hd. simpl.
  destruct (Str.ContainsIgnoreCase message "radius"); simpl; [|reflexivity].
  rewrite lookup_new.
  destruct (d !! "radius") as [[| radius | | | | |]|]; simpl; try reflexivity.
  destruct (Qle_bool radius 0) eqn:Hle; simpl.
  - rewrite lookup_new. simpl. rewrite insert_new.
    assert (Hlt : Num.Qltb 1000 radius = false).
    { apply Qltb_ge. apply Qle_bool_iff in Hle.
      eapply Qle_trans; [exact Hle|discriminate]. }
    rewrite Hlt. reflexivity.
  - destruct (Num.Qltb 1000 radius); simpl; [|reflexivity].
    rewrite lookup_new. simpl. rewrite insert_new. reflexivity.
Qed.

Lemma adjust_dict_sphere (message : string) (d : gmap string obj) :
  Str.ContainsIgnoreCase message "radius" = true ->
  ValidateSphereParameters (adjust_dict message d) = ValidationResult.Valid
  /\ forall radius, adjust_dict message d !! "radius" = Some (VDouble radius) ->
                    (0 < radius)%Q /\ (radius <= 1000)%Q.
Proof.
  intros Hm. unfold adjust_dict, ValidateSphereParameters. rewrite Hm.
  destruct (d !! "radius") as [[| radius | | | | |]|] eqn:Hr;
    try (rewrite Hr; split; [reflexivity|intros r H; discriminate H]).
  destruct (Qle_bool radius 0) eqn:Hle.
  - rewrite lookup_insert_eq. split; [reflexivity|].
    intros r H. injection H as <-. split; reflexivity || discriminate.
  - destruct (Num.Qltb 1000 radius) eqn:Hlt.
    + rewrite lookup_insert_eq. split; [reflexivity|].
      intros r H. injection H as <-. split; reflexivity || discriminate.
    + rewrite Hr, Hle. split; [reflexivity|].
      intros r H. injection H as <-. split.
      * apply Qltb_lt. unfold Num.Qltb. rewrite Hle. reflexivity.
      * apply Qltb_ge. exact Hlt.
Qed.

(** Repair and validation fit together: when the message of a failure
    mentions the radius, the copy that [AdjustParametersAsync] answers with
    passes the sphere validator, and a double radius in it lies above 0 and
    at most at 1000, where [CreateEnhancedSphere] neither refuses nor warns.
    The copy differs from the original in that entry at most. *)
Theorem repaired_sphere_passes_validation
    (template : CommandTemplate.t) (parameters : loc) (d : gmap string obj)
    (message : string) (w : World Env) :
  CommandTemplate.CommandName template = "CreateSphere" ->
  dicts w !! parameters = Some d ->
  Str.ContainsIgnoreCase message "radius" = true ->
  exists adjusted d' w',
    AdjustParametersAsync parameters (Some message) w = (Returns adjusted, w')
    /\ dicts w' !! adjusted = Some d'
    /\ dicts w' !! parameters = Some d
    /\ ValidateParametersAsync adjusted template w' = (Returns ValidationResult.Valid, w')
    /\ (forall radius, d' !! "radius" = Some (VDouble radius) ->
                       (0 < radius)%Q /\ (radius <= 1000)%Q)
    /\ (forall key, key <> "radius" -> d' !! key = d !! key).
Proof.
  intros Hname Hd Hm.
  destruct (adjust_dict_sphere message d Hm) as [Hvalid Hrange].
  exists (length (dicts w)), (adjust_dict message d),
    (set_dicts (dicts w ++ [adjust_dict message d]) w).
  split; [apply AdjustParametersAsync_result; exact Hd|].
  split; [simpl; apply lookup_new|].
  split.
  { simpl. rewrite lookup_old; [exact Hd|].
    intros ->. rewrite lookup_length_None in Hd. discriminate Hd. }
  split.
  { rewrite (ValidateParametersAsync_result template _ (adjust_dict message d));
      [|simpl; apply lookup_new].
    unfold validate_dict. rewrite Hname. simpl. rewrite Hvalid. reflexivity. }
  split; [exact Hrange|].
  intros key Hkey. unfold adjust_dict. rewrite Hm.
  destruct (d !! "radius") as [[| radius | | | | |]|]; try reflexivity.
  destruct (Qle_bool radius 0); [apply lookup_insert_ne; congruence|].
  destruct (Num.Qltb 1000 radius); [apply lookup_insert_ne; congruence|reflexivity].
Qed.

End Repair.

(** A radius of zero, repaired after the validator's message. *)
Lemma repaired_sphere_passes_validation_witness :
  let template := CommandTemplate.mk "CreateSphere"
                    ["center"; "radius"; "material"; "layer"] None None in
  let d : gmap string obj := {["radius" := VDouble 0]} in
  let w := mkWorld 0%Z [] ∅ [] [d] [] in
  exists adjusted d' w',
    ParameterExtractor.AdjustParametersAsync (Env := Demo.Env) 0%nat
      (Some "Sphere radius must be positive") w = (Returns adjusted, w')
    /\ dicts w' !! adjusted = Some d'
    /\ dicts w' !! 0%nat = Some d
    /\ SemanticValidator.ValidateParametersAsync adjusted template w'
       = (Returns ValidationResult.Valid, w')
    /\ (forall radius, d' !! "radius" = Some (VDouble radius) ->
                       (0 < radius)%Q /\ (radius <= 1000)%Q)
    /\ (forall key, key <> "radius" -> d' !! key = d !! key).
Proof.
  intros template d w.
  exact (repaired_sphere_passes_validation (Env := Demo.Env) template 0%nat d
           "Sphere radius must be positive" w eq_refl eq_refl eq_refl).
Defined.

Lemma alarms_app (a b : list Event) : alarms (a ++ b) = (alarms a ++ alarms b)%list.
Proof. apply List.filter_app. Qed.

Section Steady.
Context {Env : Type} `{host : Host Env}.
Import ParameterExtractor SemanticValidator.

Lemma steady_ret {A : Type} (Q : A -> Prop) (a : A) :
  Q a -> steady_with (Env := Env) Q (ret a).
Proof.
  intros Ha w. repeat split. intros b H. injection H as <-. exact Ha.
Qed.

Lemma steady_throw {A : Type} (Q : A -> Prop) (ex : exn) :
  steady_with (Env := Env) Q (throw ex).
Proof. intros w. repeat split. intros b H. discriminate H. Qed.

Lemma steady_emit (e : Event) :
  unrest e = false -> steady_with (Env := Env) (fun _ => True) (emit e).
Proof.
  intros He w. unfold emit, record. simpl. split; [reflexivity|].
  split; [|auto]. rewrite alarms_app. simpl. rewrite He. apply app_nil_r.
Qed.

Lemma steady_call {A : Type} (f : Env -> Outcome A * Env) :
  steady_with (fun _ => True) (call f).
Proof. intros w. unfold call. destruct (f (env w)). repeat split. Qed.

Lemma steady_read_dict (l : loc) :
  steady_with (Env := Env) (fun _ => True) (read_dict l).
Proof. intros w. unfold read_dict. destruct (dicts w !! l); repeat split. Qed.

Lemma steady_read_context (l : loc) :
  steady_with (Env := Env) (fun _ => True) (read_context l).
Proof. intros w. unfold read_context. destruct (contexts w !! l); repeat split. Qed.

Lemma steady_write_context (l : loc) (c : ConversationContext.t) :
  steady_with (Env := Env) (fun _ => True) (write_context l c).
Proof. intros w. repeat split. Qed.

Lemma steady_after {A B : Type} (P : A -> Prop) (Q : B -> Prop)
    (m : M Env A) (k : A -> M Env B) :
  steady_with P m -> (forall a, P a -> steady_with Q (k a)) -> steady_with Q (bind m k).
Proof.
  intros Hm Hk w. unfold bind. destruct (Hm w) as (Hd & Ha & Hp).
  destruct (m w) as [[a|ex] w1]; simpl in *.
  - destruct (Hk a (Hp a eq_refl) w1) as (Hd' & Ha' & Hq).
    split; [congruence|]. split; [congruence|exact Hq].
  - split; [exact Hd|]. split; [exact Ha|]. intros b H. discriminate H.
Qed.

Lemma steady_bind {A B : Type} (Q : B -> Prop) (m : M Env A) (k : A -> M Env B) :
  steady_with (fun _ => True) m -> (forall a, steady_with Q (k a)) ->
  steady_with Q (bind m k).
Proof. intros Hm Hk. apply (steady_after (fun _ => True)); auto. Qed.

Lemma steady_try {A : Type} (Q : A -> Prop) (m : M Env A) (h : exn -> M Env A) :
  steady_with Q m -> (forall ex, steady_with Q (h ex)) -> steady_with Q (try_catch m h).
Proof.
  intros Hm Hh w. unfold try_catch. destruct (Hm w) as (Hd & Ha & Hq).
  destruct (m w) as [[a|ex] w1]; simpl in *.
  - split; [exact Hd|]. split; [exact Ha|exact Hq].
  - destruct (Hh ex w1) as (Hd' & Ha' & Hq').
    split; [congruence|]. split; [congruence|exact Hq'].
Qed.

Ltac steady :=
  repeat first
    [ apply steady_throw | apply steady_call | apply steady_read_dict
    | apply steady_read_context | apply steady_write_context
    | apply steady_emit; reflexivity
    | apply steady_ret; first [exact I | intros H; discriminate H
                              | intros _; eexists; reflexivity]
    | apply steady_bind; [|intros ?] | apply steady_try; [|intros ?]
    | match goal with
      | |- steady_with _ (if ?b then _ else _) => destruct b
      | |- steady_with _ (match ?x with _ => _ end) => destruct x
      end
    | progress unfold log, rhino ].

Lemma PreExecuteValidationAsync_told (template : CommandTemplate.t) (parameters : loc)
    (context : option loc) :
  CommandTemplate.CommandName template = "CreateSphere" ->
  steady_with (Env := Env)
    (fun v : ValidationResult.t =>
       ValidationResult.IsValid v = false -> is_Some (ValidationResult.ErrorMessage v))
    (PreExecuteValidationAsync template parameters context).
Proof.
  intros Hname w.
  unfold PreExecuteValidationAsync, ValidateParametersAsync, ValidateContextConstraints.
  rewrite Hname. simpl. run_monad.
  destruct (dicts w !! parameters) as [d|]; simpl.
  - unfold ValidateSphereParameters.
    destruct (d !! "radius") as [[| radius | | | | |]|]; simpl;
      try destruct (Qle_bool radius 0); simpl;
      (split; [reflexivity|]); (split; [reflexivity|]);
      intros result H; injection H as <-; simpl; intros; try discriminate; eauto.
  - split; [reflexivity|]. split; [reflexivity|]. intros result H. discriminate H.
Qed.

(** A sphere dispatch changes no dictionary, is caught by no retry loop,
    and says why when it fails. *)
Lemma sphere_dispatch_told (template : CommandTemplate.t) (parameters : loc)
    (context : option loc) :
  CommandTemplate.CommandName template = "CreateSphere" ->
  steady_with told (ExecuteRhinoCommand template parameters context).
Proof.
  intros Hname. unfold ExecuteRhinoCommand. rewrite Hname.
  apply steady_try.
  - apply steady_bind; [apply steady_emit; reflexivity|intros _].
    apply (steady_after _ _ _ _
             (PreExecuteValidationAsync_told template parameters context Hname)).
    intros v Hv. destruct (ValidationResult.IsValid v) eqn:Hvalid; simpl.
    + unfold CreateEnhancedSphere, AddCreatedObject, told. cbv zeta. steady.
    + apply steady_ret. intros _. exact (Hv eq_refl).
  - intros ex. unfold told. steady.
Qed.

Lemma ExecuteRhinoCommand_returns (template : CommandTemplate.t) (parameters : loc)
    (context : option loc) (w : World Env) :
  exists r w', ExecuteRhinoCommand template parameters context w = (Returns r, w').
Proof.
  unfold ExecuteRhinoCommand, try_catch.
  match goal with
  | |- context [match ?m w with _ => _ end] => destruct (m w) as [[r|ex] w1]
  end; [eauto|].
  run_monad. eauto.
Qed.

(** One turn of the loop on a sphere whose dictionary exists. *)
Lemma sphere_attempt (maxRetries : Z) (template : CommandTemplate.t)
    (context : option loc) (attempt : Z) (parameters : loc) (d : gmap string obj)
    (w : World Env) :
  CommandTemplate.CommandName template = "CreateSphere" ->
  dicts w !! parameters = Some d ->
  exists it w',
    attempt_body ExecuteRhinoCommand maxRetries template context attempt parameters
      None w = (Returns it, w')
    /\ alarms (trace w') = alarms (trace w)
    /\ match it with
       | Return_ _ => dicts w' = dicts w
       | Next parameters' lastException' =>
           lastException' = None
           /\ ((parameters' = parameters /\ dicts w' = dicts w)
               \/ exists d', parameters' = length (dicts w)
                             /\ dicts w' = (dicts w ++ [d'])%list
                             /\ (attempt < maxRetries - 1)%Z)
       end.
Proof.
  intros Hname Hd.
  set (w0 := record (EvExecuteRhinoCommand (CommandTemplate.CommandName template)
                       parameters) w).
  destruct (ExecuteRhinoCommand_returns template parameters context w0)
    as (r & w1 & Hrun).
  destruct (sphere_dispatch_told template parameters context Hname w0)
    as (Hdicts & Halarms & Htold).
  rewrite Hrun in Hdicts, Halarms, Htold. cbn [fst snd] in Hdicts, Halarms, Htold.
  assert (Ha1 : alarms (trace w1) = alarms (trace w)).
  { rewrite Halarms. unfold w0, record. simpl. rewrite alarms_app. apply app_nil_r. }
  assert (Hd1 : dicts w1 = dicts w) by exact Hdicts.
  clear Hdicts Halarms.
  specialize (Htold r eq_refl).
  unfold attempt_body, try_catch, bind, emit, ret. cbv beta. fold w0. rewrite Hrun.
  destruct (ProcessingResult.IsSuccess r) eqn:Hs.
  - do 2 eexists. split; [reflexivity|]. split; [exact Ha1|exact Hd1].
  - destruct (Z.ltb_spec attempt (maxRetries - 1)) as [Hlt|Hge].
    + destruct (Htold Hs) as [message Hmsg]. rewrite Hmsg.
      rewrite (AdjustParametersAsync_result parameters d message).
      2:{ simpl. rewrite Hd1. exact Hd. }
      do 2 eexists. split; [reflexivity|]. simpl.
      split.
      { rewrite alarms_app. simpl. rewrite app_nil_r. exact Ha1. }
      split; [reflexivity|]. right. exists (adjust_dict message d).
      rewrite Hd1. split; [reflexivity|]. split; [reflexivity|exact Hlt].
    + do 2 eexists. split; [reflexivity|]. split; [exact Ha1|].
      split; [reflexivity|]. left. split; [reflexivity|exact Hd1].
Qed.

Lemma sphere_retry_from (maxRetries : Z) (template : CommandTemplate.t)
    (context : option loc) (remaining : nat) :
  CommandTemplate.CommandName template = "CreateSphere" ->
  forall (attempt : Z) (parameters : loc) (d : gmap string obj) (w : World Env),
    dicts w !! parameters = Some d ->
    exists o w',
      retry_from ExecuteRhinoCommand maxRetries template context remaining
        attempt parameters None w = (o, w')
      /\ alarms (trace w') = alarms (trace w)
      /\ exists copies,
           dicts w' = (dicts w ++ copies)%list
           /\ (Z.of_nat (length copies) <= Z.max 0 (maxRetries - 1 - attempt))%Z.
Proof.
  intros Hname. induction remaining as [|n IH]; intros attempt parameters d w Hd; simpl.
  - unfold bind, emit, ret, record. simpl. do 2 eexists. split; [reflexivity|].
    simpl. split.
    + rewrite alarms_app. apply app_nil_r.
    + exists []. rewrite app_nil_r. split; [reflexivity|simpl; lia].
  - destruct (sphere_attempt maxRetries template context attempt parameters d w Hname Hd)
      as (it & w1 & Hb & Ha & Hit).
    unfold bind at 1. rewrite Hb.
    destruct it as [r|p' e'].
    + unfold ret. do 2 eexists. split; [reflexivity|]. split; [exact Ha|].
      exists []. rewrite app_nil_r. split; [exact Hit|simpl; lia].
    + destruct Hit as [-> [[-> Hsame]|(d' & -> & Hmore & Hlt)]].
      * assert (Hd1 : dicts w1 !! parameters = Some d) by (rewrite Hsame; exact Hd).
        destruct (IH (attempt + 1)%Z parameters d w1 Hd1)
          as (o & w' & Hrun & Ha' & copies & Hc & Hlen).
        exists o, w'. split; [exact Hrun|].
        split; [congruence|]. exists copies. split; [congruence|lia].
      * assert (Hd1 : dicts w1 !! length (dicts w) = Some d')
          by (rewrite Hmore; apply lookup_new).
        destruct (IH (attempt + 1)%Z (length (dicts w)) d' w1 Hd1)
          as (o & w' & Hrun & Ha' & copies & Hc & Hlen).
        exists o, w'. split; [exact Hrun|].
        split; [congruence|]. exists (d' :: copies). split.
        -- rewrite Hc, Hmore, <- app_assoc. reflexivity.
        -- simpl length. lia.
Qed.

(** A sphere command whose dictionary exists never enters the [catch] of
    the retry loop: whatever Rhino does, [ExecuteWithRetry] logs no "Attempt
    n failed" warning, never waits, and hands no exception to the failure
    handler, because [ExecuteRhinoCommand] has already turned every failure
    into an Error result with a message, which the repair accepts. The
    dictionaries that existed are left as they were; the repairs add at
    most two copies. *)
Theorem sphere_retries_never_wait
    (template : CommandTemplate.t) (parameters : loc) (d : gmap string obj)
    (context : option loc) (w : World Env) :
  CommandTemplate.CommandName template = "CreateSphere" ->
  dicts w !! parameters = Some d ->
  let run := ExecuteWithRetry template parameters context w in
  alarms (trace (snd run)) = alarms (trace w)
  /\ exists copies, dicts (snd run) = (dicts w ++ copies)%list
                    /\ (length copies <= 2)%nat.
Proof.
  intros Hname Hd run.
  destruct (sphere_retry_from defaultMaxRetries template context 3 Hname 0%Z
              parameters d w Hd) as (o & w' & Hrun & Ha & copies & Hc & Hlen).
  unfold run, ExecuteWithRetry, ExecuteWithRetry_with.
  change (Z.to_nat defaultMaxRetries) with 3%nat. rewrite Hrun.
  split; [exact Ha|]. exists copies. split; [exact Hc|].
  unfold defaultMaxRetries in Hlen. lia.
Qed.

End Steady.

(** Against a document that refuses the sphere twice before it accepts
    it: two repairs, no warning, no wait. *)
Lemma sphere_retries_never_wait_witness :
  let template := CommandTemplate.mk "CreateSphere"
                    ["center"; "radius"; "material"; "layer"] None None in
  let d : gmap string obj := {["radius" := VDouble 2]} in
  let w := mkWorld 0%Z [] ∅ [] [d] [] in
  let run := ExecuteWithRetry (host := Demo.stubborn) template 0%nat None w in
  alarms (trace (snd run)) = []
  /\ exists copies, dicts (snd run) = (dicts w ++ copies)%list
                    /\ (length copies <= 2)%nat.
Proof.
  intros template d w.
  exact (sphere_retries_never_wait (host := Demo.stubborn) template 0%nat d None w
           eq_refl eq_refl).
Defined.

(** ** What a context remembers of a sphere *)

Section Remember.
Context {Env : Type} `{host : Host Env}.
Import ParameterExtractor.

Ltac branch :=
  match goal with
  | |- context [if ?b then _ else _] => destruct b eqn:?
  | |- context [match ?X with (_, _) => _ end] =>
      lazymatch type of X with
      | (_ * World _)%type => fail
      | _ => destruct X as [[?|?] ?] eqn:?
      end
  end.

(** [CreateEnhancedSphere] writes into the context exactly when it reports
    a Success: then the context's last created object is a "sphere" with
    the id that Rhino returned, which is not the empty Guid, with the
    parameter dictionary itself (not a copy) and with the Point3d under
    "center", or the origin; the other fields of the context are kept.
    With any other result, an Error or the large-sphere Warning, the
    contexts are as they were. No dictionary is changed in either case. *)
Theorem sphere_is_remembered_iff_created
    (parameters l : loc) (d : gmap string obj) (c : ConversationContext.t)
    (w w' : World Env) (r : ProcessingResult.t) :
  dicts w !! parameters = Some d ->
  contexts w !! l = Some c ->
  CreateEnhancedSphere parameters (Some l) w = (Returns r, w') ->
  dicts w' = dicts w
  /\ (ProcessingResult.Type_ r = ProcessingResultType.Success ->
      exists id,
        id <> Guid_Empty
        /\ contexts w'
           = <[l := ConversationContext.mk
                      (ConversationContext.RecentOperations c)
                      (ConversationContext.ActiveLayer c)
                      (ConversationContext.SelectedObjects c)
                      (ConversationContext.SceneDescription c)
                      (Some (CreatedObject.mk id "sphere" parameters
                               match d !! "center" with
                               | Some (VPoint3d point) => point
                               | _ => Point3d_Origin
                               end))]> (contexts w))
  /\ (ProcessingResult.Type_ r <> ProcessingResultType.Success ->
      contexts w' = contexts w).
Proof.
  intros Hd Hc. unfold CreateEnhancedSphere, AddCreatedObject. cbv zeta.
  unfold rhino. run_monad. rewrite Hd. simpl.
  repeat first [ progress (rewrite ?Hc, ?Hd) | progress simpl | progress unfold modify
               | branch ].
  all: try (intros H; discriminate H).
  all: intros H; injection H as <- <-; simpl.
  all: (split; [reflexivity|]).
  all: split; [intros Ht; try discriminate Ht
              |intros Hn; try reflexivity; exfalso; apply Hn; reflexivity].
  all: match goal with
       | H : negb (?id =? Guid_Empty)%Z = true |- _ =>
           exists id; split; [|reflexivity];
           intros Heq; rewrite Heq in H; discriminate H
       end.
Qed.

End Remember.

(** A sphere of radius 2, accepted by the document under the id 7. *)
Lemma sphere_is_remembered_iff_created_witness :
  let d : gmap string obj := {["radius" := VDouble 2]} in
  let c := ConversationContext.new in
  let w := mkWorld 0%Z [] ∅ [] [d] [c] in
  let run := CreateEnhancedSphere (host := Demo.quiet) 0%nat (Some 0%nat) w in
  let r := ProcessingResult.Success (Some "Created sphere at p with radius f2") in
  run = (Returns r, snd run)
  /\ dicts (snd run) = dicts w
  /\ (ProcessingResult.Type_ r = ProcessingResultType.Success ->
      exists id,
        id <> Guid_Empty
        /\ contexts (snd run)
           = <[0%nat := ConversationContext.mk [] None [] None
                          (Some (CreatedObject.mk id "sphere" 0%nat Point3d_Origin))]>
               (contexts w))
  /\ (ProcessingResult.Type_ r <> ProcessingResultType.Success ->
      contexts (snd run) = contexts w).
Proof.
  intros d c w run r.
  assert (Hrun : run = (Returns r, snd run)) by (vm_compute; reflexivity).
  split; [exact Hrun|].
  exact (sphere_is_remembered_iff_created (host := Demo.quiet) 0%nat 0%nat d c w
           (snd run) r eq_refl eq_refl Hrun).
Defined.

(** ** The registered catalog at the entry point *)

Section Catalog.
Context {Env : Type} `{host : Host Env}.

Lemma missing_keyword_low_confidence (input : string) (context : option loc) :
  (forall p, In p IntentClassifier._patterns ->
             exists k, In k (IntentPattern.Keywords p)
                       /\ Str.Contains (Str.ToLowerInvariant input) k = false) ->
  Num.Qltb (IntentResult.Confidence (IntentClassifier.ClassifyIntentAsync input context))
    0.7 = true.
Proof.
  intros Hmiss. unfold IntentClassifier.ClassifyIntentAsync.
  destruct (scan_spec (Str.ToLowerInvariant input) context IntentClassifier._patterns
              IntentClassifier.initial)
    as [[-> _]|(i & p & Hi & -> & _)]; [reflexivity|].
  simpl.
  destruct (Num.Qltb (IntentClassifier.CalculateConfidence (Str.ToLowerInvariant input)
                        p context) 0.7) eqn:E; [reflexivity|].
  apply Qltb_ge in E. exfalso.
  assert (Hin : In p IntentClassifier._patterns).
  { apply list_elem_of_In. eapply list_elem_of_lookup_2. exact Hi. }
  destruct (Hmiss p Hin) as (k & Hk & Hno).
  destruct (registered_confidence (Str.ToLowerInvariant input) context p i Hi)
    as (_ & _ & Hall).
  rewrite (Hall E k Hk) in Hno. discriminate Hno.
Qed.

(** With the registered patterns, an utterance that lacks a keyword of
    each of them (for the sphere pattern: one of "sphere", "ball", "round",
    "create", "make") never gets past the classifier: the entry point logs,
    classifies and answers with [HandleLowConfidenceAsync]; no context is
    enhanced, nothing is extracted, validated or dispatched, and no
    provider is asked. *)
Theorem utterance_missing_keywords_falls_back
    (input : string) (context : option loc) (w : World Env) :
  ¬ blank (Some input) ->
  (forall p, In p IntentClassifier._patterns ->
             exists k, In k (IntentPattern.Keywords p)
                       /\ Str.Contains (Str.ToLowerInvariant input) k = false) ->
  ProcessNaturalLanguageAsync (Some input) context w
  = (Returns (FallbackHandler.HandleLowConfidenceAsync input
                (IntentClassifier.ClassifyIntentAsync input context)),
     set_trace (trace w ++
                [EvLog LogInformation ("Processing enhanced NLP input: " ++ input) None;
                 EvClassifyIntent input;
                 EvHandleLowConfidence input]) w).
Proof.
  intros Hb Hmiss.
  assert (Hw : Str.IsNullOrWhiteSpace (Some input) = false).
  { destruct (Str.IsNullOrWhiteSpace (Some input)) eqn:E; [|reflexivity].
    apply IsNullOrWhiteSpace_blank in E. contradiction. }
  pose proof (missing_keyword_low_confidence input context Hmiss) as Hc.
  unfold ProcessNaturalLanguageAsync, ProcessNaturalLanguageAsync_with, try_catch, route.
  rewrite Hw. unfold bind, log, emit, ret, record. simpl. rewrite Hc. simpl.
  unfold set_trace. simpl. rewrite <- !app_assoc. reflexivity.
Qed.

End Catalog.

(** The plain request for a sphere has neither "ball" nor "round", nor
    "box" nor any modification keyword. *)
Lemma utterance_missing_keywords_falls_back_witness :
  ProcessNaturalLanguageAsync (host := Demo.quiet)
    (Some "create a sphere with radius 5") None (Demo.start 0)
  = (Returns (FallbackHandler.HandleLowConfidenceAsync (host := Demo.quiet)
                "create a sphere with radius 5"
                (IntentClassifier.ClassifyIntentAsync "create a sphere with radius 5"
                   None)),
     set_trace [EvLog LogInformation
                  "Processing enhanced NLP input: create a sphere with radius 5" None;
                EvClassifyIntent "create a sphere with radius 5";
                EvHandleLowConfidence "create a sphere with radius 5"] (Demo.start 0)).
Proof.
  refine (utterance_missing_keywords_falls_back (host := Demo.quiet)
            "create a sphere with radius 5" None (Demo.start 0) _ _).
  - intros Hb. apply IsNullOrWhiteSpace_blank in Hb. discriminate Hb.
  - intros p [<-|[<-|[<-|[]]]].
    + exists "ball". split; [simpl; tauto|reflexivity].
    + exists "box". split; [simpl; tauto|reflexivity].
    + exists "modify". split; [simpl; tauto|reflexivity].
Defined.
